(** * X-Plane airport writer (fs/xp/xpairportwriter.cpp)

    A shallow embedding of [XpAirportWriter]: the row dispatcher [write], the
    entity binders, the pavement polygon assembler, the parking binder and the
    airport finalisation, followed by the properties of the specification.

    Conventions of the embedding
    - a line is the [QStringList] of its whitespace separated fields;
    - a [float] is an exact rational ([Q]); an [int] is a [Z];
    - a prepared [SqlQuery] is the finite map of its bound values, and
      [exec] appends a copy of that map to the log [db] of written rows;
    - the members of the writer are the fields of the record
      [XpAirportWriter], grouped by concern. *)

From Stdlib Require Import ZArith QArith Qround String Ascii List Bool Lia Lqa.
From stdpp Require Import base option gmap strings.

Import ListNotations.
Local Open Scope string_scope.
Local Open Scope list_scope.
Local Open Scope Z_scope.

(** ** Qt strings *)

Module QStr.

Definition isUpperAscii (c : ascii) : bool :=
  let n := N_of_ascii c in (N.leb 65 n && N.leb n 90)%bool.

Definition isLowerAscii (c : ascii) : bool :=
  let n := N_of_ascii c in (N.leb 97 n && N.leb n 122)%bool.

Definition lowerAscii (c : ascii) : ascii :=
  if isUpperAscii c then ascii_of_N (N_of_ascii c + 32) else c.

Definition upperAscii (c : ascii) : ascii :=
  if isLowerAscii c then ascii_of_N (N_of_ascii c - 32) else c.

(** [QString::toLower] and [QString::toUpper], on the ASCII letters. *)
Fixpoint toLower (s : string) : string :=
  match s with
  | EmptyString => EmptyString
  | String c t => String (lowerAscii c) (toLower t)
  end.

Fixpoint toUpper (s : string) : string :=
  match s with
  | EmptyString => EmptyString
  | String c t => String (upperAscii c) (toUpper t)
  end.

(** [QString::startsWith]. *)
Definition startsWith (s p : string) : bool := String.prefix p s.

(** [QString::contains], case sensitive: [needle] occurs at some offset. *)
Fixpoint contains (hay needle : string) : bool :=
  String.prefix needle hay
  || match hay with
     | EmptyString => false
     | String _ t => contains t needle
     end.

(** [QString::contains(.., Qt::CaseInsensitive)]. *)
Definition containsCI (hay needle : string) : bool :=
  contains (toLower hay) (toLower needle).

Definition isEmpty (s : string) : bool :=
  match s with EmptyString => true | _ => false end.

Definition isSpace (c : ascii) : bool :=
  let n := N_of_ascii c in (N.eqb n 32 || (N.leb 9 n && N.leb n 13))%bool.

(** Words of a string, split at white space; [cur] is the pending word,
    reversed. *)
Fixpoint wordsAux (s : string) (cur : list ascii) : list string :=
  let flush := match cur with
               | [] => []
               | _ => [string_of_list_ascii (rev cur)]
               end in
  match s with
  | EmptyString => flush
  | String c t => if isSpace c then flush ++ wordsAux t [] else wordsAux t (c :: cur)
  end.

(** [QStringList::join]. *)
Fixpoint join (sep : string) (l : list string) : string :=
  match l with
  | [] => ""
  | [x] => x
  | x :: r => x +:+ sep +:+ join sep r
  end.

(** [QString::simplified]: white space trimmed at both ends and every inner
    run of white space replaced by one blank. *)
Definition simplified (s : string) : string := join " " (wordsAux s []).

Fixpoint dropSpaces (s : string) : string :=
  match s with
  | EmptyString => EmptyString
  | String c t => if isSpace c then dropSpaces t else s
  end.

Definition revString (s : string) : string :=
  string_of_list_ascii (rev (list_ascii_of_string s)).

(** [QString::trimmed]. *)
Definition trimmed (s : string) : string :=
  revString (dropSpaces (revString (dropSpaces s))).

Definition digitValue (c : ascii) : option Z :=
  let n := N_of_ascii c in
  if (N.leb 48 n && N.leb n 57)%bool then Some (Z.of_N (n - 48)) else None.

(** Value of a run of decimal digits, [None] when another character occurs. *)
Fixpoint digits (s : string) (acc : Z) : option Z :=
  match s with
  | EmptyString => Some acc
  | String c t => match digitValue c with
                  | Some d => digits t (10 * acc + d)
                  | None => None
                  end
  end.

(** Sign and remainder of a number. *)
Definition splitSign (s : string) : bool * string :=
  match s with
  | String "-" t => (true, t)
  | String "+" t => (false, t)
  | _ => (false, s)
  end.

Definition INT_MIN : Z := - 2 ^ 31.
Definition INT_MAX : Z := 2 ^ 31 - 1.

(** [QString::toInt]: an optional sign and decimal digits; everything else,
    and a value that does not fit a 32 bit [int], gives 0. *)
Definition toInt (s : string) : Z :=
  let '(neg, body) := splitSign s in
  if isEmpty body then 0 else
  match digits body 0 with
  | Some v => let r := if neg then - v else v in
              if (Z.leb INT_MIN r && Z.leb r INT_MAX)%bool then r else 0
  | None => 0
  end.

(** Text before and after the first full stop. *)
Fixpoint splitDot (s : string) : string * option string :=
  match s with
  | EmptyString => (EmptyString, None)
  | String "." t => (EmptyString, Some t)
  | String c t => let '(a, b) := splitDot t in (String c a, b)
  end.

(** [QString::toFloat] on plain decimal notation ([-12.5], [47], [.5]);
    the exponent notation is not read here.  Everything else gives 0. *)
Definition toFloat (s : string) : Q :=
  let '(neg, body) := splitSign s in
  let '(ip, fp) := splitDot body in
  let fp := match fp with Some f => f | None => "" end in
  if (isEmpty ip && isEmpty fp)%bool then 0%Q else
  match digits ip 0, digits fp 0 with
  | Some i, Some f =>
      let scale := 10 ^ Z.of_nat (String.length fp) in
      let v := Qred (Qmake (i * scale + f) (Z.to_pos scale)) in
      if neg then Qopp v else v
  | _, _ => 0%Q
  end.

(** [QStringList::value(i)]: the empty string out of range. *)
Definition value (line : list string) (i : nat) : string := nth i line "".

(** Two digit decimal, as [QString("%1").arg(n, 2, 10, QChar('0'))] prints
    the numbers 0..99; wider numbers are printed in full. *)
Definition digitChar (d : Z) : ascii := ascii_of_N (Z.to_N d + 48).

Fixpoint decimalAux (fuel : nat) (n : Z) (acc : string) : string :=
  match fuel with
  | O => acc
  | S k => let acc := String (digitChar (n mod 10)) acc in
           if Z.ltb n 10 then acc else decimalAux k (n / 10) acc
  end.

Definition decimal (n : Z) : string :=
  if Z.ltb n 0 then "-" +:+ decimalAux 40 (- n) "" else decimalAux 40 n "".

Definition arg2 (n : Z) : string :=
  if (Z.leb 0 n && Z.ltb n 10)%bool then "0" +:+ decimal n else decimal n.

End QStr.

(** ** Geometry (geo/pos.h, geo/rect.h, geo/calculations.h)

    These headers are not part of the sources at hand.  What the writer needs
    of them is modelled here; the spherical functions (distance, bearing,
    interpolation) are parameters of the writer, see [Externals]. *)

Module Geo.

Local Open Scope Q_scope.

(** Modelled from the spec: [Pos::INVALID_VALUE], the largest [float], marks a
    coordinate that was never set. *)
Definition FLOAT_MAX : Q := 340282346638528859811704183484516925440.
Definition INVALID_VALUE : Q := FLOAT_MAX.

Record Pos := mkPos { lonX : Q; latY : Q }.

(** Modelled from the spec: the default position [Pos()] has no valid
    coordinate. *)
Definition Pos0 : Pos := mkPos INVALID_VALUE INVALID_VALUE.

Definition Qltb (a b : Q) : bool := negb (Qle_bool b a).

Definition Qabs' (a : Q) : Q := if Qle_bool 0 a then a else - a.

Definition Qmin' (a b : Q) : Q := if Qle_bool a b then a else b.
Definition Qmax' (a b : Q) : Q := if Qle_bool a b then b else a.

(** Modelled from the spec: a position is valid when both coordinates were
    set. *)
Definition isValid (p : Pos) : bool :=
  negb (Qeq_bool (lonX p) INVALID_VALUE) && negb (Qeq_bool (latY p) INVALID_VALUE).

Definition setLatY (v : Q) (p : Pos) : Pos := mkPos (lonX p) v.
Definition setLonX (v : Q) (p : Pos) : Pos := mkPos v (latY p).

Definition posEq (a b : Pos) : bool :=
  Qeq_bool (lonX a) (lonX b) && Qeq_bool (latY a) (latY b).

(** A rectangle: north west and south east corner. *)
Record Rect := mkRect { topLeft : Pos; bottomRight : Pos }.

(** [Rect()]: no corner set. *)
Definition Rect0 : Rect := mkRect Pos0 Pos0.

(** [Rect(pos)]: the rectangle of one point. *)
Definition RectOf (p : Pos) : Rect := mkRect p p.

Definition rectIsValid (r : Rect) : bool :=
  isValid (topLeft r) && isValid (bottomRight r).

(** Modelled from the spec: a degenerate single-point rectangle. *)
Definition isPoint (r : Rect) : bool :=
  rectIsValid r && posEq (topLeft r) (bottomRight r).

(** Modelled from the spec: bounding rectangle accumulation.  An invalid
    position is not added; the first position makes the rectangle of that
    point; later ones widen it.  The date line is not treated. *)
Definition extend (p : Pos) (r : Rect) : Rect :=
  if negb (isValid p) then r
  else if negb (rectIsValid r) then RectOf p
  else mkRect (mkPos (Qmin' (lonX (topLeft r)) (lonX p)) (Qmax' (latY (topLeft r)) (latY p)))
              (mkPos (Qmax' (lonX (bottomRight r)) (lonX p)) (Qmin' (latY (bottomRight r)) (latY p))).

(** Modelled from the spec: the rectangle grown by a margin in degrees. *)
Definition inflate (dLonX dLatY : Q) (r : Rect) : Rect :=
  mkRect (mkPos (lonX (topLeft r) - dLonX) (latY (topLeft r) + dLatY))
         (mkPos (lonX (bottomRight r) + dLonX) (latY (bottomRight r) - dLatY)).

Definition rectContains (r : Rect) (p : Pos) : bool :=
  Qle_bool (lonX (topLeft r)) (lonX p) && Qle_bool (lonX p) (lonX (bottomRight r))
  && Qle_bool (latY (bottomRight r)) (latY p) && Qle_bool (latY p) (latY (topLeft r)).

Definition getCenter (r : Rect) : Pos :=
  mkPos (Qred ((lonX (topLeft r) + lonX (bottomRight r)) / 2))
        (Qred ((latY (topLeft r) + latY (bottomRight r)) / 2)).

(** Modelled from the spec: "a fixed small epsilon margin (~100m)", in
    degrees. *)
Definition POS_EPSILON_100M : Q := 9 # 10000.

(** Modelled from the spec: metres to feet. *)
Definition meterToFeet (m : Q) : Q := Qred (m * (10000 # 3048)).

(** Modelled from the spec: the opposite course. *)
Definition opposedCourseDeg (course : Q) : Q := course + 180.

(** Modelled from the spec: a course "normalized to [0,360)". *)
Definition normalizeCourse (course : Q) : Q :=
  Qred (course - 360 * inject_Z (Qfloor (course / 360))).

End Geo.

Export Geo(Pos, mkPos, lonX, latY, Rect, mkRect, topLeft, bottomRight).

(** ** Pavement geometry (fs/xp/xpgeometry.h, not among the sources) *)

Module XpGeometry.

(** A node and its Bezier control point (invalid for a plain node). *)
Definition Node : Type := Pos * Pos.

Record t := mk { boundary : list Node; holes : list (list Node) }.

Definition clear : t := mk [] [].

(** Modelled from the spec: "append to boundary". *)
Definition addBoundaryNode (node control : Pos) (g : t) : t :=
  mk (boundary g ++ [(node, control)]) (holes g).

(** The last ring extended by one node; no ring, no change. *)
Fixpoint appendToLast (n : Node) (rings : list (list Node)) : list (list Node) :=
  match rings with
  | [] => []
  | [r] => [r ++ [n]]
  | r :: rest => r :: appendToLast n rest
  end.

(** Modelled from the spec: "append to current hole, starting a new hole if
    startingNewHole is set". *)
Definition addHoleNode (node control : Pos) (newHole : bool) (g : t) : t :=
  let rings := if newHole then holes g ++ [[]] else holes g in
  mk (boundary g) (appendToLast (node, control) rings).

End XpGeometry.

(** ** Values bound to a query *)

Inductive QVariant :=
| QNull                                (* QVariant(QVariant::String), ::Int *)
| QInt (z : Z)
| QFloat (q : Q)
| QString (s : string)
| QBool (b : bool)
| QByteArray (g : XpGeometry.t).      (* XpGeometry::writeToByteArray *)

(** [QVariant::toString] of a text; an invalid or null variant gives the
    empty string. *)
Definition toString (v : option QVariant) : string :=
  match v with
  | Some (QString s) => s
  | _ => ""
  end.

(** [SqlRecord::valueFloat]. *)
Definition toFloatV (v : option QVariant) : Q :=
  match v with
  | Some (QFloat q) => q
  | Some (QInt z) => inject_Z z
  | _ => 0%Q
  end.

(** The bound values of a prepared query, and a record of named values. *)
Abbreviation SqlRecord := (gmap string QVariant).

(** The prepared insert statements of the writer, one per table. *)
Inductive SqlQueryId :=
| insertAirportQuery | insertRunwayQuery | insertRunwayEndQuery
| insertHelipadQuery | insertComQuery | insertStartQuery
| insertParkingQuery | insertApronQuery | insertTaxiQuery
| insertAirportFileQuery.

#[global] Instance SqlQueryId_eq_dec : EqDecision SqlQueryId.
Proof. solve_decision. Defined.

(** ** Row codes and enumerations (fs/xp/xpconstants.h) *)

Inductive AirportRowCode :=
| NO_ROWCODE
| LAND_AIRPORT_HEADER | SEAPLANE_BASE_HEADER | HELIPORT_HEADER
| LAND_RUNWAY | WATER_RUNWAY | HELIPAD
| PAVEMENT_HEADER | LINEAR_FEATURE_HEADER | AIRPORT_BOUNDARY_HEADER
| NODE | NODE_AND_CONTROL_POINT | NODE_CLOSE | NODE_AND_CONTROL_POINT_CLOSE
| NODE_TERMINATING_A_STRING | NODE_WITH_BEZIER_CONTROL_POINT_NO_CLOSE
| AIRPORT_VIEWPOINT | AEROPLANE_STARTUP_LOCATION | AIRPORT_LIGHT_BEACON
| WINDSOCK | TAXIWAY_SIGN | LIGHTING_OBJECT
| AIRPORT_TRAFFIC_FLOW | TRAFFIC_FLOW_WIND_RULE
| TRAFFIC_FLOW_MINIMUM_CEILING_RULE | TRAFFIC_FLOW_MINIMUM_VISIBILITY_RULE
| TRAFFIC_FLOW_TIME_RULE | RUNWAY_IN_USE | VFR_TRAFFIC_PATTERN
| HEADER_INDICATING_THAT_TAXI_ROUTE_NETWORK_DATA_FOLLOWS
| TAXI_ROUTE_NETWORK_NODE | TAXI_ROUTE_NETWORK_EDGE | TAXI_ROUTE_EDGE_ACTIVE_ZONE
| AIRPORT_LOCATION | RAMP_START_METADATA | METADATA_RECORDS
| TRUCK_PARKING_LOCATION | TRUCK_DESTINATION_LOCATION
| COM_WEATHER | COM_UNICOM | COM_CLEARANCE | COM_GROUND | COM_TOWER
| COM_APPROACH | COM_DEPARTURE
| OTHER_ROWCODE (code : Z).            (* an [int] that names no enumerator *)

#[global] Instance AirportRowCode_eq_dec : EqDecision AirportRowCode.
Proof. solve_decision. Defined.

(** Modelled from the spec: the numbers of the row codes, those of the
    scenery file format ([xpconstants.h] is not among the sources). *)
Definition rowCodeTable : list (Z * AirportRowCode) :=
  [ (0, NO_ROWCODE); (1, LAND_AIRPORT_HEADER); (16, SEAPLANE_BASE_HEADER);
    (17, HELIPORT_HEADER); (100, LAND_RUNWAY); (101, WATER_RUNWAY);
    (102, HELIPAD); (110, PAVEMENT_HEADER); (120, LINEAR_FEATURE_HEADER);
    (130, AIRPORT_BOUNDARY_HEADER); (111, NODE); (112, NODE_AND_CONTROL_POINT);
    (113, NODE_CLOSE); (114, NODE_AND_CONTROL_POINT_CLOSE);
    (115, NODE_TERMINATING_A_STRING);
    (116, NODE_WITH_BEZIER_CONTROL_POINT_NO_CLOSE); (14, AIRPORT_VIEWPOINT);
    (15, AEROPLANE_STARTUP_LOCATION); (18, AIRPORT_LIGHT_BEACON);
    (19, WINDSOCK); (20, TAXIWAY_SIGN); (21, LIGHTING_OBJECT);
    (1000, AIRPORT_TRAFFIC_FLOW); (1001, TRAFFIC_FLOW_WIND_RULE);
    (1002, TRAFFIC_FLOW_MINIMUM_CEILING_RULE);
    (1003, TRAFFIC_FLOW_MINIMUM_VISIBILITY_RULE);
    (1004, TRAFFIC_FLOW_TIME_RULE); (1100, RUNWAY_IN_USE);
    (1101, VFR_TRAFFIC_PATTERN);
    (1200, HEADER_INDICATING_THAT_TAXI_ROUTE_NETWORK_DATA_FOLLOWS);
    (1201, TAXI_ROUTE_NETWORK_NODE); (1202, TAXI_ROUTE_NETWORK_EDGE);
    (1204, TAXI_ROUTE_EDGE_ACTIVE_ZONE); (1300, AIRPORT_LOCATION);
    (1301, RAMP_START_METADATA); (1302, METADATA_RECORDS);
    (1400, TRUCK_PARKING_LOCATION); (1401, TRUCK_DESTINATION_LOCATION);
    (50, COM_WEATHER); (51, COM_UNICOM); (52, COM_CLEARANCE);
    (53, COM_GROUND); (54, COM_TOWER); (55, COM_APPROACH);
    (56, COM_DEPARTURE) ].

Fixpoint enumOfInt {E : Type} (table : list (Z * E)) (other : Z -> E) (z : Z) : E :=
  match table with
  | [] => other z
  | (k, e) :: rest => if Z.eqb k z then e else enumOfInt rest other z
  end.

(** [static_cast<AirportRowCode>(int)]. *)
Definition toAirportRowCode (z : Z) : AirportRowCode :=
  enumOfInt rowCodeTable OTHER_ROWCODE z.

(** [atools::contains(value, {...})]. *)
Definition containsCode (c : AirportRowCode) (l : list AirportRowCode) : bool :=
  existsb (fun x => bool_decide (c = x)) l.

Inductive Surface :=
| UNKNOWN | TRANSPARENT | ASPHALT | CONCRETE | TURF_OR_GRASS | DRY_LAKEBED
| DIRT | GRAVEL | WATER | SNOW_OR_ICE
| OTHER_SURFACE (code : Z).

(** Modelled from the spec: the surface codes of the scenery file format. *)
Definition toSurface (z : Z) : Surface :=
  enumOfInt [ (0, UNKNOWN); (15, TRANSPARENT); (1, ASPHALT); (2, CONCRETE);
              (3, TURF_OR_GRASS); (12, DRY_LAKEBED); (4, DIRT); (5, GRAVEL);
              (13, WATER); (14, SNOW_OR_ICE) ] OTHER_SURFACE z.

Definition surfaceToDb (value : Surface) : string :=
  match value with
  | UNKNOWN => "UNKNOWN"
  | TRANSPARENT => "TR"
  | ASPHALT => "A"
  | CONCRETE => "C"
  | TURF_OR_GRASS => "G"
  | DRY_LAKEBED | DIRT => "D"
  | GRAVEL => "GR"
  | WATER => "W"
  | SNOW_OR_ICE => "SN"
  | OTHER_SURFACE _ => ""
  end.

Definition isSurfaceHard (value : Surface) : bool :=
  match value with
  | UNKNOWN | TRANSPARENT | ASPHALT | CONCRETE => true
  | _ => false
  end.

Definition isSurfaceSoft (value : Surface) : bool :=
  match value with
  | TURF_OR_GRASS | DRY_LAKEBED | DIRT | GRAVEL | SNOW_OR_ICE => true
  | _ => false
  end.

Definition isSurfaceWater (value : Surface) : bool :=
  match value with
  | WATER => true
  | _ => false
  end.

Inductive Marking :=
| NO_MARKING | VISUAL | NON_PAP | PAP | UK_NON_PAP | UK_PAP
| OTHER_MARKING (code : Z).

Definition toMarking (z : Z) : Marking :=
  enumOfInt [ (0, NO_MARKING); (1, VISUAL); (2, NON_PAP); (3, PAP);
              (4, UK_NON_PAP); (5, UK_PAP) ] OTHER_MARKING z.

(** The runway marking flags of [bgl::rw], as listed in [markingToDb]. *)
Module rw_flags.
Definition NO_FLAGS : Z := 0.
Definition EDGES : Z := Z.shiftl 1 0.
Definition THRESHOLD : Z := Z.shiftl 1 1.
Definition FIXED_DISTANCE : Z := Z.shiftl 1 2.
Definition TOUCHDOWN : Z := Z.shiftl 1 3.
Definition DASHES : Z := Z.shiftl 1 4.
Definition IDENT : Z := Z.shiftl 1 5.
Definition PRECISION : Z := Z.shiftl 1 6.
Definition EDGE_PAVEMENT : Z := Z.shiftl 1 7.
Definition ALTERNATE_THRESHOLD : Z := Z.shiftl 1 13.
Definition ALTERNATE_FIXEDDISTANCE : Z := Z.shiftl 1 14.
Definition ALTERNATE_TOUCHDOWN : Z := Z.shiftl 1 15.
Definition ALTERNATE_PRECISION : Z := Z.shiftl 1 21.
End rw_flags.

Definition lorAll (l : list Z) : Z := fold_right Z.lor 0 l.

Definition markingToDb (value : Marking) : Z :=
  let flags :=
    match value with
    | NO_MARKING => rw_flags.NO_FLAGS
    | VISUAL => lorAll [rw_flags.EDGES; rw_flags.DASHES; rw_flags.IDENT]
    | NON_PAP =>
        lorAll [rw_flags.EDGES; rw_flags.THRESHOLD; rw_flags.FIXED_DISTANCE;
                rw_flags.TOUCHDOWN; rw_flags.DASHES; rw_flags.IDENT;
                rw_flags.EDGE_PAVEMENT]
    | PAP =>
        lorAll [rw_flags.EDGES; rw_flags.THRESHOLD; rw_flags.FIXED_DISTANCE;
                rw_flags.TOUCHDOWN; rw_flags.DASHES; rw_flags.IDENT;
                rw_flags.PRECISION; rw_flags.EDGE_PAVEMENT]
    | UK_NON_PAP =>
        lorAll [rw_flags.EDGES; rw_flags.ALTERNATE_THRESHOLD;
                rw_flags.ALTERNATE_FIXEDDISTANCE; rw_flags.ALTERNATE_TOUCHDOWN;
                rw_flags.DASHES; rw_flags.IDENT; rw_flags.EDGE_PAVEMENT]
    | UK_PAP =>
        lorAll [rw_flags.EDGES; rw_flags.ALTERNATE_THRESHOLD;
                rw_flags.ALTERNATE_FIXEDDISTANCE; rw_flags.ALTERNATE_TOUCHDOWN;
                rw_flags.DASHES; rw_flags.IDENT; rw_flags.ALTERNATE_PRECISION;
                rw_flags.EDGE_PAVEMENT]
    | OTHER_MARKING _ => rw_flags.NO_FLAGS
    end in
  flags.

Inductive ApproachLight :=
| NO_ALS | ALSF_I | ALSF_II | CALVERT | CALVERT_ILS | SSALR | SSALF | SALS
| MALSR | MALSF | MALS | ODALS | RAIL
| OTHER_ALS (code : Z).

Definition toApproachLight (z : Z) : ApproachLight :=
  enumOfInt [ (0, NO_ALS); (1, ALSF_I); (2, ALSF_II); (3, CALVERT);
              (4, CALVERT_ILS); (5, SSALR); (6, SSALF); (7, SALS); (8, MALSR);
              (9, MALSF); (10, MALS); (11, ODALS); (12, RAIL) ] OTHER_ALS z.

Definition alsToDb (value : ApproachLight) : string :=
  match value with
  | NO_ALS => ""
  | ALSF_I => "ALSF1"
  | ALSF_II => "ALSF2"
  | CALVERT => "CALVERT"
  | CALVERT_ILS => "CALVERT2"
  | SSALR => "SSALR"
  | SSALF => "SSALF"
  | SALS => "SALS"
  | MALSR => "MALSR"
  | MALSF => "MALSF"
  | MALS => "MALS"
  | ODALS => "ODALS"
  | RAIL => "RAIL"
  | OTHER_ALS _ => ""
  end.

Inductive ApproachIndicator :=
| NO_APPR_INDICATOR | VASI | PAPI_4L | PAPI_4R | SPACE_SHUTTLE_PAPI
| TRI_COLOR_VASI | RUNWAY_GUARD
| OTHER_APPR_INDICATOR (code : Z).

Definition toApproachIndicator (z : Z) : ApproachIndicator :=
  enumOfInt [ (0, NO_APPR_INDICATOR); (1, VASI); (2, PAPI_4L); (3, PAPI_4R);
              (4, SPACE_SHUTTLE_PAPI); (5, TRI_COLOR_VASI); (6, RUNWAY_GUARD) ]
            OTHER_APPR_INDICATOR z.

Definition approachIndicatorToDb (value : ApproachIndicator) : string :=
  match value with
  | VASI => "VASI22"
  | PAPI_4L => "PAPI4"
  | PAPI_4R => "PAPI4"
  | SPACE_SHUTTLE_PAPI => "PAPI4"
  | TRI_COLOR_VASI => "TRICOLOR"
  | RUNWAY_GUARD => "GUARD"
  | NO_APPR_INDICATOR => ""
  | OTHER_APPR_INDICATOR _ => ""
  end.

(** ** The collaborators of the writer *)

(** [XpWriterContext]: what the reader of the file passes along with a
    line. *)
Record XpWriterContext := {
  curFileId : Z;
  IS_ADDON : bool;                       (* context.flags.testFlag(IS_ADDON) *)
  IS_3D : bool;
  localPath : string;
  fileName : string;
  getMagVar : Pos -> Q                   (* context.magDecReader->getMagVar *)
}.

(** Functions of other parts of the library that the writer calls and that
    are not among the sources: taken as parameters. *)
Record Externals := {
  isIncludedAirportIdent : string -> bool;       (* NavDatabaseOptions *)
  isNameClosed : string -> bool;                 (* fs/util/fsutil.h *)
  isNameMilitary : string -> bool;
  capAirportName : string -> string;
  calculateAirportRatingXp : bool -> bool -> bool -> Z -> Z -> Z -> Z;
  distanceMeterTo : Pos -> Pos -> Q;             (* geo/pos.h *)
  angleDegTo : Pos -> Pos -> Q;
  interpolate : Pos -> Pos -> Q -> Q -> Pos
}.

(** Modelled from the spec: the airport index, "a black-box key->id map";
    [addAirport] refuses an identifier that is registered already. *)
Module AirportIndex.

Record t := mk {
  airports : gmap string Z;
  runwayEnds : gmap (string * string) Z
}.

Definition empty : t := mk ∅ ∅.

Definition addAirport (ident : string) (airportId : Z) (ix : t) : bool * t :=
  match airports ix !! ident with
  | Some _ => (false, ix)
  | None => (true, mk (<[ident := airportId]> (airports ix)) (runwayEnds ix))
  end.

Definition addRunwayEnd (ident name : string) (runwayEndId : Z) (ix : t) : t :=
  mk (airports ix) (<[(ident, name) := runwayEndId]> (runwayEnds ix)).

End AirportIndex.

(** ** The members of the writer *)

(** The state flags of the session and of the two assemblers. *)
Record Flags := mkFlags {
  writingAirport : bool;
  ignoringAirport : bool;
  writingPavementBoundary : bool;
  writingPavementHoles : bool;
  writingPavementNewHole : bool;
  writingStartLocation : bool;
  hasTower : bool;
  airportClosed : bool
}.

Definition set_writingAirport (v : bool) (r : Flags) : Flags :=
  mkFlags v (ignoringAirport r) (writingPavementBoundary r)
    (writingPavementHoles r) (writingPavementNewHole r)
    (writingStartLocation r) (hasTower r) (airportClosed r).

Definition set_ignoringAirport (v : bool) (r : Flags) : Flags :=
  mkFlags (writingAirport r) v (writingPavementBoundary r)
    (writingPavementHoles r) (writingPavementNewHole r)
    (writingStartLocation r) (hasTower r) (airportClosed r).

Definition set_writingPavementBoundary (v : bool) (r : Flags) : Flags :=
  mkFlags (writingAirport r) (ignoringAirport r) v (writingPavementHoles r)
    (writingPavementNewHole r) (writingStartLocation r) (hasTower r)
    (airportClosed r).

Definition set_writingPavementHoles (v : bool) (r : Flags) : Flags :=
  mkFlags (writingAirport r) (ignoringAirport r) (writingPavementBoundary r)
    v (writingPavementNewHole r) (writingStartLocation r) (hasTower r)
    (airportClosed r).

Definition set_writingPavementNewHole (v : bool) (r : Flags) : Flags :=
  mkFlags (writingAirport r) (ignoringAirport r) (writingPavementBoundary r)
    (writingPavementHoles r) v (writingStartLocation r) (hasTower r)
    (airportClosed r).

Definition set_writingStartLocation (v : bool) (r : Flags) : Flags :=
  mkFlags (writingAirport r) (ignoringAirport r) (writingPavementBoundary r)
    (writingPavementHoles r) (writingPavementNewHole r) v (hasTower r)
    (airportClosed r).

Definition set_hasTower (v : bool) (r : Flags) : Flags :=
  mkFlags (writingAirport r) (ignoringAirport r) (writingPavementBoundary r)
    (writingPavementHoles r) (writingPavementNewHole r)
    (writingStartLocation r) v (airportClosed r).

Definition set_airportClosed (v : bool) (r : Flags) : Flags :=
  mkFlags (writingAirport r) (ignoringAirport r) (writingPavementBoundary r)
    (writingPavementHoles r) (writingPavementNewHole r)
    (writingStartLocation r) (hasTower r) v.

(** The running primary keys. *)
Record Ids := mkIds {
  curAirportId : Z;
  curRunwayEndId : Z;
  curStartId : Z;
  curHelipadId : Z;
  curComId : Z;
  curParkingId : Z;
  curApronId : Z;
  curTaxiPathId : Z;
  curAirportFileId : Z;
  curHelipadStartNumber : Z
}.

Definition set_curAirportId (v : Z) (r : Ids) : Ids :=
  mkIds v (curRunwayEndId r) (curStartId r) (curHelipadId r) (curComId r)
    (curParkingId r) (curApronId r) (curTaxiPathId r) (curAirportFileId r)
    (curHelipadStartNumber r).

Definition set_curRunwayEndId (v : Z) (r : Ids) : Ids :=
  mkIds (curAirportId r) v (curStartId r) (curHelipadId r) (curComId r)
    (curParkingId r) (curApronId r) (curTaxiPathId r) (curAirportFileId r)
    (curHelipadStartNumber r).

Definition set_curStartId (v : Z) (r : Ids) : Ids :=
  mkIds (curAirportId r) (curRunwayEndId r) v (curHelipadId r) (curComId r)
    (curParkingId r) (curApronId r) (curTaxiPathId r) (curAirportFileId r)
    (curHelipadStartNumber r).

Definition set_curHelipadId (v : Z) (r : Ids) : Ids :=
  mkIds (curAirportId r) (curRunwayEndId r) (curStartId r) v (curComId r)
    (curParkingId r) (curApronId r) (curTaxiPathId r) (curAirportFileId r)
    (curHelipadStartNumber r).

Definition set_curComId (v : Z) (r : Ids) : Ids :=
  mkIds (curAirportId r) (curRunwayEndId r) (curStartId r) (curHelipadId r)
    v (curParkingId r) (curApronId r) (curTaxiPathId r) (curAirportFileId r)
    (curHelipadStartNumber r).

Definition set_curParkingId (v : Z) (r : Ids) : Ids :=
  mkIds (curAirportId r) (curRunwayEndId r) (curStartId r) (curHelipadId r)
    (curComId r) v (curApronId r) (curTaxiPathId r) (curAirportFileId r)
    (curHelipadStartNumber r).

Definition set_curApronId (v : Z) (r : Ids) : Ids :=
  mkIds (curAirportId r) (curRunwayEndId r) (curStartId r) (curHelipadId r)
    (curComId r) (curParkingId r) v (curTaxiPathId r) (curAirportFileId r)
    (curHelipadStartNumber r).

Definition set_curTaxiPathId (v : Z) (r : Ids) : Ids :=
  mkIds (curAirportId r) (curRunwayEndId r) (curStartId r) (curHelipadId r)
    (curComId r) (curParkingId r) (curApronId r) v (curAirportFileId r)
    (curHelipadStartNumber r).

Definition set_curAirportFileId (v : Z) (r : Ids) : Ids :=
  mkIds (curAirportId r) (curRunwayEndId r) (curStartId r) (curHelipadId r)
    (curComId r) (curParkingId r) (curApronId r) (curTaxiPathId r) v
    (curHelipadStartNumber r).

Definition set_curHelipadStartNumber (v : Z) (r : Ids) : Ids :=
  mkIds (curAirportId r) (curRunwayEndId r) (curStartId r) (curHelipadId r)
    (curComId r) (curParkingId r) (curApronId r) (curTaxiPathId r)
    (curAirportFileId r) v.

(** The counters of the current airport. *)
Record Counts := mkCounts {
  numRunway : Z;
  numSoftRunway : Z;
  numWaterRunway : Z;
  numHardRunway : Z;
  numHelipad : Z;
  numLightRunway : Z;
  numParkingGate : Z;
  numParkingGaRamp : Z;
  numParkingCargo : Z;
  numParkingMilCargo : Z;
  numParkingMilCombat : Z;
  numCom : Z;
  numStart : Z;
  numRunwayEndVasi : Z;
  numApron : Z;
  numTaxiPath : Z;
  numRunwayEndAls : Z;
  numParking : Z
}.

Definition set_numRunway (v : Z) (r : Counts) : Counts :=
  mkCounts v (numSoftRunway r) (numWaterRunway r) (numHardRunway r)
    (numHelipad r) (numLightRunway r) (numParkingGate r) (numParkingGaRamp
    r) (numParkingCargo r) (numParkingMilCargo r) (numParkingMilCombat r)
    (numCom r) (numStart r) (numRunwayEndVasi r) (numApron r) (numTaxiPath
    r) (numRunwayEndAls r) (numParking r).

Definition set_numSoftRunway (v : Z) (r : Counts) : Counts :=
  mkCounts (numRunway r) v (numWaterRunway r) (numHardRunway r) (numHelipad
    r) (numLightRunway r) (numParkingGate r) (numParkingGaRamp r)
    (numParkingCargo r) (numParkingMilCargo r) (numParkingMilCombat r)
    (numCom r) (numStart r) (numRunwayEndVasi r) (numApron r) (numTaxiPath
    r) (numRunwayEndAls r) (numParking r).

Definition set_numWaterRunway (v : Z) (r : Counts) : Counts :=
  mkCounts (numRunway r) (numSoftRunway r) v (numHardRunway r) (numHelipad
    r) (numLightRunway r) (numParkingGate r) (numParkingGaRamp r)
    (numParkingCargo r) (numParkingMilCargo r) (numParkingMilCombat r)
    (numCom r) (numStart r) (numRunwayEndVasi r) (numApron r) (numTaxiPath
    r) (numRunwayEndAls r) (numParking r).

Definition set_numHardRunway (v : Z) (r : Counts) : Counts :=
  mkCounts (numRunway r) (numSoftRunway r) (numWaterRunway r) v (numHelipad
    r) (numLightRunway r) (numParkingGate r) (numParkingGaRamp r)
    (numParkingCargo r) (numParkingMilCargo r) (numParkingMilCombat r)
    (numCom r) (numStart r) (numRunwayEndVasi r) (numApron r) (numTaxiPath
    r) (numRunwayEndAls r) (numParking r).

Definition set_numHelipad (v : Z) (r : Counts) : Counts :=
  mkCounts (numRunway r) (numSoftRunway r) (numWaterRunway r) (numHardRunway
    r) v (numLightRunway r) (numParkingGate r) (numParkingGaRamp r)
    (numParkingCargo r) (numParkingMilCargo r) (numParkingMilCombat r)
    (numCom r) (numStart r) (numRunwayEndVasi r) (numApron r) (numTaxiPath
    r) (numRunwayEndAls r) (numParking r).

Definition set_numLightRunway (v : Z) (r : Counts) : Counts :=
  mkCounts (numRunway r) (numSoftRunway r) (numWaterRunway r) (numHardRunway
    r) (numHelipad r) v (numParkingGate r) (numParkingGaRamp r)
    (numParkingCargo r) (numParkingMilCargo r) (numParkingMilCombat r)
    (numCom r) (numStart r) (numRunwayEndVasi r) (numApron r) (numTaxiPath
    r) (numRunwayEndAls r) (numParking r).

Definition set_numParkingGate (v : Z) (r : Counts) : Counts :=
  mkCounts (numRunway r) (numSoftRunway r) (numWaterRunway r) (numHardRunway
    r) (numHelipad r) (numLightRunway r) v (numParkingGaRamp r)
    (numParkingCargo r) (numParkingMilCargo r) (numParkingMilCombat r)
    (numCom r) (numStart r) (numRunwayEndVasi r) (numApron r) (numTaxiPath
    r) (numRunwayEndAls r) (numParking r).

Definition set_numParkingGaRamp (v : Z) (r : Counts) : Counts :=
  mkCounts (numRunway r) (numSoftRunway r) (numWaterRunway r) (numHardRunway
    r) (numHelipad r) (numLightRunway r) (numParkingGate r) v
    (numParkingCargo r) (numParkingMilCargo r) (numParkingMilCombat r)
    (numCom r) (numStart r) (numRunwayEndVasi r) (numApron r) (numTaxiPath
    r) (numRunwayEndAls r) (numParking r).

Definition set_numParkingCargo (v : Z) (r : Counts) : Counts :=
  mkCounts (numRunway r) (numSoftRunway r) (numWaterRunway r) (numHardRunway
    r) (numHelipad r) (numLightRunway r) (numParkingGate r)
    (numParkingGaRamp r) v (numParkingMilCargo r) (numParkingMilCombat r)
    (numCom r) (numStart r) (numRunwayEndVasi r) (numApron r) (numTaxiPath
    r) (numRunwayEndAls r) (numParking r).

Definition set_numParkingMilCargo (v : Z) (r : Counts) : Counts :=
  mkCounts (numRunway r) (numSoftRunway r) (numWaterRunway r) (numHardRunway
    r) (numHelipad r) (numLightRunway r) (numParkingGate r)
    (numParkingGaRamp r) (numParkingCargo r) v (numParkingMilCombat r)
    (numCom r) (numStart r) (numRunwayEndVasi r) (numApron r) (numTaxiPath
    r) (numRunwayEndAls r) (numParking r).

Definition set_numParkingMilCombat (v : Z) (r : Counts) : Counts :=
  mkCounts (numRunway r) (numSoftRunway r) (numWaterRunway r) (numHardRunway
    r) (numHelipad r) (numLightRunway r) (numParkingGate r)
    (numParkingGaRamp r) (numParkingCargo r) (numParkingMilCargo r) v
    (numCom r) (numStart r) (numRunwayEndVasi r) (numApron r) (numTaxiPath
    r) (numRunwayEndAls r) (numParking r).

Definition set_numCom (v : Z) (r : Counts) : Counts :=
  mkCounts (numRunway r) (numSoftRunway r) (numWaterRunway r) (numHardRunway
    r) (numHelipad r) (numLightRunway r) (numParkingGate r)
    (numParkingGaRamp r) (numParkingCargo r) (numParkingMilCargo r)
    (numParkingMilCombat r) v (numStart r) (numRunwayEndVasi r) (numApron r)
    (numTaxiPath r) (numRunwayEndAls r) (numParking r).

Definition set_numStart (v : Z) (r : Counts) : Counts :=
  mkCounts (numRunway r) (numSoftRunway r) (numWaterRunway r) (numHardRunway
    r) (numHelipad r) (numLightRunway r) (numParkingGate r)
    (numParkingGaRamp r) (numParkingCargo r) (numParkingMilCargo r)
    (numParkingMilCombat r) (numCom r) v (numRunwayEndVasi r) (numApron r)
    (numTaxiPath r) (numRunwayEndAls r) (numParking r).

Definition set_numRunwayEndVasi (v : Z) (r : Counts) : Counts :=
  mkCounts (numRunway r) (numSoftRunway r) (numWaterRunway r) (numHardRunway
    r) (numHelipad r) (numLightRunway r) (numParkingGate r)
    (numParkingGaRamp r) (numParkingCargo r) (numParkingMilCargo r)
    (numParkingMilCombat r) (numCom r) (numStart r) v (numApron r)
    (numTaxiPath r) (numRunwayEndAls r) (numParking r).

Definition set_numApron (v : Z) (r : Counts) : Counts :=
  mkCounts (numRunway r) (numSoftRunway r) (numWaterRunway r) (numHardRunway
    r) (numHelipad r) (numLightRunway r) (numParkingGate r)
    (numParkingGaRamp r) (numParkingCargo r) (numParkingMilCargo r)
    (numParkingMilCombat r) (numCom r) (numStart r) (numRunwayEndVasi r) v
    (numTaxiPath r) (numRunwayEndAls r) (numParking r).

Definition set_numTaxiPath (v : Z) (r : Counts) : Counts :=
  mkCounts (numRunway r) (numSoftRunway r) (numWaterRunway r) (numHardRunway
    r) (numHelipad r) (numLightRunway r) (numParkingGate r)
    (numParkingGaRamp r) (numParkingCargo r) (numParkingMilCargo r)
    (numParkingMilCombat r) (numCom r) (numStart r) (numRunwayEndVasi r)
    (numApron r) v (numRunwayEndAls r) (numParking r).

Definition set_numRunwayEndAls (v : Z) (r : Counts) : Counts :=
  mkCounts (numRunway r) (numSoftRunway r) (numWaterRunway r) (numHardRunway
    r) (numHelipad r) (numLightRunway r) (numParkingGate r)
    (numParkingGaRamp r) (numParkingCargo r) (numParkingMilCargo r)
    (numParkingMilCombat r) (numCom r) (numStart r) (numRunwayEndVasi r)
    (numApron r) (numTaxiPath r) v (numParking r).

Definition set_numParking (v : Z) (r : Counts) : Counts :=
  mkCounts (numRunway r) (numSoftRunway r) (numWaterRunway r) (numHardRunway
    r) (numHelipad r) (numLightRunway r) (numParkingGate r)
    (numParkingGaRamp r) (numParkingCargo r) (numParkingMilCargo r)
    (numParkingMilCombat r) (numCom r) (numStart r) (numRunwayEndVasi r)
    (numApron r) (numTaxiPath r) (numRunwayEndAls r) v.

(** Positions and the longest runway of the current airport. *)
Record AirportGeo := mkAirportGeo {
  airportRect : Rect;
  airportPos : Pos;
  airportDatumPos : Pos;
  longestRunwayCenterPos : Pos;
  longestRunwayLength : Q;
  longestRunwayWidth : Q;
  longestRunwayHeading : Q;
  longestRunwaySurface : string;
  airportAltitude : Q
}.

Definition set_airportRect (v : Rect) (r : AirportGeo) : AirportGeo :=
  mkAirportGeo v (airportPos r) (airportDatumPos r) (longestRunwayCenterPos
    r) (longestRunwayLength r) (longestRunwayWidth r) (longestRunwayHeading
    r) (longestRunwaySurface r) (airportAltitude r).

Definition set_airportPos (v : Pos) (r : AirportGeo) : AirportGeo :=
  mkAirportGeo (airportRect r) v (airportDatumPos r) (longestRunwayCenterPos
    r) (longestRunwayLength r) (longestRunwayWidth r) (longestRunwayHeading
    r) (longestRunwaySurface r) (airportAltitude r).

Definition set_airportDatumPos (v : Pos) (r : AirportGeo) : AirportGeo :=
  mkAirportGeo (airportRect r) (airportPos r) v (longestRunwayCenterPos r)
    (longestRunwayLength r) (longestRunwayWidth r) (longestRunwayHeading r)
    (longestRunwaySurface r) (airportAltitude r).

Definition set_longestRunwayCenterPos (v : Pos) (r : AirportGeo)
  : AirportGeo :=
  mkAirportGeo (airportRect r) (airportPos r) (airportDatumPos r) v
    (longestRunwayLength r) (longestRunwayWidth r) (longestRunwayHeading r)
    (longestRunwaySurface r) (airportAltitude r).

Definition set_longestRunwayLength (v : Q) (r : AirportGeo) : AirportGeo :=
  mkAirportGeo (airportRect r) (airportPos r) (airportDatumPos r)
    (longestRunwayCenterPos r) v (longestRunwayWidth r)
    (longestRunwayHeading r) (longestRunwaySurface r) (airportAltitude r).

Definition set_longestRunwayWidth (v : Q) (r : AirportGeo) : AirportGeo :=
  mkAirportGeo (airportRect r) (airportPos r) (airportDatumPos r)
    (longestRunwayCenterPos r) (longestRunwayLength r) v
    (longestRunwayHeading r) (longestRunwaySurface r) (airportAltitude r).

Definition set_longestRunwayHeading (v : Q) (r : AirportGeo) : AirportGeo :=
  mkAirportGeo (airportRect r) (airportPos r) (airportDatumPos r)
    (longestRunwayCenterPos r) (longestRunwayLength r) (longestRunwayWidth
    r) v (longestRunwaySurface r) (airportAltitude r).

Definition set_longestRunwaySurface (v : string) (r : AirportGeo)
  : AirportGeo :=
  mkAirportGeo (airportRect r) (airportPos r) (airportDatumPos r)
    (longestRunwayCenterPos r) (longestRunwayLength r) (longestRunwayWidth
    r) (longestRunwayHeading r) v (airportAltitude r).

Definition set_airportAltitude (v : Q) (r : AirportGeo) : AirportGeo :=
  mkAirportGeo (airportRect r) (airportPos r) (airportDatumPos r)
    (longestRunwayCenterPos r) (longestRunwayLength r) (longestRunwayWidth
    r) (longestRunwayHeading r) (longestRunwaySurface r) v.

(** The values bound to each prepared statement; the runway ends are
    written from [runwayEndRecords] and have none. *)
Record Queries := mkQueries {
  boundAirport : SqlRecord;
  boundRunway : SqlRecord;
  boundHelipad : SqlRecord;
  boundCom : SqlRecord;
  boundStart : SqlRecord;
  boundParking : SqlRecord;
  boundApron : SqlRecord;
  boundTaxi : SqlRecord;
  boundAirportFile : SqlRecord
}.

Definition set_boundAirport (v : SqlRecord) (r : Queries) : Queries :=
  mkQueries v (boundRunway r) (boundHelipad r) (boundCom r) (boundStart r)
    (boundParking r) (boundApron r) (boundTaxi r) (boundAirportFile r).

Definition set_boundRunway (v : SqlRecord) (r : Queries) : Queries :=
  mkQueries (boundAirport r) v (boundHelipad r) (boundCom r) (boundStart r)
    (boundParking r) (boundApron r) (boundTaxi r) (boundAirportFile r).

Definition set_boundHelipad (v : SqlRecord) (r : Queries) : Queries :=
  mkQueries (boundAirport r) (boundRunway r) v (boundCom r) (boundStart r)
    (boundParking r) (boundApron r) (boundTaxi r) (boundAirportFile r).

Definition set_boundCom (v : SqlRecord) (r : Queries) : Queries :=
  mkQueries (boundAirport r) (boundRunway r) (boundHelipad r) v (boundStart
    r) (boundParking r) (boundApron r) (boundTaxi r) (boundAirportFile r).

Definition set_boundStart (v : SqlRecord) (r : Queries) : Queries :=
  mkQueries (boundAirport r) (boundRunway r) (boundHelipad r) (boundCom r) v
    (boundParking r) (boundApron r) (boundTaxi r) (boundAirportFile r).

Definition set_boundParking (v : SqlRecord) (r : Queries) : Queries :=
  mkQueries (boundAirport r) (boundRunway r) (boundHelipad r) (boundCom r)
    (boundStart r) v (boundApron r) (boundTaxi r) (boundAirportFile r).

Definition set_boundApron (v : SqlRecord) (r : Queries) : Queries :=
  mkQueries (boundAirport r) (boundRunway r) (boundHelipad r) (boundCom r)
    (boundStart r) (boundParking r) v (boundTaxi r) (boundAirportFile r).

Definition set_boundTaxi (v : SqlRecord) (r : Queries) : Queries :=
  mkQueries (boundAirport r) (boundRunway r) (boundHelipad r) (boundCom r)
    (boundStart r) (boundParking r) (boundApron r) v (boundAirportFile r).

Definition set_boundAirportFile (v : SqlRecord) (r : Queries) : Queries :=
  mkQueries (boundAirport r) (boundRunway r) (boundHelipad r) (boundCom r)
    (boundStart r) (boundParking r) (boundApron r) (boundTaxi r) v.

(** The bound values of a statement. *)
Definition boundValues (q : SqlQueryId) (r : Queries) : SqlRecord :=
  match q with
  | insertAirportQuery => boundAirport r
  | insertRunwayQuery => boundRunway r
  | insertHelipadQuery => boundHelipad r
  | insertComQuery => boundCom r
  | insertStartQuery => boundStart r
  | insertParkingQuery => boundParking r
  | insertApronQuery => boundApron r
  | insertTaxiQuery => boundTaxi r
  | insertAirportFileQuery => boundAirportFile r
  | insertRunwayEndQuery => ∅
  end.

Definition set_boundValues (q : SqlQueryId) (v : SqlRecord) (r : Queries)
  : Queries :=
  match q with
  | insertAirportQuery => set_boundAirport v r
  | insertRunwayQuery => set_boundRunway v r
  | insertHelipadQuery => set_boundHelipad v r
  | insertComQuery => set_boundCom v r
  | insertStartQuery => set_boundStart v r
  | insertParkingQuery => set_boundParking v r
  | insertApronQuery => set_boundApron v r
  | insertTaxiQuery => set_boundTaxi v r
  | insertAirportFileQuery => set_boundAirportFile v r
  | insertRunwayEndQuery => r
  end.

(** The writer: [db] is the log of the rows written so far, [warnings] the
    log of [qWarning], [numAirports] the progress counter, [airportIndex]
    the index shared with the other readers; the rest are the members of
    the class. *)
Record XpAirportWriter := mkXpAirportWriter {
  db : list (SqlQueryId * SqlRecord);
  warnings : list string;
  numAirports : Z;
  queries : Queries;
  flags : Flags;
  ids : Ids;
  counts : Counts;
  geo : AirportGeo;
  runwayEndRecords : list SqlRecord;
  airportIndex : AirportIndex.t;
  taxiNodes : gmap Z Pos;
  currentPavement : XpGeometry.t;
  airportIcao : string;
  largestParkingGate : string;
  largestParkingRamp : string;
  airportRowCode : AirportRowCode
}.

Definition with_db (v : list (SqlQueryId * SqlRecord)) (r : XpAirportWriter)
  : XpAirportWriter :=
  mkXpAirportWriter v (warnings r) (numAirports r) (queries r) (flags r)
    (ids r) (counts r) (geo r) (runwayEndRecords r) (airportIndex r)
    (taxiNodes r) (currentPavement r) (airportIcao r) (largestParkingGate r)
    (largestParkingRamp r) (airportRowCode r).

Definition with_warnings (v : list string) (r : XpAirportWriter)
  : XpAirportWriter :=
  mkXpAirportWriter (db r) v (numAirports r) (queries r) (flags r) (ids r)
    (counts r) (geo r) (runwayEndRecords r) (airportIndex r) (taxiNodes r)
    (currentPavement r) (airportIcao r) (largestParkingGate r)
    (largestParkingRamp r) (airportRowCode r).

Definition with_numAirports (v : Z) (r : XpAirportWriter) : XpAirportWriter :=
  mkXpAirportWriter (db r) (warnings r) v (queries r) (flags r) (ids r)
    (counts r) (geo r) (runwayEndRecords r) (airportIndex r) (taxiNodes r)
    (currentPavement r) (airportIcao r) (largestParkingGate r)
    (largestParkingRamp r) (airportRowCode r).

Definition with_queries (v : Queries) (r : XpAirportWriter)
  : XpAirportWriter :=
  mkXpAirportWriter (db r) (warnings r) (numAirports r) v (flags r) (ids r)
    (counts r) (geo r) (runwayEndRecords r) (airportIndex r) (taxiNodes r)
    (currentPavement r) (airportIcao r) (largestParkingGate r)
    (largestParkingRamp r) (airportRowCode r).

Definition with_flags (v : Flags) (r : XpAirportWriter) : XpAirportWriter :=
  mkXpAirportWriter (db r) (warnings r) (numAirports r) (queries r) v (ids
    r) (counts r) (geo r) (runwayEndRecords r) (airportIndex r) (taxiNodes
    r) (currentPavement r) (airportIcao r) (largestParkingGate r)
    (largestParkingRamp r) (airportRowCode r).

Definition with_ids (v : Ids) (r : XpAirportWriter) : XpAirportWriter :=
  mkXpAirportWriter (db r) (warnings r) (numAirports r) (queries r) (flags
    r) v (counts r) (geo r) (runwayEndRecords r) (airportIndex r) (taxiNodes
    r) (currentPavement r) (airportIcao r) (largestParkingGate r)
    (largestParkingRamp r) (airportRowCode r).

Definition with_counts (v : Counts) (r : XpAirportWriter) : XpAirportWriter :=
  mkXpAirportWriter (db r) (warnings r) (numAirports r) (queries r) (flags
    r) (ids r) v (geo r) (runwayEndRecords r) (airportIndex r) (taxiNodes r)
    (currentPavement r) (airportIcao r) (largestParkingGate r)
    (largestParkingRamp r) (airportRowCode r).

Definition with_geo (v : AirportGeo) (r : XpAirportWriter)
  : XpAirportWriter :=
  mkXpAirportWriter (db r) (warnings r) (numAirports r) (queries r) (flags
    r) (ids r) (counts r) v (runwayEndRecords r) (airportIndex r) (taxiNodes
    r) (currentPavement r) (airportIcao r) (largestParkingGate r)
    (largestParkingRamp r) (airportRowCode r).

Definition with_runwayEndRecords (v : list SqlRecord) (r : XpAirportWriter)
  : XpAirportWriter :=
  mkXpAirportWriter (db r) (warnings r) (numAirports r) (queries r) (flags
    r) (ids r) (counts r) (geo r) v (airportIndex r) (taxiNodes r)
    (currentPavement r) (airportIcao r) (largestParkingGate r)
    (largestParkingRamp r) (airportRowCode r).

Definition with_airportIndex (v : AirportIndex.t) (r : XpAirportWriter)
  : XpAirportWriter :=
  mkXpAirportWriter (db r) (warnings r) (numAirports r) (queries r) (flags
    r) (ids r) (counts r) (geo r) (runwayEndRecords r) v (taxiNodes r)
    (currentPavement r) (airportIcao r) (largestParkingGate r)
    (largestParkingRamp r) (airportRowCode r).

Definition with_taxiNodes (v : gmap Z Pos) (r : XpAirportWriter)
  : XpAirportWriter :=
  mkXpAirportWriter (db r) (warnings r) (numAirports r) (queries r) (flags
    r) (ids r) (counts r) (geo r) (runwayEndRecords r) (airportIndex r) v
    (currentPavement r) (airportIcao r) (largestParkingGate r)
    (largestParkingRamp r) (airportRowCode r).

Definition with_currentPavement (v : XpGeometry.t) (r : XpAirportWriter)
  : XpAirportWriter :=
  mkXpAirportWriter (db r) (warnings r) (numAirports r) (queries r) (flags
    r) (ids r) (counts r) (geo r) (runwayEndRecords r) (airportIndex r)
    (taxiNodes r) v (airportIcao r) (largestParkingGate r)
    (largestParkingRamp r) (airportRowCode r).

Definition with_airportIcao (v : string) (r : XpAirportWriter)
  : XpAirportWriter :=
  mkXpAirportWriter (db r) (warnings r) (numAirports r) (queries r) (flags
    r) (ids r) (counts r) (geo r) (runwayEndRecords r) (airportIndex r)
    (taxiNodes r) (currentPavement r) v (largestParkingGate r)
    (largestParkingRamp r) (airportRowCode r).

Definition with_largestParkingGate (v : string) (r : XpAirportWriter)
  : XpAirportWriter :=
  mkXpAirportWriter (db r) (warnings r) (numAirports r) (queries r) (flags
    r) (ids r) (counts r) (geo r) (runwayEndRecords r) (airportIndex r)
    (taxiNodes r) (currentPavement r) (airportIcao r) v (largestParkingRamp
    r) (airportRowCode r).

Definition with_largestParkingRamp (v : string) (r : XpAirportWriter)
  : XpAirportWriter :=
  mkXpAirportWriter (db r) (warnings r) (numAirports r) (queries r) (flags
    r) (ids r) (counts r) (geo r) (runwayEndRecords r) (airportIndex r)
    (taxiNodes r) (currentPavement r) (airportIcao r) (largestParkingGate r)
    v (airportRowCode r).

Definition with_airportRowCode (v : AirportRowCode) (r : XpAirportWriter)
  : XpAirportWriter :=
  mkXpAirportWriter (db r) (warnings r) (numAirports r) (queries r) (flags
    r) (ids r) (counts r) (geo r) (runwayEndRecords r) (airportIndex r)
    (taxiNodes r) (currentPavement r) (airportIcao r) (largestParkingGate r)
    (largestParkingRamp r) v.

(** ** Field positions of the rows *)

Module ap.
Definition ROWCODE := 0%nat.
Definition ELEVATION := 1%nat.
Definition ICAO := 4%nat.
Definition NAME := 5%nat.
End ap.

Module vp.
Definition LATY := 1%nat.
Definition LONX := 2%nat.
Definition HEIGHT := 3%nat.
End vp.

Module n.
Definition LATY := 1%nat.
Definition LONX := 2%nat.
Definition CTRL_LATY := 3%nat.
Definition CTRL_LONX := 4%nat.
End n.

Module p.
Definition SURFACE := 1%nat.
End p.

Module tn.
Definition LATY := 1%nat.
Definition LONX := 2%nat.
Definition USAGE := 3%nat.
Definition ID := 4%nat.
Definition NAME := 5%nat.
End tn.

Module te.
Definition START := 1%nat.
Definition END := 2%nat.
Definition DIR := 3%nat.
Definition TYPE := 4%nat.
Definition NAME := 5%nat.
End te.

Module s.
Definition LATY := 1%nat.
Definition LONX := 2%nat.
Definition HEADING := 3%nat.
Definition NAME := 4%nat.
End s.

Module v.
Definition LATY := 1%nat.
Definition LONX := 2%nat.
Definition TYPE := 3%nat.
Definition ORIENT := 4%nat.
Definition ANGLE := 5%nat.
Definition RUNWAY := 6%nat.
Definition DESCRIPTION := 7%nat.
End v.

Module sl.
Definition LATY := 1%nat.
Definition LONX := 2%nat.
Definition HEADING := 3%nat.
Definition TYPE := 4%nat.
Definition AIRPLANE_TYPE := 5%nat.
Definition NAME := 6%nat.
End sl.

Module sm.
Definition WIDTH := 1%nat.
Definition OPTYPE := 2%nat.
Definition AIRLINE := 3%nat.
End sm.

Module m.
Definition KEY := 1%nat.
Definition VALUE := 2%nat.
End m.

Module com.
Definition FREQUENCY := 1%nat.
Definition NAME := 2%nat.
End com.

Module hp.
Definition DESIGNATOR := 1%nat.
Definition LATY := 2%nat.
Definition LONX := 3%nat.
Definition ORIENTATION := 4%nat.
Definition LENGTH := 5%nat.
Definition WIDTH := 6%nat.
Definition SURFACE := 7%nat.
End hp.

Module rw.
Definition WIDTH := 1%nat.
Definition WATER_PRIMARY_NUMBER := 3%nat.
Definition WATER_PRIMARY_LATY := 4%nat.
Definition WATER_PRIMARY_LONX := 5%nat.
Definition WATER_SECONDARY_NUMBER := 6%nat.
Definition WATER_SECONDARY_LATY := 7%nat.
Definition WATER_SECONDARY_LONX := 8%nat.
Definition SURFACE := 2%nat.
Definition SHOULDER_SURFACE := 3%nat.
Definition SMOOTHNESS := 4%nat.
Definition CENTER_LIGHTS := 5%nat.
Definition EDGE_LIGHTS := 6%nat.
Definition DISTANCE_REMAINING_SIGNS := 7%nat.
Definition PRIMARY_NUMBER := 8%nat.
Definition PRIMARY_LATY := 9%nat.
Definition PRIMARY_LONX := 10%nat.
Definition PRIMARY_DISPLACED_THRESHOLD := 11%nat.
Definition PRIMARY_OVERRUN_BLASTPAD := 12%nat.
Definition PRIMARY_MARKINGS := 13%nat.
Definition PRIMARY_ALS := 14%nat.
Definition PRIMARY_TDZ_LIGHT := 15%nat.
Definition PRIMARY_REIL := 16%nat.
Definition SECONDARY_NUMBER := 17%nat.
Definition SECONDARY_LATY := 18%nat.
Definition SECONDARY_LONX := 19%nat.
Definition SECONDARY_DISPLACED_THRESHOLD := 20%nat.
Definition SECONDARY_OVERRUN_BLASTPAD := 21%nat.
Definition SECONDARY_MARKINGS := 22%nat.
Definition SECONDARY_ALS := 23%nat.
Definition SECONDARY_TDZ_LIGHT := 24%nat.
Definition SECONDARY_REIL := 25%nat.
End rw.

(** ** Access to a line and to the statements *)

(** [XpWriter::at]: the field, the empty string when the line is short. *)
Definition at_ (line : list string) (index : nat) : string :=
  QStr.value line index.

(** [XpWriter::mid]: the fields from [index] on, joined by blanks. *)
Definition mid (line : list string) (index : nat) : string :=
  QStr.join " " (skipn index line).

(** The position read from two fields. *)
Definition posAt (line : list string) (lonx laty : nat) : Pos :=
  mkPos (QStr.toFloat (at_ line lonx)) (QStr.toFloat (at_ line laty)).

Definition bindValue (q : SqlQueryId) (placeholder : string) (val : QVariant)
    (st : XpAirportWriter) : XpAirportWriter :=
  with_queries
    (set_boundValues q (<[placeholder := val]> (boundValues q (queries st)))
       (queries st)) st.

Definition boundValue (q : SqlQueryId) (placeholder : string)
    (st : XpAirportWriter) : option QVariant :=
  boundValues q (queries st) !! placeholder.

(** [SqlQuery::exec]: one more row in the table of the statement. *)
Definition exec (q : SqlQueryId) (st : XpAirportWriter) : XpAirportWriter :=
  with_db (db st ++ [(q, boundValues q (queries st))]) st.

Definition clearBoundValues (q : SqlQueryId) (st : XpAirportWriter)
  : XpAirportWriter :=
  with_queries (set_boundValues q ∅ (queries st)) st.

Definition qWarning (msg : string) (st : XpAirportWriter) : XpAirportWriter :=
  with_warnings (warnings st ++ [msg]) st.

(** The warning every binder gives when no airport is being written. *)
Definition checkWriting (where_ : string) (st : XpAirportWriter)
  : XpAirportWriter :=
  if negb (writingAirport (flags st))
  then qWarning ("Invalid writing airport state in " +:+ where_) st
  else st.

Definition upd_flags (f : Flags -> Flags) (st : XpAirportWriter) :=
  with_flags (f (flags st)) st.
Definition upd_ids (f : Ids -> Ids) (st : XpAirportWriter) :=
  with_ids (f (ids st)) st.
Definition upd_counts (f : Counts -> Counts) (st : XpAirportWriter) :=
  with_counts (f (counts st)) st.
Definition upd_geo (f : AirportGeo -> AirportGeo) (st : XpAirportWriter) :=
  with_geo (f (geo st)) st.

(** [airportRect.extend(pos)]. *)
Definition extendRect (pos : Pos) (st : XpAirportWriter) : XpAirportWriter :=
  upd_geo (fun g => set_airportRect (Geo.extend pos (airportRect g)) g) st.

(** The rows written to one table, oldest first. *)
Definition rowsOf (q : SqlQueryId) (st : XpAirportWriter) : list SqlRecord :=
  map snd (List.filter (fun e => bool_decide (fst e = q)) (db st)).

(** ** The binders *)

Section Writer.

Variable ext : Externals.

Definition bindTaxiNode (line : list string) (st : XpAirportWriter)
  : XpAirportWriter :=
  if ignoringAirport (flags st) then st else
  let st := checkWriting "bindTaxiNode" st in
  with_taxiNodes
    (<[QStr.toInt (at_ line tn.ID) := posAt line tn.LONX tn.LATY]> (taxiNodes st))
    st.

(** The names of a taxiway that stand for "no name". *)
Definition garbageNames : list string :=
  [ "*"; "**"; "+"; "-"; "."; "TAXIWAY"; "TAXI_TO_RAMP"; "TAXI_RAMP";
    "TAXY_RAMP"; "UNNAMED"; "TWY"; "TAXI" ].

(** [QHash::value]: a default constructed position for an unknown node. *)
Definition taxiNodeValue (key : Z) (st : XpAirportWriter) : Pos :=
  default Geo.Pos0 (taxiNodes st !! key).

Definition bindTaxiEdge (line : list string) (st : XpAirportWriter)
  : XpAirportWriter :=
  if ignoringAirport (flags st) then st else
  let st := checkWriting "bindTaxiEdge" st in
  (* Ignore runway lines *)
  if String.eqb (at_ line te.TYPE) "runway" then st else
  let start := taxiNodeValue (QStr.toInt (at_ line te.START)) st in
  let end_ := taxiNodeValue (QStr.toInt (at_ line te.END)) st in
  let st := extendRect start st in
  let st := extendRect end_ st in
  let name := if Nat.ltb te.NAME (length line)
              then QStr.simplified (at_ line te.NAME) else "" in
  (* Filter out the various garbage names *)
  let nameCompare := QStr.toUpper name in
  let name := if existsb (String.eqb nameCompare) garbageNames then "" else name in
  let st := upd_counts (fun c => set_numTaxiPath (numTaxiPath c + 1) c) st in
  let st := upd_ids (fun i => set_curTaxiPathId (curTaxiPathId i + 1) i) st in
  let st := bindValue insertTaxiQuery ":taxi_path_id" (QInt (curTaxiPathId (ids st))) st in
  let st := bindValue insertTaxiQuery ":airport_id" (QInt (curAirportId (ids st))) st in
  let st := bindValue insertTaxiQuery ":surface" QNull st in
  let st := bindValue insertTaxiQuery ":width" (QFloat 0) st in
  let st := bindValue insertTaxiQuery ":name" (QString name) st in
  let st := bindValue insertTaxiQuery ":type" (QString "T") st in
  let st := bindValue insertTaxiQuery ":is_draw_surface" (QInt 1) st in
  let st := bindValue insertTaxiQuery ":is_draw_detail" (QInt 1) st in
  let st := bindValue insertTaxiQuery ":has_centerline" (QInt 0) st in
  let st := bindValue insertTaxiQuery ":has_centerline_light" (QInt 0) st in
  let st := bindValue insertTaxiQuery ":has_left_edge_light" (QInt 0) st in
  let st := bindValue insertTaxiQuery ":has_right_edge_light" (QInt 0) st in
  let st := bindValue insertTaxiQuery ":start_type" (QString "N") st in
  let st := bindValue insertTaxiQuery ":start_lonx" (QFloat (lonX start)) st in
  let st := bindValue insertTaxiQuery ":start_laty" (QFloat (latY start)) st in
  let st := bindValue insertTaxiQuery ":end_type" (QString "N") st in
  let st := bindValue insertTaxiQuery ":end_lonx" (QFloat (lonX end_)) st in
  let st := bindValue insertTaxiQuery ":end_laty" (QFloat (latY end_)) st in
  exec insertTaxiQuery st.

(** *** The polygon assembler *)

Definition bindPavement (line : list string) (st : XpAirportWriter)
  : XpAirportWriter :=
  if ignoringAirport (flags st) then st else
  let st := checkWriting "bindPavement" st in
  let st := with_currentPavement XpGeometry.clear st in
  let st := upd_flags (set_writingPavementBoundary true) st in
  let st := upd_flags (set_writingPavementHoles false) st in
  let st := upd_flags (set_writingPavementNewHole false) st in
  (* Start an apron record *)
  let st := upd_counts (fun c => set_numApron (numApron c + 1) c) st in
  let st := upd_ids (fun i => set_curApronId (curApronId i + 1) i) st in
  let st := bindValue insertApronQuery ":apron_id" (QInt (curApronId (ids st))) st in
  let st := bindValue insertApronQuery ":airport_id" (QInt (curAirportId (ids st))) st in
  let st := bindValue insertApronQuery ":is_draw_surface" (QInt 1) st in
  let st := bindValue insertApronQuery ":is_draw_detail" (QInt 1) st in
  bindValue insertApronQuery ":surface"
    (QString (surfaceToDb (toSurface (QStr.toInt (at_ line p.SURFACE))))) st.

(** [rowCode == NODE_AND_CONTROL_POINT || rowCode == NODE_AND_CONTROL_POINT_CLOSE] *)
Definition isControlCode (rowCode : AirportRowCode) : bool :=
  match rowCode with
  | NODE_AND_CONTROL_POINT | NODE_AND_CONTROL_POINT_CLOSE => true
  | _ => false
  end.

(** [rowCode == NODE_CLOSE || rowCode == NODE_AND_CONTROL_POINT_CLOSE] *)
Definition isCloseCode (rowCode : AirportRowCode) : bool :=
  match rowCode with
  | NODE_CLOSE | NODE_AND_CONTROL_POINT_CLOSE => true
  | _ => false
  end.

Definition bindPavementNode (line : list string) (rowCode : AirportRowCode)
    (st : XpAirportWriter) : XpAirportWriter :=
  if ignoringAirport (flags st) then st else
  let st := checkWriting "bindPavementNode" st in
  let node := posAt line n.LONX n.LATY in
  let st := extendRect node st in
  let control :=
    if isControlCode rowCode
    then (* Bezier cubic or quad control point *)
         posAt line n.CTRL_LONX n.CTRL_LATY
    else Geo.Pos0 in
  let st :=
    if writingPavementBoundary (flags st)
    then with_currentPavement
           (XpGeometry.addBoundaryNode node control (currentPavement st)) st
    else if writingPavementHoles (flags st)
    then with_currentPavement
           (XpGeometry.addHoleNode node control
              (writingPavementNewHole (flags st)) (currentPavement st)) st
    else st in
  let st := upd_flags (set_writingPavementNewHole false) st in
  if isCloseCode rowCode then
    (* Last node closing *)
    let st :=
      if writingPavementBoundary (flags st)
      then upd_flags (set_writingPavementHoles true)
             (upd_flags (set_writingPavementBoundary false) st)
      else st in
    if writingPavementHoles (flags st)
    then upd_flags (set_writingPavementNewHole true) st
    else st
  else st.

Definition finishPavement (st : XpAirportWriter) : XpAirportWriter :=
  if ignoringAirport (flags st) then st else
  if writingPavementBoundary (flags st) || writingPavementHoles (flags st) then
    let st := checkWriting "finishPavement" st in
    let st := bindValue insertApronQuery ":geometry"
                (QByteArray (currentPavement st)) st in
    let st := exec insertApronQuery st in
    let st := upd_flags (set_writingPavementBoundary false) st in
    let st := upd_flags (set_writingPavementHoles false) st in
    upd_flags (set_writingPavementNewHole false) st
  else st.

(** *** Approach indicators *)

(** Index of the first runway end record of that name. *)
Fixpoint findEndByName (rwName : string) (recs : list SqlRecord) (i : nat)
  : option nat :=
  match recs with
  | [] => None
  | rec :: rest =>
      if String.eqb (toString (rec !! ":name")) rwName then Some i
      else findEndByName rwName rest (S i)
  end.

(** The loop over the runway ends that looks for the nearest heading:
    [best] is the index of [bestRunwayEnd], if any. *)
Fixpoint findEndByAngle (orientation : Q) (recs : list SqlRecord) (i : nat)
    (best : option nat) (bestAngle : Q) : option nat :=
  match recs with
  | [] => best
  | rec :: rest =>
      (* Do simple comparison - this will not catch any differences like
         355 to 5 degrees *)
      let diff := Geo.Qabs' (toFloatV (rec !! ":heading") - orientation)%Q in
      if Geo.Qltb diff 10 && Geo.Qltb diff (Geo.Qabs' (bestAngle - orientation)%Q)
      then (* Smaller angle difference *)
           findEndByAngle orientation rest (S i) (Some i) (toFloatV (rec !! ":heading"))
      else findEndByAngle orientation rest (S i) best bestAngle
  end.

(** [type == NO_APPR_INDICATOR || type == RUNWAY_GUARD] *)
Definition ignoredIndicator (type : ApproachIndicator) : bool :=
  match type with
  | NO_APPR_INDICATOR | RUNWAY_GUARD => true
  | _ => false
  end.

Definition bindVasi (line : list string) (st : XpAirportWriter)
  : XpAirportWriter :=
  if ignoringAirport (flags st) then st else
  let st := checkWriting "bindVasi" st in
  let type := toApproachIndicator (QStr.toInt (at_ line v.TYPE)) in
  if ignoredIndicator type then st else
  (* Find runway by name - does not exist in some 850 airport files *)
  let rwName := QStr.value line v.RUNWAY in
  let orientation := QStr.toFloat (at_ line v.ORIENT) in
  let bestRunwayEnd :=
    if negb (QStr.isEmpty rwName)
    then findEndByName rwName (runwayEndRecords st) 0
    else None in
  let bestRunwayEnd :=
    match bestRunwayEnd with
    | Some i => Some i
    | None => (* Try to find by angle *)
        findEndByAngle orientation (runwayEndRecords st) 0 None
          (Geo.FLOAT_MAX / 4)%Q
    end in
  match bestRunwayEnd with
  | Some i =>
      let st := upd_counts (fun c => set_numRunwayEndVasi (numRunwayEndVasi c + 1) c) st in
      with_runwayEndRecords
        (alter (fun rec =>
                  <[":right_vasi_pitch" := QFloat 0]>
                    (<[":right_vasi_type" := QString "UNKN"]>
                       (<[":left_vasi_pitch" := QFloat (QStr.toFloat (at_ line v.ANGLE))]>
                          (<[":left_vasi_type" := QString (approachIndicatorToDb type)]> rec))))
               i (runwayEndRecords st)) st
  | None => qWarning "No runway end for VASI found" st
  end.

Definition bindViewpoint (line : list string) (st : XpAirportWriter)
  : XpAirportWriter :=
  if ignoringAirport (flags st) then st else
  let st := checkWriting "bindViewpoint" st in
  let pos := posAt line vp.LONX vp.LATY in
  let st := extendRect pos st in
  let st := bindValue insertAirportQuery ":tower_laty" (QFloat (latY pos)) st in
  let st := bindValue insertAirportQuery ":tower_lonx" (QFloat (lonX pos)) st in
  let st := bindValue insertAirportQuery ":tower_altitude"
              (QFloat (airportAltitude (geo st) + QStr.toFloat (at_ line vp.HEIGHT))%Q) st in
  let st := bindValue insertAirportQuery ":has_tower_object" (QInt 1) st in
  upd_flags (set_hasTower true) st.

(** *** Parking stands *)

(** Compares s1 with s2 and returns an integer less than, equal to, or
    greater than zero if s1 is less than, equal to, or greater than s2. *)
Definition compareGate (gate1 gate2 : string) : Z :=
  if negb (String.eqb gate1 gate2) then
    if String.eqb gate1 "GH" then 1
    else if String.eqb gate2 "GH" then -1
    else if String.eqb gate1 "GS" then -1
    else if String.eqb gate2 "GS" then 1
    else 0
  else 0.

Definition compareRamp (ramp1 ramp2 : string) : Z :=
  if negb (String.eqb ramp1 ramp2) then
    if String.eqb ramp1 "RGAL" then 1
    else if String.eqb ramp2 "RGAL" then -1
    else if String.eqb ramp1 "RGAS" then -1
    else if String.eqb ramp2 "RGAS" then 1
    else 0
  else 0.

Definition finishStartupLocation (st : XpAirportWriter) : XpAirportWriter :=
  if writingStartLocation (flags st) then
    let type := toString (boundValue insertParkingQuery ":type" st) in
    let st :=
      if QStr.startsWith type "G" then
        let st := upd_counts (fun c => set_numParkingGate (numParkingGate c + 1) c) st in
        if QStr.isEmpty (largestParkingGate st)
           || Z.ltb 0 (compareGate (largestParkingGate st) type)
        then with_largestParkingGate type st else st
      else st in
    let st :=
      if QStr.startsWith type "RGA" then
        let st := upd_counts (fun c => set_numParkingGaRamp (numParkingGaRamp c + 1) c) st in
        if QStr.isEmpty (largestParkingRamp st)
           || Z.ltb 0 (compareRamp (largestParkingRamp st) type)
        then with_largestParkingRamp type st else st
      else st in
    let st :=
      if QStr.startsWith type "RC"
      then upd_counts (fun c => set_numParkingCargo (numParkingCargo c + 1) c) st
      else st in
    let st :=
      if QStr.startsWith type "RMC" then
        let st := upd_counts (fun c => set_numParkingMilCombat (numParkingMilCombat c + 1) c) st in
        upd_counts (fun c => set_numParkingMilCargo (numParkingMilCargo c + 1) c) st
      else st in
    let st := bindValue insertAirportQuery ":largest_parking_ramp"
                (QString (largestParkingRamp st)) st in
    let st := bindValue insertAirportQuery ":largest_parking_gate"
                (QString (largestParkingGate st)) st in
    let st := exec insertParkingQuery st in
    let st := clearBoundValues insertParkingQuery st in
    upd_flags (set_writingStartLocation false) st
  else st.

Definition writeStartupLocation (line : list string) (st : XpAirportWriter)
  : XpAirportWriter :=
  if ignoringAirport (flags st) then st else
  let st := checkWriting "writeStartupLocation" st in
  let st := upd_flags (set_writingStartLocation true) st in
  let st := upd_counts (fun c => set_numParking (numParking c + 1) c) st in
  let st := upd_ids (fun i => set_curParkingId (curParkingId i + 1) i) st in
  let st := bindValue insertParkingQuery ":parking_id" (QInt (curParkingId (ids st))) st in
  let st := bindValue insertParkingQuery ":airport_id" (QInt (curAirportId (ids st))) st in
  let pos := posAt line sl.LONX sl.LATY in
  let st := extendRect pos st in
  let st := bindValue insertParkingQuery ":laty" (QFloat (latY pos)) st in
  let st := bindValue insertParkingQuery ":lonx" (QFloat (lonX pos)) st in
  let st := bindValue insertParkingQuery ":heading"
              (QFloat (QStr.toFloat (at_ line sl.HEADING))) st in
  let st := bindValue insertParkingQuery ":number" (QInt (-1)) st in
  let st := bindValue insertParkingQuery ":radius" (QFloat 50) st in
  (* Fill airline codes later from metadata *)
  let st := bindValue insertParkingQuery ":airline_codes" QNull st in
  let name := mid line sl.NAME in
  let hasFuel := false in
  let '(hasFuel, st) :=
    if QStr.contains (QStr.toLower name) "avgas"
       || QStr.contains (QStr.toLower name) "mogas"
       || QStr.contains (QStr.toLower name) "gas-station"
    then (true, bindValue insertAirportQuery ":has_avgas" (QInt 1) st)
    else (hasFuel, st) in
  let '(hasFuel, st) :=
    if QStr.contains (QStr.toLower name) "jetfuel"
    then (true, bindValue insertAirportQuery ":has_jetfuel" (QInt 1) st)
    else (hasFuel, st) in
  let '(hasFuel, st) :=
    if QStr.contains (QStr.toLower name) "fuel"
    then (true, bindValue insertAirportQuery ":has_avgas" (QInt 1)
                  (bindValue insertAirportQuery ":has_jetfuel" (QInt 1) st))
    else (hasFuel, st) in
  let st := bindValue insertParkingQuery ":name" (QString name) st in
  let st := bindValue insertParkingQuery ":has_jetway" (QInt 0) st in
  if hasFuel : bool then bindValue insertParkingQuery ":type" (QString "FUEL") st
  else
    let type := at_ line sl.TYPE in
    let st :=
      if String.eqb type "gate" then bindValue insertParkingQuery ":type" (QString "G") st
      else if String.eqb type "hangar" then bindValue insertParkingQuery ":type" (QString "H") st
      else if String.eqb type "tie-down" then bindValue insertParkingQuery ":type" (QString "T") st
      else st in
    (* Need at least an empty string bound *)
    bindValue insertParkingQuery ":type" (QString "") st.

(** The radius and the size letter of an ICAO width code, as the metadata
    binder assigns them: A 15 m, B 25 m, C 35 m, D 50 m, E 65 m, F 80 m. *)
Definition widthCodeRadiusSize (widthCode : string) : Q * string :=
  let sizeType := "S" in
  let radius := 10%Q in
  if String.eqb widthCode "A" then (25%Q, "S")
  else if String.eqb widthCode "B" then (40%Q, "S")
  else if String.eqb widthCode "C" then (60%Q, "M")
  else if String.eqb widthCode "D" then (80%Q, "M")
  else if String.eqb widthCode "E" then (100%Q, "H")
  else if String.eqb widthCode "F" then (130%Q, "H")
  else (radius, sizeType).

Definition writeStartupLocationMetadata (line : list string)
    (st : XpAirportWriter) : XpAirportWriter :=
  if ignoringAirport (flags st) then st else
  let st := checkWriting "writeStartupLocation" st in
  (* Operation type none, general_aviation, airline, cargo, military *)
  let isFuel := String.eqb (toString (boundValue insertParkingQuery ":type" st)) "FUEL" in
  let st :=
    if negb isFuel then
      (* Build type from operations type - not in 850 *)
      let ops := QStr.value line sm.OPTYPE in
      if String.eqb ops "general_aviation"
      then bindValue insertParkingQuery ":type" (QString "RGA") st
      else if String.eqb ops "cargo"
      then bindValue insertParkingQuery ":type" (QString "RC") st
      else if String.eqb ops "military"
      then bindValue insertParkingQuery ":type" (QString "RM") st
      else st
    else st in
  let st :=
    if Nat.ltb sm.AIRLINE (length line)
    then bindValue insertParkingQuery ":airline_codes"
           (QString (QStr.toUpper (QStr.value line sm.AIRLINE))) st
    else st in
  let widthCode := QStr.value line sm.WIDTH in
  let '(radius, sizeType) := widthCodeRadiusSize widthCode in
  let st := bindValue insertParkingQuery ":radius" (QFloat radius) st in
  if negb isFuel then
    let type := toString (boundValue insertParkingQuery ":type" st) in
    if String.eqb type "G" || String.eqb type "RGA"
    then bindValue insertParkingQuery ":type" (QString (type +:+ sizeType)) st
    else st
  else st.

Definition writeStartup (line : list string) (st : XpAirportWriter)
  : XpAirportWriter :=
  if ignoringAirport (flags st) then st else
  let st := checkWriting "writeStartup" st in
  let st := upd_flags (set_writingStartLocation true) st in
  let st := upd_counts (fun c => set_numParking (numParking c + 1) c) st in
  let st := upd_ids (fun i => set_curParkingId (curParkingId i + 1) i) st in
  let st := bindValue insertParkingQuery ":parking_id" (QInt (curParkingId (ids st))) st in
  let st := bindValue insertParkingQuery ":airport_id" (QInt (curAirportId (ids st))) st in
  let pos := posAt line s.LONX s.LATY in
  let st := extendRect pos st in
  let st := bindValue insertParkingQuery ":laty" (QFloat (latY pos)) st in
  let st := bindValue insertParkingQuery ":lonx" (QFloat (lonX pos)) st in
  let st := bindValue insertParkingQuery ":heading"
              (QFloat (QStr.toFloat (at_ line s.HEADING))) st in
  let st := bindValue insertParkingQuery ":number" (QInt (-1)) st in
  let st := bindValue insertParkingQuery ":radius" (QFloat 50) st in
  let st := bindValue insertParkingQuery ":airline_codes" QNull st in
  let st := bindValue insertParkingQuery ":name" (QString (mid line s.NAME)) st in
  let st := bindValue insertParkingQuery ":has_jetway" (QInt 0) st in
  let st := bindValue insertParkingQuery ":type" (QString "") st in
  finishStartupLocation st.

(** *** Frequencies, fuel and metadata *)

Definition writeCom (line : list string) (rowCode : AirportRowCode)
    (st : XpAirportWriter) : XpAirportWriter :=
  if ignoringAirport (flags st) then st else
  let st := checkWriting "writeCom" st in
  let st := upd_counts (fun c => set_numCom (numCom c + 1) c) st in
  let st := upd_ids (fun i => set_curComId (curComId i + 1) i) st in
  let st := bindValue insertComQuery ":com_id" (QInt (curComId (ids st))) st in
  let st := bindValue insertComQuery ":airport_id" (QInt (curAirportId (ids st))) st in
  let frequency := QStr.toInt (at_ line com.FREQUENCY) * 10 in
  let name := mid line com.NAME in
  let st := bindValue insertComQuery ":name" (QString name) st in
  let st := bindValue insertComQuery ":frequency" (QInt frequency) st in
  let st := bindValue insertComQuery ":type" (QString "NONE") st in
  let st :=
    match rowCode with
    | COM_WEATHER =>
        (* Check name for general weather frequency *)
        if QStr.containsCI name "atis" then
          bindValue insertComQuery ":type" (QString "ATIS")
            (bindValue insertAirportQuery ":atis_frequency" (QInt frequency) st)
        else if QStr.containsCI name "awos" then
          bindValue insertComQuery ":type" (QString "AWOS")
            (bindValue insertAirportQuery ":awos_frequency" (QInt frequency) st)
        else if QStr.containsCI name "asos" then
          bindValue insertComQuery ":type" (QString "ASOS")
            (bindValue insertAirportQuery ":asos_frequency" (QInt frequency) st)
        else
          bindValue insertComQuery ":type" (QString "ATIS")
            (bindValue insertAirportQuery ":atis_frequency" (QInt frequency) st)
    | COM_UNICOM =>
        bindValue insertComQuery ":type" (QString "UC")
          (bindValue insertAirportQuery ":unicom_frequency" (QInt frequency) st)
    | COM_TOWER =>
        bindValue insertComQuery ":type" (QString "T")
          (bindValue insertAirportQuery ":tower_frequency" (QInt frequency) st)
    | COM_CLEARANCE => bindValue insertComQuery ":type" (QString "C") st
    | COM_GROUND => bindValue insertComQuery ":type" (QString "G") st
    | COM_APPROACH => bindValue insertComQuery ":type" (QString "A") st
    | COM_DEPARTURE => bindValue insertComQuery ":type" (QString "D") st
    | _ => st
    end in
  exec insertComQuery st.

Definition bindFuel (line : list string) (st : XpAirportWriter)
  : XpAirportWriter :=
  if ignoringAirport (flags st) then st else
  let st := checkWriting "bindFuel" st in
  let type := at_ line 4 in
  let st :=
    if QStr.contains type "fuel_props"
    then bindValue insertAirportQuery ":has_avgas" (QInt 1) st else st in
  if QStr.contains type "fuel_liners" || QStr.contains type "fuel_jets"
  then bindValue insertAirportQuery ":has_jetfuel" (QInt 1) st else st.

(** Modelled from the spec: [atools::almostNotEqual] on [float], a
    difference of at least the machine epsilon 2^-23. *)
Definition almostNotEqual (a b : Q) : bool :=
  Qle_bool (1 # 8388608) (Geo.Qabs' (a - b)%Q).

Definition bindMetadata (line : list string) (st : XpAirportWriter)
  : XpAirportWriter :=
  if ignoringAirport (flags st) then st else
  let st := checkWriting "bindMetadata" st in
  let key := QStr.toLower (at_ line m.KEY) in
  let value := mid line m.VALUE in
  if String.eqb key "city" then
    bindValue insertAirportQuery ":city" (QString value) st
  else if String.eqb key "country" then
    bindValue insertAirportQuery ":country" (QString value) st
  else if QStr.startsWith key "region" && negb (QStr.isEmpty value) then
    bindValue insertAirportQuery ":region" (QString value) st
  else if String.eqb key "datum_lat" && almostNotEqual (QStr.toFloat value) 0 then
    upd_geo (fun g => set_airportDatumPos
                        (Geo.setLatY (QStr.toFloat value) (airportDatumPos g)) g) st
  else if String.eqb key "datum_lon" && almostNotEqual (QStr.toFloat value) 0 then
    upd_geo (fun g => set_airportDatumPos
                        (Geo.setLonX (QStr.toFloat value) (airportDatumPos g)) g) st
  else st.

(** *** Helipads *)

Definition writeHelipad (line : list string) (st : XpAirportWriter)
  : XpAirportWriter :=
  if ignoringAirport (flags st) then st else
  let st := checkWriting "writeHelipad" st in
  let pos := posAt line hp.LONX hp.LATY in
  (* Write start position for helipad *)
  let st := upd_counts (fun c => set_numStart (numStart c + 1) c) st in
  let st := upd_ids (fun i => set_curStartId (curStartId i + 1) i) st in
  let st := bindValue insertStartQuery ":start_id" (QInt (curStartId (ids st))) st in
  let st := bindValue insertStartQuery ":airport_id" (QInt (curAirportId (ids st))) st in
  let st := bindValue insertStartQuery ":runway_end_id" QNull st in
  let st := upd_ids (fun i => set_curHelipadStartNumber (curHelipadStartNumber i + 1) i) st in
  let st := bindValue insertStartQuery ":number" (QInt (curHelipadStartNumber (ids st))) st in
  let st := bindValue insertStartQuery ":runway_name"
              (QString (QStr.arg2 (curHelipadStartNumber (ids st)))) st in
  let st := bindValue insertStartQuery ":laty" (QFloat (latY pos)) st in
  let st := bindValue insertStartQuery ":lonx" (QFloat (lonX pos)) st in
  let st := bindValue insertStartQuery ":type" (QString "H") st in
  let st := bindValue insertStartQuery ":altitude" (QFloat (airportAltitude (geo st))) st in
  let st := bindValue insertStartQuery ":heading"
              (QFloat (QStr.toFloat (at_ line hp.ORIENTATION))) st in
  let st := exec insertStartQuery st in
  (* Write the helipad *)
  let st := upd_counts (fun c => set_numHelipad (numHelipad c + 1) c) st in
  let st := upd_ids (fun i => set_curHelipadId (curHelipadId i + 1) i) st in
  let st := bindValue insertHelipadQuery ":helipad_id" (QInt (curHelipadId (ids st))) st in
  let st := bindValue insertHelipadQuery ":airport_id" (QInt (curAirportId (ids st))) st in
  let st := bindValue insertHelipadQuery ":start_id" (QInt (curStartId (ids st))) st in
  let st := bindValue insertHelipadQuery ":surface"
              (QString (surfaceToDb (toSurface (QStr.toInt (at_ line rw.SURFACE))))) st in
  let st := bindValue insertHelipadQuery ":length"
              (QFloat (Geo.meterToFeet (QStr.toFloat (at_ line hp.LENGTH)))) st in
  let st := bindValue insertHelipadQuery ":width"
              (QFloat (Geo.meterToFeet (QStr.toFloat (at_ line hp.WIDTH)))) st in
  let st := bindValue insertHelipadQuery ":heading"
              (QFloat (QStr.toFloat (at_ line hp.ORIENTATION))) st in
  let st := bindValue insertHelipadQuery ":type" (QString "H") st in
  let st := bindValue insertHelipadQuery ":is_transparent" (QInt 0) st in
  let st := bindValue insertHelipadQuery ":is_closed" (QBool (airportClosed (flags st))) st in
  let st := bindValue insertHelipadQuery ":altitude" (QFloat (airportAltitude (geo st))) st in
  let st := extendRect pos st in
  let st := bindValue insertHelipadQuery ":laty" (QFloat (latY pos)) st in
  let st := bindValue insertHelipadQuery ":lonx" (QFloat (lonX pos)) st in
  exec insertHelipadQuery st.

(** *** Runways *)

(** The empty record of the table [runway_end] that every end starts from. *)
Definition runwayEndRecord : SqlRecord := ∅.

(** One of the two blocks "Primary end" and "Secondary end" of
    [bindRunway], which differ in the fields they read: the record of the end
    is filled and appended to [runwayEndRecords]. *)
Definition appendRunwayEnd (line : list string) (rowCode : AirportRowCode)
    (rwEndId : Z) (name endType : string) (heading : Q) (pos : Pos)
    (DISPLACED_THRESHOLD OVERRUN_BLASTPAD ALS REIL TDZ_LIGHT : nat)
    (st : XpAirportWriter) : XpAirportWriter :=
  let rec := runwayEndRecord in
  let rec := <[":runway_end_id" := QInt rwEndId]> rec in
  let rec := <[":name" := QString name]> rec in
  let rec := <[":end_type" := QString endType]> rec in
  let '(rec, st) :=
    if bool_decide (rowCode = LAND_RUNWAY) then
      let rec := <[":offset_threshold" :=
                   QFloat (Geo.meterToFeet (QStr.toFloat (at_ line DISPLACED_THRESHOLD)))]> rec in
      let rec := <[":blast_pad" :=
                   QFloat (Geo.meterToFeet (QStr.toFloat (at_ line OVERRUN_BLASTPAD)))]> rec in
      let als := alsToDb (toApproachLight (QStr.toInt (at_ line ALS))) in
      let '(rec, st) :=
        if negb (QStr.isEmpty als)
        then (<[":app_light_system_type" := QString als]> rec,
              upd_counts (fun c => set_numRunwayEndAls (numRunwayEndAls c + 1) c) st)
        else (<[":app_light_system_type" := QNull]> rec, st) in
      let rec := <[":has_reils" := QBool (Z.ltb 0 (QStr.toInt (at_ line REIL)))]> rec in
      let rec := <[":has_touchdown_lights" := QInt (QStr.toInt (at_ line TDZ_LIGHT))]> rec in
      (rec, st)
    else
      (* No lights and markings on water *)
      let rec := <[":offset_threshold" := QInt 0]> rec in
      let rec := <[":blast_pad" := QInt 0]> rec in
      let rec := <[":app_light_system_type" := QNull]> rec in
      let rec := <[":has_reils" := QInt 0]> rec in
      let rec := <[":has_touchdown_lights" := QInt 0]> rec in
      (rec, st) in
  let rec := <[":has_end_lights" := QInt 0]> rec in
  let rec := <[":num_strobes" := QInt 0]> rec in
  let rec := <[":overrun" := QInt 0]> rec in
  let rec := <[":has_closed_markings" := QBool (airportClosed (flags st))]> rec in
  let rec := <[":has_stol_markings" := QInt 0]> rec in
  let rec := <[":is_takeoff" := QInt 1]> rec in
  let rec := <[":is_landing" := QInt 1]> rec in
  let rec := <[":is_pattern" := QString "N"]> rec in
  let rec := <[":heading" := QFloat heading]> rec in
  let rec := <[":altitude" := QNull]> rec in
  let rec := <[":lonx" := QFloat (lonX pos)]> rec in
  let rec := <[":laty" := QFloat (latY pos)]> rec in
  with_runwayEndRecords (runwayEndRecords st ++ [rec]) st.

(** One of the two blocks "Write start position for ... runway end". *)
Definition writeRunwayStart (rwEndId : Z) (name : string) (heading : Q)
    (pos : Pos) (st : XpAirportWriter) : XpAirportWriter :=
  let st := upd_counts (fun c => set_numStart (numStart c + 1) c) st in
  let st := upd_ids (fun i => set_curStartId (curStartId i + 1) i) st in
  let st := bindValue insertStartQuery ":start_id" (QInt (curStartId (ids st))) st in
  let st := bindValue insertStartQuery ":airport_id" (QInt (curAirportId (ids st))) st in
  let st := bindValue insertStartQuery ":runway_end_id" (QInt rwEndId) st in
  let st := bindValue insertStartQuery ":number" QNull st in
  let st := bindValue insertStartQuery ":runway_name" (QString name) st in
  let st := bindValue insertStartQuery ":laty" (QFloat (latY pos)) st in
  let st := bindValue insertStartQuery ":lonx" (QFloat (lonX pos)) st in
  let st := bindValue insertStartQuery ":type" (QString "R") st in
  let st := bindValue insertStartQuery ":altitude" (QFloat (airportAltitude (geo st))) st in
  let st := bindValue insertStartQuery ":heading" (QFloat heading) st in
  exec insertStartQuery st.

Definition bindRunway (line : list string) (rowCode : AirportRowCode)
    (st : XpAirportWriter) : XpAirportWriter :=
  if ignoringAirport (flags st) then st else
  let st := checkWriting "bindRunway" st in
  (* Get runway data for land or water which have different indexes *)
  let '(primaryPos, secondaryPos, primaryName, secondaryName, surface, st) :=
    match rowCode with
    | LAND_RUNWAY =>
        (posAt line rw.PRIMARY_LONX rw.PRIMARY_LATY,
         posAt line rw.SECONDARY_LONX rw.SECONDARY_LATY,
         at_ line rw.PRIMARY_NUMBER, at_ line rw.SECONDARY_NUMBER,
         toSurface (QStr.toInt (at_ line rw.SURFACE)), st)
    | WATER_RUNWAY =>
        (posAt line rw.WATER_PRIMARY_LONX rw.WATER_PRIMARY_LATY,
         posAt line rw.WATER_SECONDARY_LONX rw.WATER_SECONDARY_LATY,
         at_ line rw.WATER_PRIMARY_NUMBER, at_ line rw.WATER_SECONDARY_NUMBER,
         WATER, st)
    | _ => (Geo.Pos0, Geo.Pos0, "", "", UNKNOWN, qWarning "Invalid runway code" st)
    end in
  (* Calculate end ids *)
  let st := upd_ids (fun i => set_curRunwayEndId (curRunwayEndId i + 1) i) st in
  let primRwEndId := curRunwayEndId (ids st) in
  let st := upd_ids (fun i => set_curRunwayEndId (curRunwayEndId i + 1) i) st in
  let secRwEndId := curRunwayEndId (ids st) in
  (* Add to index *)
  let st := with_airportIndex
              (AirportIndex.addRunwayEnd (airportIcao st) primaryName primRwEndId
                 (airportIndex st)) st in
  let st := with_airportIndex
              (AirportIndex.addRunwayEnd (airportIcao st) secondaryName secRwEndId
                 (airportIndex st)) st in
  (* Calculate heading and positions *)
  let lengthMeter := distanceMeterTo ext primaryPos secondaryPos in
  let lengthFeet := Geo.meterToFeet lengthMeter in
  let widthFeet := Geo.meterToFeet (QStr.toFloat (at_ line rw.WIDTH)) in
  let primaryHeading := angleDegTo ext primaryPos secondaryPos in
  let secondaryHeading := Geo.normalizeCourse (Geo.opposedCourseDeg primaryHeading) in
  let center := interpolate ext primaryPos secondaryPos lengthMeter (1 # 2) in
  let st := extendRect primaryPos st in
  let st := extendRect secondaryPos st in
  let st := upd_counts (fun c => set_numRunway (numRunway c + 1) c) st in
  (* Update airport counts *)
  let st := if isSurfaceHard surface
            then upd_counts (fun c => set_numHardRunway (numHardRunway c + 1) c) st
            else st in
  let st := if isSurfaceSoft surface
            then upd_counts (fun c => set_numSoftRunway (numSoftRunway c + 1) c) st
            else st in
  let st := if isSurfaceWater surface
            then upd_counts (fun c => set_numWaterRunway (numWaterRunway c + 1) c) st
            else st in
  (* Remember data of longest runway *)
  let surfaceStr := surfaceToDb surface in
  let st :=
    if Geo.Qltb (longestRunwayLength (geo st)) lengthFeet then
      upd_geo (fun g => set_longestRunwayCenterPos center
                (set_longestRunwaySurface surfaceStr
                  (set_longestRunwayHeading primaryHeading
                    (set_longestRunwayWidth widthFeet
                      (set_longestRunwayLength lengthFeet g))))) st
    else st in
  let st := bindValue insertRunwayQuery ":runway_id" (QInt primRwEndId) st in
  let st := bindValue insertRunwayQuery ":airport_id" (QInt (curAirportId (ids st))) st in
  let st := bindValue insertRunwayQuery ":primary_end_id" (QInt primRwEndId) st in
  let st := bindValue insertRunwayQuery ":secondary_end_id" (QInt secRwEndId) st in
  let st := bindValue insertRunwayQuery ":surface" (QString surfaceStr) st in
  (* Add shoulder surface (X-Plane only) *)
  let shoulder := QStr.toInt (at_ line rw.SHOULDER_SURFACE) in
  let st :=
    if Z.eqb shoulder 1
    then bindValue insertRunwayQuery ":shoulder" (QString (surfaceToDb ASPHALT)) st
    else if Z.eqb shoulder 2
    then bindValue insertRunwayQuery ":shoulder" (QString (surfaceToDb CONCRETE)) st
    else bindValue insertRunwayQuery ":shoulder" QNull st in
  let st := bindValue insertRunwayQuery ":length" (QFloat lengthFeet) st in
  let st := bindValue insertRunwayQuery ":width" (QFloat widthFeet) st in
  let st := bindValue insertRunwayQuery ":heading" (QFloat primaryHeading) st in
  let st :=
    if bool_decide (rowCode = LAND_RUNWAY) then
      (* Surface markings *)
      let st := bindValue insertRunwayQuery ":marking_flags"
                  (QInt (Z.lor
                     (markingToDb (toMarking (QStr.toInt (at_ line rw.PRIMARY_MARKINGS))))
                     (markingToDb (toMarking (QStr.toInt (at_ line rw.SECONDARY_MARKINGS))))))
                  st in
      (* Lights *)
      let edgeLights := QStr.toInt (at_ line rw.EDGE_LIGHTS) in
      let st :=
        if Z.eqb edgeLights 0 then bindValue insertRunwayQuery ":edge_light" QNull st
        else if Z.eqb edgeLights 1 then bindValue insertRunwayQuery ":edge_light" (QString "L") st
        else if Z.eqb edgeLights 2 then bindValue insertRunwayQuery ":edge_light" (QString "M") st
        else if Z.eqb edgeLights 3 then bindValue insertRunwayQuery ":edge_light" (QString "H") st
        else qWarning "Invalid edge light value" st in
      let centerLights := QStr.toInt (at_ line rw.CENTER_LIGHTS) in
      let st :=
        if Z.eqb centerLights 1
        then bindValue insertRunwayQuery ":center_light" (QString "M") st
        else bindValue insertRunwayQuery ":center_light" QNull st in
      if Z.ltb 0 edgeLights || Z.ltb 0 centerLights
      then upd_counts (fun c => set_numLightRunway (numLightRunway c + 1) c) st
      else st
    else bindValue insertRunwayQuery ":marking_flags" (QInt 0) st in
  let st := bindValue insertRunwayQuery ":pattern_altitude" (QInt 0) st in
  let st := bindValue insertRunwayQuery ":has_center_red" (QInt 0) st in
  let st := bindValue insertRunwayQuery ":primary_lonx" (QFloat (lonX primaryPos)) st in
  let st := bindValue insertRunwayQuery ":primary_laty" (QFloat (latY primaryPos)) st in
  let st := bindValue insertRunwayQuery ":secondary_lonx" (QFloat (lonX secondaryPos)) st in
  let st := bindValue insertRunwayQuery ":secondary_laty" (QFloat (latY secondaryPos)) st in
  let st := bindValue insertRunwayQuery ":altitude" (QFloat (airportAltitude (geo st))) st in
  let st := bindValue insertRunwayQuery ":lonx" (QFloat (lonX center)) st in
  let st := bindValue insertRunwayQuery ":laty" (QFloat (latY center)) st in
  (* Primary end *)
  let st := appendRunwayEnd line rowCode primRwEndId primaryName "P"
              primaryHeading primaryPos
              rw.PRIMARY_DISPLACED_THRESHOLD rw.PRIMARY_OVERRUN_BLASTPAD
              rw.PRIMARY_ALS rw.PRIMARY_REIL rw.PRIMARY_TDZ_LIGHT st in
  (* Secondary end *)
  let st := appendRunwayEnd line rowCode secRwEndId secondaryName "S"
              secondaryHeading secondaryPos
              rw.SECONDARY_DISPLACED_THRESHOLD rw.SECONDARY_OVERRUN_BLASTPAD
              rw.SECONDARY_ALS rw.SECONDARY_REIL rw.SECONDARY_TDZ_LIGHT st in
  let st := exec insertRunwayQuery st in
  let st := clearBoundValues insertRunwayQuery st in
  (* Write start position for primary runway end *)
  let st := writeRunwayStart primRwEndId primaryName primaryHeading primaryPos st in
  (* Write start position for secondary runway end *)
  writeRunwayStart secRwEndId secondaryName secondaryHeading secondaryPos st.

(** *** The airport session *)

(** The tokens of the regular expression [NAME_INDICATOR],
    [\[(h|s|g|x|mil)\]], matched without regard to case. *)
Definition indicators : list string := [ "[h]"; "[s]"; "[g]"; "[x]"; "[mil]" ].

(** The indicator at the start of [str], if there is one. *)
Definition indicatorAt (str : string) : option string :=
  List.find (fun i => QStr.startsWith (QStr.toLower str) i) indicators.

(** [name.replace(NAME_INDICATOR, "")], the flag tells if anything matched. *)
Fixpoint removeIndicators (fuel : nat) (str : string) : bool * string :=
  match fuel with
  | O => (false, str)
  | S k =>
      match indicatorAt str with
      | Some i =>
          let '(_, r) := removeIndicators k (String.substring (String.length i)
                                               (String.length str - String.length i) str) in
          (true, r)
      | None =>
          match str with
          | EmptyString => (false, EmptyString)
          | String c t => let '(b, r) := removeIndicators k t in (b, String c r)
          end
      end
  end.

Definition writeAirportFile (icao : string) (curFileId_ : Z)
    (st : XpAirportWriter) : XpAirportWriter :=
  let st := upd_ids (fun i => set_curAirportFileId (curAirportFileId i - 1) i) st in
  let st := bindValue insertAirportFileQuery ":airport_file_id"
              (QInt (curAirportFileId (ids st))) st in
  let st := bindValue insertAirportFileQuery ":file_id" (QInt curFileId_) st in
  let st := bindValue insertAirportFileQuery ":ident" (QString icao) st in
  exec insertAirportFileQuery st.

Definition bindAirport (line : list string) (rowCode : AirportRowCode)
    (context : XpWriterContext) (st : XpAirportWriter) : XpAirportWriter :=
  let st := if writingAirport (flags st)
            then qWarning "Invalid writing airport state in bindAirport" st
            else st in
  let st := if ignoringAirport (flags st)
            then qWarning "Invalid ignoring airport state in bindAirport" st
            else st in
  let st := upd_ids (fun i => set_curAirportId (curAirportId i + 1) i) st in
  let airportId := curAirportId (ids st) in
  let st := with_airportIcao (QStr.value line ap.ICAO) st in
  let st := writeAirportFile (airportIcao st) (curFileId context) st in
  let '(added, index) :=
    AirportIndex.addAirport (airportIcao st) airportId (airportIndex st) in
  let st := with_airportIndex index st in
  if negb added || negb (isIncludedAirportIdent ext (airportIcao st)) then
    (* Airport was already read before - ignore it completely *)
    upd_flags (set_ignoringAirport true) st
  else
    let st := upd_flags (set_writingAirport true) st in
    let st := with_airportRowCode rowCode st in
    let st := bindValue insertAirportQuery ":airport_id" (QInt airportId) st in
    let st := bindValue insertAirportQuery ":file_id" (QInt (curFileId context)) st in
    let st := upd_geo (set_airportAltitude (QStr.toFloat (QStr.value line ap.ELEVATION))) st in
    let name := mid line ap.NAME in
    let st := upd_flags (set_airportClosed (isNameClosed ext name)) st in
    let name :=
      let '(matched, stripped) := removeIndicators (S (String.length name)) name in
      if matched : bool
      then (* Remove [H], [S], [g] and [mil] indicators *) QStr.trimmed stripped
      else name in
    (* Check military before converting to caps *)
    let isMil := isNameMilitary ext name in
    let name := capAirportName ext name in
    let st := bindValue insertAirportQuery ":ident" (QString (airportIcao st)) st in
    let st := bindValue insertAirportQuery ":name" (QString name) st in
    let st := bindValue insertAirportQuery ":fuel_flags" (QInt 0) st in
    let st := bindValue insertAirportQuery ":has_tower_object" (QInt 0) st in
    let st := bindValue insertAirportQuery ":is_closed" (QBool (airportClosed (flags st))) st in
    let st := bindValue insertAirportQuery ":is_military" (QBool isMil) st in
    let st := bindValue insertAirportQuery ":is_addon" (QBool (IS_ADDON context)) st in
    let st := bindValue insertAirportQuery ":num_boundary_fence" (QInt 0) st in
    let st := bindValue insertAirportQuery ":num_approach" (QInt 0) st in
    let st := bindValue insertAirportQuery ":num_runway_end_closed" (QInt 0) st in
    let st := bindValue insertAirportQuery ":num_jetway" (QInt 0) st in
    let st := bindValue insertAirportQuery ":scenery_local_path" (QString (localPath context)) st in
    let st := bindValue insertAirportQuery ":bgl_filename" (QString (fileName context)) st in
    let st := bindValue insertAirportQuery ":altitude" (QFloat (airportAltitude (geo st))) st in
    let st := bindValue insertAirportQuery ":has_jetfuel" (QInt 0) st in
    bindValue insertAirportQuery ":has_avgas" (QInt 0) st.

Definition reset (st : XpAirportWriter) : XpAirportWriter :=
  let st := with_geo
              (mkAirportGeo Geo.Rect0 Geo.Pos0 Geo.Pos0 Geo.Pos0 0 0 0 "UNKNOWN" 0) st in
  let st := with_counts (mkCounts 0 0 0 0 0 0 0 0 0 0 0 0 0 0 0 0 0 0) st in
  let st := upd_flags (set_airportClosed false) st in
  let st := upd_ids (set_curHelipadStartNumber 0) st in
  let st := with_airportRowCode NO_ROWCODE st in
  let st := with_airportIcao "" st in
  let st := with_runwayEndRecords [] st in
  let st := with_taxiNodes ∅ st in
  let st := with_largestParkingGate "" st in
  let st := with_largestParkingRamp "" st in
  let st := upd_flags (set_hasTower false) st in
  let st := upd_flags (fun f => set_writingAirport false (set_ignoringAirport false f)) st in
  upd_flags (fun f => set_writingPavementBoundary false
                        (set_writingPavementHoles false
                           (set_writingPavementNewHole false
                              (set_writingStartLocation false f)))) st.

(** [SqlQuery::bindAndExecRecords]: every record is written. *)
Definition bindAndExecRecords (q : SqlQueryId) (recs : list SqlRecord)
    (st : XpAirportWriter) : XpAirportWriter :=
  with_db (db st ++ map (fun rec => (q, rec)) recs) st.

(** The part "Find the bounding rect" of [finishAirport]. *)
Definition findBoundingRect (st : XpAirportWriter) : XpAirportWriter :=
  if negb (Geo.rectIsValid (airportRect (geo st))) then
    let st := qWarning "No bounding rectangle for airport found" st in
    (* Find valid starting point for bounding rectangle *)
    if Geo.isValid (airportDatumPos (geo st)) then
      upd_geo (fun g => set_airportPos (airportDatumPos g)
                          (set_airportRect (Geo.RectOf (airportDatumPos g)) g)) st
    else if Geo.isValid (longestRunwayCenterPos (geo st)) then
      upd_geo (fun g => set_airportPos (longestRunwayCenterPos g)
                          (set_airportRect (Geo.RectOf (longestRunwayCenterPos g)) g)) st
    else qWarning "Could not determine bounding rectangle for airport" st
  else
    if Geo.isValid (airportDatumPos (geo st)) then
      (* Check if the datum is nearby the bounding rectangle *)
      let testRect := Geo.inflate Geo.POS_EPSILON_100M Geo.POS_EPSILON_100M
                        (airportRect (geo st)) in
      if Geo.rectContains testRect (airportDatumPos (geo st)) then
        (* Optional datum seems to be valid *)
        upd_geo (fun g => set_airportPos (airportDatumPos g) g) st
      else
        (* Datum is invalid use runway or center of rect *)
        if Z.eqb (numRunway (counts st)) 1
        then upd_geo (fun g => set_airportPos (longestRunwayCenterPos g) g) st
        else upd_geo (fun g => set_airportPos (Geo.getCenter (airportRect g)) g) st
    else st.

(** The part "Update counts" of [finishAirport], up to the parking
    counters. *)
Definition bindAirportCounts (context : XpWriterContext) (st : XpAirportWriter)
  : XpAirportWriter :=
  let c := counts st in
  let st := bindValue insertAirportQuery ":longest_runway_length" (QFloat (longestRunwayLength (geo st))) st in
  let st := bindValue insertAirportQuery ":longest_runway_width" (QFloat (longestRunwayWidth (geo st))) st in
  let st := bindValue insertAirportQuery ":longest_runway_heading" (QFloat (longestRunwayHeading (geo st))) st in
  let st := bindValue insertAirportQuery ":longest_runway_surface" (QString (longestRunwaySurface (geo st))) st in
  let st := bindValue insertAirportQuery ":num_runways"
              (QInt (numSoftRunway c + numWaterRunway c + numHardRunway c)) st in
  let st := bindValue insertAirportQuery ":num_runway_hard" (QInt (numHardRunway c)) st in
  let st := bindValue insertAirportQuery ":num_runway_soft" (QInt (numSoftRunway c)) st in
  let st := bindValue insertAirportQuery ":num_runway_water" (QInt (numWaterRunway c)) st in
  let st := bindValue insertAirportQuery ":num_runway_light" (QInt (numLightRunway c)) st in
  let st := bindValue insertAirportQuery ":num_helipad" (QInt (numHelipad c)) st in
  let st := bindValue insertAirportQuery ":num_com" (QInt (numCom c)) st in
  let st := bindValue insertAirportQuery ":num_runway_end_als" (QInt (numRunwayEndAls c)) st in
  let st := bindValue insertAirportQuery ":num_starts" (QInt (numStart c)) st in
  let st := bindValue insertAirportQuery ":num_runway_end_vasi" (QInt (numRunwayEndVasi c)) st in
  let st := bindValue insertAirportQuery ":num_apron" (QInt (numApron c)) st in
  let st := bindValue insertAirportQuery ":num_taxi_path" (QInt (numTaxiPath c)) st in
  let st := bindValue insertAirportQuery ":has_tower_object" (QBool (hasTower (flags st))) st in
  (* Rating *)
  let rating :=
    calculateAirportRatingXp ext (IS_ADDON context) (IS_3D context)
      (hasTower (flags st)) (numTaxiPath c) (numParking c) (numApron c) in
  let st := bindValue insertAirportQuery ":rating" (QInt rating) st in
  let st := bindValue insertAirportQuery ":is_3d" (QBool (IS_3D context)) st in
  let st := bindValue insertAirportQuery ":num_parking_gate" (QInt (numParkingGate c)) st in
  let st := bindValue insertAirportQuery ":num_parking_ga_ramp" (QInt (numParkingGaRamp c)) st in
  let st := bindValue insertAirportQuery ":num_parking_cargo" (QInt (numParkingCargo c)) st in
  let st := bindValue insertAirportQuery ":num_parking_mil_cargo" (QInt (numParkingMilCargo c)) st in
  bindValue insertAirportQuery ":num_parking_mil_combat" (QInt (numParkingMilCombat c)) st.

(** The end of [finishAirport]: a rectangle of one point is widened, the
    rectangle and the center position are bound, and the airport and its
    runway ends are written. *)
Definition writeAirportRow (context : XpWriterContext) (st : XpAirportWriter)
  : XpAirportWriter :=
  let st :=
    if Geo.isPoint (airportRect (geo st))
    then upd_geo (fun g => set_airportRect
                             (Geo.inflate (1 # 60) (1 # 60) (airportRect g)) g) st
    else st in
  let rect := airportRect (geo st) in
  let st := bindValue insertAirportQuery ":left_lonx" (QFloat (lonX (topLeft rect))) st in
  let st := bindValue insertAirportQuery ":top_laty" (QFloat (latY (topLeft rect))) st in
  let st := bindValue insertAirportQuery ":right_lonx" (QFloat (lonX (bottomRight rect))) st in
  let st := bindValue insertAirportQuery ":bottom_laty" (QFloat (latY (bottomRight rect))) st in
  (* Center position *)
  let center := if Geo.isValid (airportPos (geo st))
                then airportPos (geo st) else Geo.getCenter rect in
  let st := bindValue insertAirportQuery ":lonx" (QFloat (lonX center)) st in
  let st := bindValue insertAirportQuery ":laty" (QFloat (latY center)) st in
  let st := bindValue insertAirportQuery ":mag_var" (QFloat (getMagVar context center)) st in
  let st := exec insertAirportQuery st in
  let st := clearBoundValues insertAirportQuery st in
  let st := with_numAirports (numAirports st + 1) st in
  bindAndExecRecords insertRunwayEndQuery (runwayEndRecords st) st.

(** [finishAirport], in the three parts that its comments name. *)
Definition finishAirport (context : XpWriterContext) (st : XpAirportWriter)
  : XpAirportWriter :=
  let st :=
    if writingAirport (flags st) && negb (ignoringAirport (flags st)) then
      (* Update counts *)
      let st := bindAirportCounts context st in
      (* Find the bounding rect *)
      let st := findBoundingRect st in
      writeAirportRow context st
    else st in
  reset st.

(** ** The row dispatcher *)

(** The row code of a line. *)
Definition rowCodeOf (line : list string) : AirportRowCode :=
  toAirportRowCode (QStr.toInt (at_ line ap.ROWCODE)).

Definition write (line : list string) (context : XpWriterContext)
    (st : XpAirportWriter) : XpAirportWriter :=
  let rowCode := rowCodeOf line in
  let st :=
    if negb (containsCode rowCode
               [PAVEMENT_HEADER; NODE; NODE_AND_CONTROL_POINT; NODE_CLOSE;
                NODE_AND_CONTROL_POINT_CLOSE])
    then finishPavement st else st in
  let st :=
    if negb (bool_decide (rowCode = RAMP_START_METADATA))
    then finishStartupLocation st else st in
  match rowCode with
  (* Airport header *)
  | LAND_AIRPORT_HEADER | SEAPLANE_BASE_HEADER | HELIPORT_HEADER =>
      bindAirport line rowCode context (finishAirport context st)
  | LAND_RUNWAY | WATER_RUNWAY => bindRunway line rowCode st
  | HELIPAD => writeHelipad line st
  | PAVEMENT_HEADER => bindPavement line (finishPavement st)
  | NODE | NODE_AND_CONTROL_POINT | NODE_CLOSE | NODE_AND_CONTROL_POINT_CLOSE =>
      bindPavementNode line rowCode st
  | AIRPORT_VIEWPOINT => bindViewpoint line st
  | AEROPLANE_STARTUP_LOCATION => writeStartup line st
  | LIGHTING_OBJECT => bindVasi line st
  | AIRPORT_LOCATION => writeStartupLocation line (finishStartupLocation st)
  | RAMP_START_METADATA => writeStartupLocationMetadata line st
  | TAXI_ROUTE_NETWORK_NODE => bindTaxiNode line st
  | TAXI_ROUTE_NETWORK_EDGE => bindTaxiEdge line st
  | METADATA_RECORDS => bindMetadata line st
  | TRUCK_PARKING_LOCATION | TRUCK_DESTINATION_LOCATION => bindFuel line st
  | COM_WEATHER | COM_UNICOM | COM_CLEARANCE | COM_GROUND | COM_TOWER
  | COM_APPROACH | COM_DEPARTURE => writeCom line rowCode st
  (* Unused rowcodes *)
  | _ => st
  end.

Definition finish (context : XpWriterContext) (st : XpAirportWriter)
  : XpAirportWriter :=
  finishAirport context (finishStartupLocation (finishPavement st)).

(** A whole file: the lines in their order, then [finish]. *)
Definition writeAll (lines : list (list string)) (context : XpWriterContext)
    (st : XpAirportWriter) : XpAirportWriter :=
  fold_left (fun st line => write line context st) lines st.

End Writer.

(** The writer as it is constructed: nothing written, no airport open. *)
Definition initial (index : AirportIndex.t) : XpAirportWriter :=
  mkXpAirportWriter [] [] 0
    (mkQueries ∅ ∅ ∅ ∅ ∅ ∅ ∅ ∅ ∅)
    (mkFlags false false false false false false false false)
    (mkIds 0 0 0 0 0 0 0 0 0 0)
    (mkCounts 0 0 0 0 0 0 0 0 0 0 0 0 0 0 0 0 0 0)
    (mkAirportGeo Geo.Rect0 Geo.Pos0 Geo.Pos0 Geo.Pos0 0 0 0 "UNKNOWN" 0)
    [] index ∅ XpGeometry.clear "" "" "" NO_ROWCODE.

(** * Helpers of the BGL reader (fs/bgl/util.h) *)

Module util.

(** [enumToStr]: the name that [func] gives to an enumerator; the names that
    stand for "nothing" give the empty string. *)
Definition enumToStr {TYPE : Type} (func : TYPE -> string) (type : TYPE)
  : string :=
  let retval := func type in
  if String.eqb retval "NONE" || String.eqb retval "NO" then "" else retval.

(** [round] of <cmath>: the nearest integer, halfway cases away from zero. *)
Definition round (x : Q) : Z :=
  if Qle_bool 0 x then Qfloor (x + (1 # 2)) else Qceiling (x - (1 # 2)).

(** [static_cast<int>] of a floating value and the result of an [int]
    operation: defined inside the range of [int] only. *)
Definition toIntChecked (z : Z) : option Z :=
  if Z.leb QStr.INT_MIN z && Z.leb z QStr.INT_MAX then Some z else None.

Definition meterToNm (meters : Q) : option Z :=
  toIntChecked (round (meters / 1852)).

(** [static_cast<int>(pow(10., precision))]: a negative power of ten is
    truncated to 0. *)
Definition powerOfTen (precision : Z) : option Z :=
  toIntChecked (if Z.ltb precision 0 then 0 else 10 ^ precision).

Definition meterToFeet (meters : Q) (precision : Z) : option Z :=
  if Z.eqb precision 0 then toIntChecked (round (meters * (3281 # 1000)))
  else
    match powerOfTen precision with
    | None => None
    | Some factor =>
        (* a division by 0 gives no finite value to convert *)
        if Z.eqb factor 0 then None else
        match toIntChecked (round (meters * (3281 # 1000) / inject_Z factor)) with
        | None => None
        | Some r => toIntChecked (r * factor)
        end
    end.

(** [(bitfield & flag) == flag] *)
Definition isFlagSet (bitfield flag : Z) : bool :=
  Z.eqb (Z.land bitfield flag) flag.

(** [(bitfield & flag) == 0] *)
Definition isFlagNotSet (bitfield flag : Z) : bool :=
  Z.eqb (Z.land bitfield flag) 0.

End util.

(** * Options of the BGL reader (fs/bglreaderoptions.cpp) *)

Module type.

Inductive BglObjectType :=
| AIRPORT | RUNWAY | APPROACH | COM | PARKING | ILS | VOR | NDB | WAYPOINT
| MARKER | ROUTE | UNKNOWN.

#[global] Instance BglObjectType_eq_dec : EqDecision BglObjectType.
Proof. solve_decision. Defined.

Definition toNat (t : BglObjectType) : nat :=
  match t with
  | AIRPORT => 0 | RUNWAY => 1 | APPROACH => 2 | COM => 3 | PARKING => 4
  | ILS => 5 | VOR => 6 | NDB => 7 | WAYPOINT => 8 | MARKER => 9 | ROUTE => 10
  | UNKNOWN => 11
  end%nat.

Definition ofNat (n : nat) : BglObjectType :=
  match n with
  | 0 => AIRPORT | 1 => RUNWAY | 2 => APPROACH | 3 => COM | 4 => PARKING
  | 5 => ILS | 6 => VOR | 7 => NDB | 8 => WAYPOINT | 9 => MARKER | 10 => ROUTE
  | _ => UNKNOWN
  end%nat.

(** The object types are the elements of a [QSet]. *)
#[global] Program Instance BglObjectType_countable : Countable BglObjectType :=
  inj_countable' toNat ofNat _.
Next Obligation. now intros []. Qed.

Definition bglObjectTypeToString (type : BglObjectType) : string :=
  match type with
  | AIRPORT => "AIRPORT"
  | RUNWAY => "RUNWAY"
  | APPROACH => "APPROACH"
  | COM => "COM"
  | PARKING => "PARKING"
  | ILS => "ILS"
  | VOR => "VOR"
  | NDB => "NDB"
  | WAYPOINT => "WAYPOINT"
  | MARKER => "MARKER"
  | ROUTE => "ROUTE"
  | UNKNOWN => "UNKNWON"
  end.

Definition stringToBglObjectType (typeStr : string) : BglObjectType :=
  if String.eqb typeStr "AIRPORT" then AIRPORT
  else if String.eqb typeStr "RUNWAY" then RUNWAY
  else if String.eqb typeStr "APPROACH" then APPROACH
  else if String.eqb typeStr "COM" then COM
  else if String.eqb typeStr "PARKING" then PARKING
  else if String.eqb typeStr "ILS" then ILS
  else if String.eqb typeStr "VOR" then VOR
  else if String.eqb typeStr "NDB" then NDB
  else if String.eqb typeStr "WAYPOINT" then WAYPOINT
  else if String.eqb typeStr "MARKER" then MARKER
  else if String.eqb typeStr "ROUTE" then ROUTE
  else UNKNOWN.

End type.

(** [QRegExp(pattern, Qt::CaseInsensitive, QRegExp::Wildcard)]: a filter is
    kept as its pattern. *)
Record QRegExp := mkQRegExp { pattern : string }.

(** The filters among the members of [BglReaderOptions]. *)
Record BglReaderOptions := mkBglReaderOptions {
  fileFiltersInc : list QRegExp;
  pathFiltersInc : list QRegExp;
  airportIcaoFiltersInc : list QRegExp;
  fileFiltersExcl : list QRegExp;
  pathFiltersExcl : list QRegExp;
  airportIcaoFiltersExcl : list QRegExp;
  bglObjectTypeFiltersInc : gset type.BglObjectType;
  bglObjectTypeFiltersExcl : gset type.BglObjectType
}.

(** [BglReaderOptions()]: no filter at all. *)
Definition noFilters : BglReaderOptions :=
  mkBglReaderOptions [] [] [] [] [] [] ∅ ∅.

(** [QString::endsWith(QChar)] *)
Fixpoint endsWith (s : string) (c : ascii) : bool :=
  match s with
  | EmptyString => false
  | String a EmptyString => Ascii.eqb a c
  | String _ rest => endsWith rest c
  end.

(** [QString::startsWith(QChar)] *)
Definition startsWithChar (s : string) (c : ascii) : bool :=
  match s with
  | EmptyString => false
  | String a _ => Ascii.eqb a c
  end.

(** [QList::isEmpty] *)
Definition isEmptyList {A : Type} (l : list A) : bool :=
  match l with [] => true | _ => false end.

Section BglReaderOptions.

(** What Qt does is not among the sources: the matcher of a wildcard
    pattern, the separator of directories of the platform and the file name
    of a path are parameters. *)
Variable exactMatch : QRegExp -> string -> bool.     (* QRegExp::exactMatch *)
Variable separator : ascii.                          (* QDir::separator() *)
Variable fileName : string -> string.       (* QFileInfo(filename).fileName() *)

Definition includeObject (filterStr : string)
    (filterListInc filterListExcl : list QRegExp) : bool :=
  if isEmptyList filterListInc && isEmptyList filterListExcl then true else
  let exFound := existsb (fun iter => exactMatch iter filterStr) filterListExcl in
  if isEmptyList filterListInc then negb exFound
  else
    let incFound := existsb (fun iter => exactMatch iter filterStr) filterListInc in
    if isEmptyList filterListExcl then incFound
    else incFound && negb exFound.

Definition includePath (filename : string) (o : BglReaderOptions) : bool :=
  let newFilename := filename in
  let newFilename :=
    if negb (endsWith filename separator)
    then newFilename +:+ String separator EmptyString else newFilename in
  let newFilename :=
    if negb (startsWithChar filename separator)
    then String separator newFilename else newFilename in
  includeObject newFilename (pathFiltersInc o) (pathFiltersExcl o).

Definition includeFilename (filename : string) (o : BglReaderOptions) : bool :=
  let fn := fileName filename in
  includeObject fn (fileFiltersInc o) (fileFiltersExcl o).

Definition includeAirport (icao : string) (o : BglReaderOptions) : bool :=
  includeObject icao (airportIcaoFiltersInc o) (airportIcaoFiltersExcl o).

End BglReaderOptions.

Definition setFilter (filters : list string) (filterList : list QRegExp)
  : list QRegExp :=
  fold_left
    (fun filterList f =>
       let newFilter := QStr.trimmed f in
       if negb (QStr.isEmpty newFilter)
       then filterList ++ [mkQRegExp newFilter] else filterList)
    filters filterList.

Definition setFilenameFilterInc (filter : list string) (o : BglReaderOptions)
  : BglReaderOptions :=
  mkBglReaderOptions (setFilter filter (fileFiltersInc o)) (pathFiltersInc o)
    (airportIcaoFiltersInc o) (fileFiltersExcl o) (pathFiltersExcl o)
    (airportIcaoFiltersExcl o) (bglObjectTypeFiltersInc o)
    (bglObjectTypeFiltersExcl o).

Definition setAirportIcaoFilterInc (filter : list string) (o : BglReaderOptions)
  : BglReaderOptions :=
  mkBglReaderOptions (fileFiltersInc o) (pathFiltersInc o)
    (setFilter filter (airportIcaoFiltersInc o)) (fileFiltersExcl o)
    (pathFiltersExcl o) (airportIcaoFiltersExcl o) (bglObjectTypeFiltersInc o)
    (bglObjectTypeFiltersExcl o).

Definition setPathFilterInc (filter : list string) (o : BglReaderOptions)
  : BglReaderOptions :=
  mkBglReaderOptions (fileFiltersInc o) (setFilter filter (pathFiltersInc o))
    (airportIcaoFiltersInc o) (fileFiltersExcl o) (pathFiltersExcl o)
    (airportIcaoFiltersExcl o) (bglObjectTypeFiltersInc o)
    (bglObjectTypeFiltersExcl o).

Definition setFilenameFilterExcl (filter : list string) (o : BglReaderOptions)
  : BglReaderOptions :=
  mkBglReaderOptions (fileFiltersInc o) (pathFiltersInc o)
    (airportIcaoFiltersInc o) (setFilter filter (fileFiltersExcl o))
    (pathFiltersExcl o) (airportIcaoFiltersExcl o) (bglObjectTypeFiltersInc o)
    (bglObjectTypeFiltersExcl o).

Definition setAirportIcaoFilterExcl (filter : list string) (o : BglReaderOptions)
  : BglReaderOptions :=
  mkBglReaderOptions (fileFiltersInc o) (pathFiltersInc o)
    (airportIcaoFiltersInc o) (fileFiltersExcl o) (pathFiltersExcl o)
    (setFilter filter (airportIcaoFiltersExcl o)) (bglObjectTypeFiltersInc o)
    (bglObjectTypeFiltersExcl o).

Definition setPathFilterExcl (filter : list string) (o : BglReaderOptions)
  : BglReaderOptions :=
  mkBglReaderOptions (fileFiltersInc o) (pathFiltersInc o)
    (airportIcaoFiltersInc o) (fileFiltersExcl o)
    (setFilter filter (pathFiltersExcl o)) (airportIcaoFiltersExcl o)
    (bglObjectTypeFiltersInc o) (bglObjectTypeFiltersExcl o).

Definition setBglObjectFilter (filters : list string)
    (filterList : gset type.BglObjectType) : gset type.BglObjectType :=
  fold_left
    (fun filterList f =>
       if negb (QStr.isEmpty f)
       then {[ type.stringToBglObjectType f ]} ∪ filterList else filterList)
    filters filterList.

Definition setBglObjectFilterInc (filters : list string) (o : BglReaderOptions)
  : BglReaderOptions :=
  mkBglReaderOptions (fileFiltersInc o) (pathFiltersInc o)
    (airportIcaoFiltersInc o) (fileFiltersExcl o) (pathFiltersExcl o)
    (airportIcaoFiltersExcl o)
    (setBglObjectFilter filters (bglObjectTypeFiltersInc o))
    (bglObjectTypeFiltersExcl o).

Definition setBglObjectFilterExcl (filters : list string) (o : BglReaderOptions)
  : BglReaderOptions :=
  mkBglReaderOptions (fileFiltersInc o) (pathFiltersInc o)
    (airportIcaoFiltersInc o) (fileFiltersExcl o) (pathFiltersExcl o)
    (airportIcaoFiltersExcl o) (bglObjectTypeFiltersInc o)
    (setBglObjectFilter filters (bglObjectTypeFiltersExcl o)).

(** [QSet::isEmpty] and [QSet::contains] are decided on the finite set. *)
Definition includeBglObject (type : type.BglObjectType) (o : BglReaderOptions)
  : bool :=
  if bool_decide (bglObjectTypeFiltersInc o = ∅)
     && bool_decide (bglObjectTypeFiltersExcl o = ∅) then true else
  let exFound := bool_decide (type ∈ bglObjectTypeFiltersExcl o) in
  if bool_decide (bglObjectTypeFiltersInc o = ∅) then negb exFound
  else
    let incFound := bool_decide (type ∈ bglObjectTypeFiltersInc o) in
    if bool_decide (bglObjectTypeFiltersExcl o = ∅) then incFound
    else incFound && negb exFound.

(** The name tests of [writeStartupLocation] that make a stand a fuel
    stand. *)
Definition fuelName (name : string) : bool :=
  QStr.contains (QStr.toLower name) "avgas"
  || QStr.contains (QStr.toLower name) "mogas"
  || QStr.contains (QStr.toLower name) "gas-station"
  || QStr.contains (QStr.toLower name) "jetfuel"
  || QStr.contains (QStr.toLower name) "fuel".

(** The type that [writeStartupLocationMetadata] leaves for a stand whose
    type was empty: the operation type, with the size letter for the general
    aviation ramp. *)
Definition typeAfterMetadata (ops sizeType : string) : string :=
  if String.eqb ops "general_aviation" then "RGA" +:+ sizeType
  else if String.eqb ops "cargo" then "RC"
  else if String.eqb ops "military" then "RM"
  else "".

(** A node row that does not close a ring, and one that does. *)
Definition plainNode (line : list string) : Prop :=
  rowCodeOf line = NODE \/ rowCodeOf line = NODE_AND_CONTROL_POINT.

Definition closingNode (line : list string) : Prop :=
  rowCodeOf line = NODE_CLOSE \/ rowCodeOf line = NODE_AND_CONTROL_POINT_CLOSE.

(** The node that [bindPavementNode] makes of a row. *)
Definition nodeOf (line : list string) : XpGeometry.Node :=
  (posAt line n.LONX n.LATY,
   if isControlCode (rowCodeOf line)
   then posAt line n.CTRL_LONX n.CTRL_LATY else Geo.Pos0).

(** The state of the polygon assembler in a session that is not ignoring:
    the three flags, the polygon in progress, the values bound to the apron
    statement and the aprons written so far. *)
Definition Assembling (st : XpAirportWriter) (boundary holes newHole : bool)
    (g : XpGeometry.t) (q : SqlRecord) (rows : list SqlRecord) : Prop :=
  ignoringAirport (flags st) = false
  /\ writingPavementBoundary (flags st) = boundary
  /\ writingPavementHoles (flags st) = holes
  /\ writingPavementNewHole (flags st) = newHole
  /\ currentPavement st = g
  /\ boundApron (queries st) = q
  /\ rowsOf insertApronQuery st = rows.

(** What holds of the flags of every session: a new hole is only pending
    in the hole phase, and an ignored airport has no polygon in progress. *)
Definition flagsOk (f : Flags) : bool :=
  implb (writingPavementNewHole f) (writingPavementHoles f)
  && implb (ignoringAirport f)
       (negb (writingPavementBoundary f) && negb (writingPavementHoles f)).

(** The header rows of an airport. *)
Definition headerRow (line : list string) : Prop :=
  rowCodeOf line = LAND_AIRPORT_HEADER
  \/ rowCodeOf line = SEAPLANE_BASE_HEADER
  \/ rowCodeOf line = HELIPORT_HEADER.

(** No flag set, as after [reset]. *)
Definition noFlags : Flags :=
  mkFlags false false false false false false false false.

(** The positions of the two ends of a runway row, read as [bindRunway]
    reads them for the land and for the water variant. *)
Definition primaryPosOf (line : list string) : Pos :=
  match rowCodeOf line with
  | LAND_RUNWAY => posAt line rw.PRIMARY_LONX rw.PRIMARY_LATY
  | WATER_RUNWAY => posAt line rw.WATER_PRIMARY_LONX rw.WATER_PRIMARY_LATY
  | _ => Geo.Pos0
  end.

Definition secondaryPosOf (line : list string) : Pos :=
  match rowCodeOf line with
  | LAND_RUNWAY => posAt line rw.SECONDARY_LONX rw.SECONDARY_LATY
  | WATER_RUNWAY => posAt line rw.WATER_SECONDARY_LONX rw.WATER_SECONDARY_LATY
  | _ => Geo.Pos0
  end.

(** ** A sample session *)

Module Sample.

(** Collaborators that accept every airport and know no geometry. *)
Definition ext : Externals :=
  {| isIncludedAirportIdent := fun _ => true;
     isNameClosed := fun _ => false;
     isNameMilitary := fun _ => false;
     capAirportName := fun name => name;
     calculateAirportRatingXp := fun _ _ _ _ _ _ => 0;
     distanceMeterTo := fun _ _ => 0%Q;
     angleDegTo := fun _ _ => 0%Q;
     interpolate := fun a _ _ _ => a |}.

Definition context : XpWriterContext :=
  {| curFileId := 1; IS_ADDON := false; IS_3D := false; localPath := "";
     fileName := "apt.dat"; getMagVar := fun _ => 0%Q |}.

Definition header : list string :=
  ["1"; "433"; "0"; "0"; "KSEA"; "Seattle"; "Tacoma"; "Intl"].

Definition pavement : list string := ["110"; "1"; "0.25"; "0"; "apron"].

Definition windsock : list string := ["19"; "47.45"; "-122.31"; "1"; "WS"].

Definition gate : list string :=
  ["1300"; "47.44"; "-122.30"; "90.0"; "gate"; "jets"; "Gate"; "A1"].

Definition gateMetadata : list string := ["1301"; "D"; "airline"; "aal"].

Definition fuelStand : list string :=
  ["1300"; "47.44"; "-122.30"; "90.0"; "misc"; "props"; "JetFuel"; "truck"].

Definition datumLat : list string := ["1302"; "datum_lat"; "47.45"].
Definition datumLon : list string := ["1302"; "datum_lon"; "-122.31"].

Definition papi : list string :=
  ["21"; "47.46"; "-122.31"; "2"; "4"; "3.0"; ""; "PAPI"].

Definition runway : list string :=
  ["100"; "30"; "1"; "0"; "0.25"; "1"; "2"; "0";
   "09"; "47.45"; "-122.32"; "0"; "0"; "3"; "0"; "0"; "0";
   "27"; "47.45"; "-122.30"; "0"; "0"; "3"; "0"; "0"; "0"].

Definition node1 : list string := ["111"; "47.44"; "-122.31"].
Definition node2 : list string := ["112"; "47.45"; "-122.31"; "47.46"; "-122.32"].
Definition nodeClose : list string := ["113"; "47.45"; "-122.30"].
Definition hole1 : list string := ["111"; "47.445"; "-122.305"].
Definition holeClose : list string :=
  ["114"; "47.446"; "-122.306"; "47.447"; "-122.307"].

(** The session after the header of the airport. *)
Definition opened : XpAirportWriter :=
  write ext header context (initial AirportIndex.empty).

(** The session with a datum, and with the center of a longest runway that
    no row has produced. *)
Definition withDatum : XpAirportWriter :=
  upd_geo (set_longestRunwayCenterPos (mkPos (-122) 47))
    (writeAll ext [datumLat; datumLon] context opened).

(** The session with one runway end of heading 356. *)
Definition end356 : SqlRecord :=
  <[":heading" := QFloat 356]> (<[":name" := QString "36"]> ∅).

Definition withEnd356 : XpAirportWriter := with_runwayEndRecords [end356] opened.

End Sample.

(** Further rows of the sample airport. *)
Module SampleMore.

Definition rampMetadata : list string := ["1301"; "C"; "general_aviation"; "n/a"].
Definition start15 : list string := ["15"; "47.45"; "-122.31"; "180.0"; "Start"; "A"].
Definition taxiNode1 : list string := ["1201"; "47.44"; "-122.30"; "both"; "7"; "A_start"].
Definition taxiNode2 : list string := ["1201"; "47.45"; "-122.31"; "both"; "8"; "A_stop"].
Definition taxiEdge : list string := ["1202"; "7"; "8"; "twoway"; "taxiway"; "Taxi_Ramp"].
Definition runwayEdge : list string := ["1202"; "7"; "8"; "twoway"; "runway"; "16L/34R"].
Definition atis : list string := ["50"; "11800"; "KSEA"; "ATIS"].
Definition tower : list string := ["54"; "11990"; "SEATTLE"; "TWR"].
Definition awos : list string := ["50"; "12345"; "Seattle"; "Awos-3"].
Definition truck : list string :=
  ["1400"; "47.44"; "-122.30"; "0.0"; "fuel_props|fuel_jets"; "0"; "Fuel"].
Definition city : list string := ["1302"; "CITY"; "Seattle"; "Tacoma"].
Definition helipad : list string :=
  ["102"; "H1"; "47.44"; "-122.30"; "0.0"; "20.0"; "20.0"; "2"; "0"; "0"; "0.25"; "0"].

Definition papiNamed : list string :=
  ["21"; "47.43"; "-122.30"; "2"; "4.0"; "3.0"; "36"; "PAPI"].

(** The session with an open stand of type "GS" while "GH" is the largest
    gate so far. *)
Definition gateOpen : XpAirportWriter :=
  bindValue insertParkingQuery ":type" (QString "GS")
    (upd_flags (set_writingStartLocation true)
       (with_largestParkingGate "GH" Sample.opened)).

(** The session with an open ramp of the general aviation, width code C. *)
Definition rampOpen : XpAirportWriter :=
  write Sample.ext rampMetadata Sample.context
    (write Sample.ext Sample.gate Sample.context Sample.opened).

End SampleMore.

(** What a runway row adds to: the buffered runway ends, the identifiers and
    the written rows of a session. *)
Definition runwayView (st : XpAirportWriter)
  : list SqlRecord * Ids * list (SqlQueryId * SqlRecord) :=
  (runwayEndRecords st, ids st, db st).

(** * Properties *)

(** ** Symbolic evaluation of the writer

    The elementary updates unfold whenever they are applied, so that a
    projection of an updated writer reduces to the updated member. *)

Arguments with_db /.
Arguments with_warnings /.
Arguments with_numAirports /.
Arguments with_queries /.
Arguments with_flags /.
Arguments with_ids /.
Arguments with_counts /.
Arguments with_geo /.
Arguments with_runwayEndRecords /.
Arguments with_airportIndex /.
Arguments with_taxiNodes /.
Arguments with_currentPavement /.
Arguments with_airportIcao /.
Arguments with_largestParkingGate /.
Arguments with_largestParkingRamp /.
Arguments with_airportRowCode /.
Arguments upd_flags /.
Arguments upd_ids /.
Arguments upd_counts /.
Arguments upd_geo /.
Arguments extendRect /.
Arguments bindValue /.
Arguments boundValue /.
Arguments exec /.
Arguments clearBoundValues /.
Arguments qWarning /.
Arguments bindAndExecRecords /.
Arguments boundValues /.
Arguments set_boundValues /.
Arguments set_boundAirport /.
Arguments set_boundRunway /.
Arguments set_boundHelipad /.
Arguments set_boundCom /.
Arguments set_boundStart /.
Arguments set_boundParking /.
Arguments set_boundApron /.
Arguments set_boundTaxi /.
Arguments set_boundAirportFile /.
Arguments set_writingAirport /.
Arguments set_ignoringAirport /.
Arguments set_writingPavementBoundary /.
Arguments set_writingPavementHoles /.
Arguments set_writingPavementNewHole /.
Arguments set_writingStartLocation /.
Arguments set_hasTower /.
Arguments set_airportClosed /.

Ltac xp_simpl :=
  cbn [db warnings numAirports queries flags ids counts geo runwayEndRecords
       airportIndex taxiNodes currentPavement airportIcao largestParkingGate
       largestParkingRamp airportRowCode
       boundAirport boundRunway boundHelipad boundCom boundStart boundParking
       boundApron boundTaxi boundAirportFile
       writingAirport ignoringAirport writingPavementBoundary
       writingPavementHoles writingPavementNewHole writingStartLocation
       hasTower airportClosed
       with_db with_warnings with_numAirports with_queries with_flags with_ids
       with_counts with_geo with_runwayEndRecords with_airportIndex
       with_taxiNodes with_currentPavement with_airportIcao
       with_largestParkingGate with_largestParkingRamp with_airportRowCode
       upd_flags upd_ids upd_counts upd_geo extendRect bindValue boundValue
       exec clearBoundValues qWarning bindAndExecRecords boundValues
       set_boundValues set_boundAirport set_boundRunway set_boundHelipad
       set_boundCom set_boundStart set_boundParking set_boundApron
       set_boundTaxi set_boundAirportFile set_writingAirport
       set_ignoringAirport set_writingPavementBoundary set_writingPavementHoles
       set_writingPavementNewHole set_writingStartLocation set_hasTower
       set_airportClosed].

Ltac xp_simpl_in H :=
  cbn [db warnings numAirports queries flags ids counts geo runwayEndRecords
       airportIndex taxiNodes currentPavement airportIcao largestParkingGate
       largestParkingRamp airportRowCode
       boundAirport boundRunway boundHelipad boundCom boundStart boundParking
       boundApron boundTaxi boundAirportFile
       writingAirport ignoringAirport writingPavementBoundary
       writingPavementHoles writingPavementNewHole writingStartLocation
       hasTower airportClosed
       with_db with_warnings with_numAirports with_queries with_flags with_ids
       with_counts with_geo with_runwayEndRecords with_airportIndex
       with_taxiNodes with_currentPavement with_airportIcao
       with_largestParkingGate with_largestParkingRamp with_airportRowCode
       upd_flags upd_ids upd_counts upd_geo extendRect bindValue boundValue
       exec clearBoundValues qWarning bindAndExecRecords boundValues
       set_boundValues set_boundAirport set_boundRunway set_boundHelipad
       set_boundCom set_boundStart set_boundParking set_boundApron
       set_boundTaxi set_boundAirportFile set_writingAirport
       set_ignoringAirport set_writingPavementBoundary set_writingPavementHoles
       set_writingPavementNewHole set_writingStartLocation set_hasTower
       set_airportClosed] in H.

(** Case analysis on the tests of a binder. *)
Ltac case_if :=
  match goal with
  | |- context [if ?c then _ else _] => destruct c eqn:?
  end.

(** ** Strings *)

Lemma eqb_false (a b : string) : a <> b -> String.eqb a b = false.
Proof. apply String.eqb_neq. Qed.

Lemma contains_unfold (hay needle : string) :
  QStr.contains hay needle =
  String.prefix needle hay
  || match hay with
     | EmptyString => false
     | String _ t => QStr.contains t needle
     end.
Proof. destruct hay; reflexivity. Qed.

(** A text that starts with [a +:+ b] contains [b]. *)
Lemma contains_prefix_app (a b hay : string) :
  String.prefix (a +:+ b) hay = true -> QStr.contains hay b = true.
Proof.
  revert hay. induction a as [|c a IH]; intros hay H.
  - change ("" +:+ b) with b in H. rewrite contains_unfold, H. reflexivity.
  - change (String c a +:+ b) with (String c (a +:+ b)) in H.
    destruct hay as [|d hay]; cbn in H; [discriminate|].
    destruct (Ascii.ascii_dec c d); [|discriminate].
    rewrite contains_unfold, (IH _ H). apply orb_true_r.
Qed.

(** A text that contains [a +:+ b] contains [b]. *)
Lemma contains_app (a b hay : string) :
  QStr.contains hay (a +:+ b) = true -> QStr.contains hay b = true.
Proof.
  induction hay as [|d hay IH]; rewrite contains_unfold; intros H.
  - rewrite orb_false_r in H. apply contains_prefix_app in H. exact H.
  - apply orb_true_iff in H as [H|H].
    + apply contains_prefix_app in H. exact H.
    + rewrite contains_unfold, (IH H). apply orb_true_r.
Qed.

(** ** The log of written rows *)

Lemma rowsOf_db_app (q : SqlQueryId) (st : XpAirportWriter) l :
  rowsOf q (with_db (db st ++ l) st)
  = rowsOf q st ++ map snd (List.filter (fun e => bool_decide (fst e = q)) l).
Proof. unfold rowsOf. xp_simpl. now rewrite List.filter_app, map_app. Qed.

Lemma rowsOf_exec_same (q : SqlQueryId) (st : XpAirportWriter) :
  rowsOf q (exec q st) = rowsOf q st ++ [boundValues q (queries st)].
Proof.
  unfold exec. rewrite rowsOf_db_app. cbn [List.filter fst].
  rewrite bool_decide_eq_true_2 by reflexivity. reflexivity.
Qed.

Lemma rowsOf_exec_other (q q' : SqlQueryId) (st : XpAirportWriter) :
  q' <> q -> rowsOf q (exec q' st) = rowsOf q st.
Proof.
  intros Hne. unfold exec. rewrite rowsOf_db_app. cbn [List.filter fst].
  rewrite bool_decide_eq_false_2 by assumption. apply app_nil_r.
Qed.

(** The rows of a table depend on the log only. *)
Lemma rowsOf_same_db (q : SqlQueryId) (a b : XpAirportWriter) :
  db a = db b -> rowsOf q a = rowsOf q b.
Proof. unfold rowsOf. now intros ->. Qed.

(** ** What the flushes keep *)

Lemma finishPavement_ignoring st :
  ignoringAirport (flags (finishPavement st)) = ignoringAirport (flags st).
Proof.
  unfold finishPavement, checkWriting. repeat case_if; xp_simpl; congruence.
Qed.

Lemma finishPavement_writingStartLocation st :
  writingStartLocation (flags (finishPavement st)) = writingStartLocation (flags st).
Proof.
  unfold finishPavement, checkWriting. repeat case_if; xp_simpl; congruence.
Qed.

Lemma finishPavement_boundParking st :
  boundParking (queries (finishPavement st)) = boundParking (queries st).
Proof.
  unfold finishPavement, checkWriting. repeat case_if; xp_simpl; congruence.
Qed.

Lemma finishPavement_rowsOf_parking st :
  rowsOf insertParkingQuery (finishPavement st) = rowsOf insertParkingQuery st.
Proof.
  unfold finishPavement, checkWriting. repeat case_if; try reflexivity.
  all: unfold rowsOf; xp_simpl; rewrite List.filter_app, map_app; cbn [List.filter fst].
  all: rewrite bool_decide_eq_false_2 by discriminate; apply app_nil_r.
Qed.

Lemma finishStartupLocation_ignoring st :
  ignoringAirport (flags (finishStartupLocation st)) = ignoringAirport (flags st).
Proof.
  unfold finishStartupLocation. repeat case_if; xp_simpl; congruence.
Qed.

Lemma finishStartupLocation_done st :
  writingStartLocation (flags (finishStartupLocation st)) = false.
Proof.
  unfold finishStartupLocation. repeat case_if; xp_simpl; congruence.
Qed.

(** The flush of an open stand writes the bound values as they are. *)
Lemma finishStartupLocation_rows st :
  writingStartLocation (flags st) = true ->
  rowsOf insertParkingQuery (finishStartupLocation st)
  = rowsOf insertParkingQuery st ++ [boundParking (queries st)].
Proof.
  intros H. unfold finishStartupLocation. rewrite H.
  repeat case_if.
  all: unfold rowsOf; xp_simpl; rewrite List.filter_app, map_app; cbn [List.filter fst map snd].
  all: rewrite bool_decide_eq_true_2 by reflexivity; reflexivity.
Qed.

(** ** Members that the elementary updates keep

    One equation for every update and every member it leaves alone; they
    are collected in a rewriting base per member. *)

Lemma app_if {A B : Type} (f : A -> B) (c : bool) (a b : A) :
  f (if c then a else b) = if c then f a else f b.
Proof. now destruct c. Qed.

Lemma if_same {A : Type} (c : bool) (a : A) : (if c then a else a) = a.
Proof. now destruct c. Qed.

Create Rewrite HintDb xp_flags.

Lemma flags_bindValue q k v s : flags (bindValue q k v s) = flags s.
Proof. reflexivity. Qed.
Lemma flags_exec q s : flags (exec q s) = flags s.
Proof. reflexivity. Qed.
Lemma flags_clearBoundValues q s : flags (clearBoundValues q s) = flags s.
Proof. reflexivity. Qed.
Lemma flags_qWarning msg s : flags (qWarning msg s) = flags s.
Proof. reflexivity. Qed.
Lemma flags_upd_ids f s : flags (upd_ids f s) = flags s.
Proof. reflexivity. Qed.
Lemma flags_upd_counts f s : flags (upd_counts f s) = flags s.
Proof. reflexivity. Qed.
Lemma flags_upd_geo f s : flags (upd_geo f s) = flags s.
Proof. reflexivity. Qed.
Lemma flags_extendRect pos s : flags (extendRect pos s) = flags s.
Proof. reflexivity. Qed.
Lemma flags_bindAndExecRecords q recs s : flags (bindAndExecRecords q recs s) = flags s.
Proof. reflexivity. Qed.
Lemma flags_checkWriting w s : flags (checkWriting w s) = flags s.
Proof. unfold checkWriting; now destruct (negb _). Qed.
Lemma flags_with_db x s : flags (with_db x s) = flags s.
Proof. reflexivity. Qed.
Lemma flags_with_warnings x s : flags (with_warnings x s) = flags s.
Proof. reflexivity. Qed.
Lemma flags_with_numAirports x s : flags (with_numAirports x s) = flags s.
Proof. reflexivity. Qed.
Lemma flags_with_queries x s : flags (with_queries x s) = flags s.
Proof. reflexivity. Qed.
Lemma flags_with_ids x s : flags (with_ids x s) = flags s.
Proof. reflexivity. Qed.
Lemma flags_with_counts x s : flags (with_counts x s) = flags s.
Proof. reflexivity. Qed.
Lemma flags_with_geo x s : flags (with_geo x s) = flags s.
Proof. reflexivity. Qed.
Lemma flags_with_runwayEndRecords x s : flags (with_runwayEndRecords x s) = flags s.
Proof. reflexivity. Qed.
Lemma flags_with_airportIndex x s : flags (with_airportIndex x s) = flags s.
Proof. reflexivity. Qed.
Lemma flags_with_taxiNodes x s : flags (with_taxiNodes x s) = flags s.
Proof. reflexivity. Qed.
Lemma flags_with_currentPavement x s : flags (with_currentPavement x s) = flags s.
Proof. reflexivity. Qed.
Lemma flags_with_airportIcao x s : flags (with_airportIcao x s) = flags s.
Proof. reflexivity. Qed.
Lemma flags_with_largestParkingGate x s : flags (with_largestParkingGate x s) = flags s.
Proof. reflexivity. Qed.
Lemma flags_with_largestParkingRamp x s : flags (with_largestParkingRamp x s) = flags s.
Proof. reflexivity. Qed.
Lemma flags_with_airportRowCode x s : flags (with_airportRowCode x s) = flags s.
Proof. reflexivity. Qed.

#[global] Hint Rewrite
  flags_bindValue flags_exec flags_clearBoundValues flags_qWarning
  flags_upd_ids flags_upd_counts flags_upd_geo flags_extendRect
  flags_bindAndExecRecords flags_checkWriting flags_with_db
  flags_with_warnings flags_with_numAirports flags_with_queries
  flags_with_ids flags_with_counts flags_with_geo
  flags_with_runwayEndRecords flags_with_airportIndex flags_with_taxiNodes
  flags_with_currentPavement flags_with_airportIcao
  flags_with_largestParkingGate flags_with_largestParkingRamp
  flags_with_airportRowCode
  : xp_flags.

Create Rewrite HintDb xp_db.

Lemma db_bindValue q k v s : db (bindValue q k v s) = db s.
Proof. reflexivity. Qed.
Lemma db_clearBoundValues q s : db (clearBoundValues q s) = db s.
Proof. reflexivity. Qed.
Lemma db_qWarning msg s : db (qWarning msg s) = db s.
Proof. reflexivity. Qed.
Lemma db_upd_flags f s : db (upd_flags f s) = db s.
Proof. reflexivity. Qed.
Lemma db_upd_ids f s : db (upd_ids f s) = db s.
Proof. reflexivity. Qed.
Lemma db_upd_counts f s : db (upd_counts f s) = db s.
Proof. reflexivity. Qed.
Lemma db_upd_geo f s : db (upd_geo f s) = db s.
Proof. reflexivity. Qed.
Lemma db_extendRect pos s : db (extendRect pos s) = db s.
Proof. reflexivity. Qed.
Lemma db_checkWriting w s : db (checkWriting w s) = db s.
Proof. unfold checkWriting; now destruct (negb _). Qed.
Lemma db_with_warnings x s : db (with_warnings x s) = db s.
Proof. reflexivity. Qed.
Lemma db_with_numAirports x s : db (with_numAirports x s) = db s.
Proof. reflexivity. Qed.
Lemma db_with_queries x s : db (with_queries x s) = db s.
Proof. reflexivity. Qed.
Lemma db_with_flags x s : db (with_flags x s) = db s.
Proof. reflexivity. Qed.
Lemma db_with_ids x s : db (with_ids x s) = db s.
Proof. reflexivity. Qed.
Lemma db_with_counts x s : db (with_counts x s) = db s.
Proof. reflexivity. Qed.
Lemma db_with_geo x s : db (with_geo x s) = db s.
Proof. reflexivity. Qed.
Lemma db_with_runwayEndRecords x s : db (with_runwayEndRecords x s) = db s.
Proof. reflexivity. Qed.
Lemma db_with_airportIndex x s : db (with_airportIndex x s) = db s.
Proof. reflexivity. Qed.
Lemma db_with_taxiNodes x s : db (with_taxiNodes x s) = db s.
Proof. reflexivity. Qed.
Lemma db_with_currentPavement x s : db (with_currentPavement x s) = db s.
Proof. reflexivity. Qed.
Lemma db_with_airportIcao x s : db (with_airportIcao x s) = db s.
Proof. reflexivity. Qed.
Lemma db_with_largestParkingGate x s : db (with_largestParkingGate x s) = db s.
Proof. reflexivity. Qed.
Lemma db_with_largestParkingRamp x s : db (with_largestParkingRamp x s) = db s.
Proof. reflexivity. Qed.
Lemma db_with_airportRowCode x s : db (with_airportRowCode x s) = db s.
Proof. reflexivity. Qed.

#[global] Hint Rewrite
  db_bindValue db_clearBoundValues db_qWarning db_upd_flags db_upd_ids
  db_upd_counts db_upd_geo db_extendRect db_checkWriting db_with_warnings
  db_with_numAirports db_with_queries db_with_flags db_with_ids
  db_with_counts db_with_geo db_with_runwayEndRecords db_with_airportIndex
  db_with_taxiNodes db_with_currentPavement db_with_airportIcao
  db_with_largestParkingGate db_with_largestParkingRamp
  db_with_airportRowCode
  : xp_db.

Create Rewrite HintDb xp_runwayEndRecords.

Lemma runwayEndRecords_bindValue q k v s : runwayEndRecords (bindValue q k v s) = runwayEndRecords s.
Proof. reflexivity. Qed.
Lemma runwayEndRecords_exec q s : runwayEndRecords (exec q s) = runwayEndRecords s.
Proof. reflexivity. Qed.
Lemma runwayEndRecords_clearBoundValues q s : runwayEndRecords (clearBoundValues q s) = runwayEndRecords s.
Proof. reflexivity. Qed.
Lemma runwayEndRecords_qWarning msg s : runwayEndRecords (qWarning msg s) = runwayEndRecords s.
Proof. reflexivity. Qed.
Lemma runwayEndRecords_upd_flags f s : runwayEndRecords (upd_flags f s) = runwayEndRecords s.
Proof. reflexivity. Qed.
Lemma runwayEndRecords_upd_ids f s : runwayEndRecords (upd_ids f s) = runwayEndRecords s.
Proof. reflexivity. Qed.
Lemma runwayEndRecords_upd_counts f s : runwayEndRecords (upd_counts f s) = runwayEndRecords s.
Proof. reflexivity. Qed.
Lemma runwayEndRecords_upd_geo f s : runwayEndRecords (upd_geo f s) = runwayEndRecords s.
Proof. reflexivity. Qed.
Lemma runwayEndRecords_extendRect pos s : runwayEndRecords (extendRect pos s) = runwayEndRecords s.
Proof. reflexivity. Qed.
Lemma runwayEndRecords_bindAndExecRecords q recs s : runwayEndRecords (bindAndExecRecords q recs s) = runwayEndRecords s.
Proof. reflexivity. Qed.
Lemma runwayEndRecords_checkWriting w s : runwayEndRecords (checkWriting w s) = runwayEndRecords s.
Proof. unfold checkWriting; now destruct (negb _). Qed.
Lemma runwayEndRecords_with_db x s : runwayEndRecords (with_db x s) = runwayEndRecords s.
Proof. reflexivity. Qed.
Lemma runwayEndRecords_with_warnings x s : runwayEndRecords (with_warnings x s) = runwayEndRecords s.
Proof. reflexivity. Qed.
Lemma runwayEndRecords_with_numAirports x s : runwayEndRecords (with_numAirports x s) = runwayEndRecords s.
Proof. reflexivity. Qed.
Lemma runwayEndRecords_with_queries x s : runwayEndRecords (with_queries x s) = runwayEndRecords s.
Proof. reflexivity. Qed.
Lemma runwayEndRecords_with_flags x s : runwayEndRecords (with_flags x s) = runwayEndRecords s.
Proof. reflexivity. Qed.
Lemma runwayEndRecords_with_ids x s : runwayEndRecords (with_ids x s) = runwayEndRecords s.
Proof. reflexivity. Qed.
Lemma runwayEndRecords_with_counts x s : runwayEndRecords (with_counts x s) = runwayEndRecords s.
Proof. reflexivity. Qed.
Lemma runwayEndRecords_with_geo x s : runwayEndRecords (with_geo x s) = runwayEndRecords s.
Proof. reflexivity. Qed.
Lemma runwayEndRecords_with_airportIndex x s : runwayEndRecords (with_airportIndex x s) = runwayEndRecords s.
Proof. reflexivity. Qed.
Lemma runwayEndRecords_with_taxiNodes x s : runwayEndRecords (with_taxiNodes x s) = runwayEndRecords s.
Proof. reflexivity. Qed.
Lemma runwayEndRecords_with_currentPavement x s : runwayEndRecords (with_currentPavement x s) = runwayEndRecords s.
Proof. reflexivity. Qed.
Lemma runwayEndRecords_with_airportIcao x s : runwayEndRecords (with_airportIcao x s) = runwayEndRecords s.
Proof. reflexivity. Qed.
Lemma runwayEndRecords_with_largestParkingGate x s : runwayEndRecords (with_largestParkingGate x s) = runwayEndRecords s.
Proof. reflexivity. Qed.
Lemma runwayEndRecords_with_largestParkingRamp x s : runwayEndRecords (with_largestParkingRamp x s) = runwayEndRecords s.
Proof. reflexivity. Qed.
Lemma runwayEndRecords_with_airportRowCode x s : runwayEndRecords (with_airportRowCode x s) = runwayEndRecords s.
Proof. reflexivity. Qed.

#[global] Hint Rewrite
  runwayEndRecords_bindValue runwayEndRecords_exec
  runwayEndRecords_clearBoundValues runwayEndRecords_qWarning
  runwayEndRecords_upd_flags runwayEndRecords_upd_ids
  runwayEndRecords_upd_counts runwayEndRecords_upd_geo
  runwayEndRecords_extendRect runwayEndRecords_bindAndExecRecords
  runwayEndRecords_checkWriting runwayEndRecords_with_db
  runwayEndRecords_with_warnings runwayEndRecords_with_numAirports
  runwayEndRecords_with_queries runwayEndRecords_with_flags
  runwayEndRecords_with_ids runwayEndRecords_with_counts
  runwayEndRecords_with_geo runwayEndRecords_with_airportIndex
  runwayEndRecords_with_taxiNodes runwayEndRecords_with_currentPavement
  runwayEndRecords_with_airportIcao runwayEndRecords_with_largestParkingGate
  runwayEndRecords_with_largestParkingRamp
  runwayEndRecords_with_airportRowCode
  : xp_runwayEndRecords.

Create Rewrite HintDb xp_airportIndex.

Lemma airportIndex_bindValue q k v s : airportIndex (bindValue q k v s) = airportIndex s.
Proof. reflexivity. Qed.
Lemma airportIndex_exec q s : airportIndex (exec q s) = airportIndex s.
Proof. reflexivity. Qed.
Lemma airportIndex_clearBoundValues q s : airportIndex (clearBoundValues q s) = airportIndex s.
Proof. reflexivity. Qed.
Lemma airportIndex_qWarning msg s : airportIndex (qWarning msg s) = airportIndex s.
Proof. reflexivity. Qed.
Lemma airportIndex_upd_flags f s : airportIndex (upd_flags f s) = airportIndex s.
Proof. reflexivity. Qed.
Lemma airportIndex_upd_ids f s : airportIndex (upd_ids f s) = airportIndex s.
Proof. reflexivity. Qed.
Lemma airportIndex_upd_counts f s : airportIndex (upd_counts f s) = airportIndex s.
Proof. reflexivity. Qed.
Lemma airportIndex_upd_geo f s : airportIndex (upd_geo f s) = airportIndex s.
Proof. reflexivity. Qed.
Lemma airportIndex_extendRect pos s : airportIndex (extendRect pos s) = airportIndex s.
Proof. reflexivity. Qed.
Lemma airportIndex_bindAndExecRecords q recs s : airportIndex (bindAndExecRecords q recs s) = airportIndex s.
Proof. reflexivity. Qed.
Lemma airportIndex_checkWriting w s : airportIndex (checkWriting w s) = airportIndex s.
Proof. unfold checkWriting; now destruct (negb _). Qed.
Lemma airportIndex_with_db x s : airportIndex (with_db x s) = airportIndex s.
Proof. reflexivity. Qed.
Lemma airportIndex_with_warnings x s : airportIndex (with_warnings x s) = airportIndex s.
Proof. reflexivity. Qed.
Lemma airportIndex_with_numAirports x s : airportIndex (with_numAirports x s) = airportIndex s.
Proof. reflexivity. Qed.
Lemma airportIndex_with_queries x s : airportIndex (with_queries x s) = airportIndex s.
Proof. reflexivity. Qed.
Lemma airportIndex_with_flags x s : airportIndex (with_flags x s) = airportIndex s.
Proof. reflexivity. Qed.
Lemma airportIndex_with_ids x s : airportIndex (with_ids x s) = airportIndex s.
Proof. reflexivity. Qed.
Lemma airportIndex_with_counts x s : airportIndex (with_counts x s) = airportIndex s.
Proof. reflexivity. Qed.
Lemma airportIndex_with_geo x s : airportIndex (with_geo x s) = airportIndex s.
Proof. reflexivity. Qed.
Lemma airportIndex_with_runwayEndRecords x s : airportIndex (with_runwayEndRecords x s) = airportIndex s.
Proof. reflexivity. Qed.
Lemma airportIndex_with_taxiNodes x s : airportIndex (with_taxiNodes x s) = airportIndex s.
Proof. reflexivity. Qed.
Lemma airportIndex_with_currentPavement x s : airportIndex (with_currentPavement x s) = airportIndex s.
Proof. reflexivity. Qed.
Lemma airportIndex_with_airportIcao x s : airportIndex (with_airportIcao x s) = airportIndex s.
Proof. reflexivity. Qed.
Lemma airportIndex_with_largestParkingGate x s : airportIndex (with_largestParkingGate x s) = airportIndex s.
Proof. reflexivity. Qed.
Lemma airportIndex_with_largestParkingRamp x s : airportIndex (with_largestParkingRamp x s) = airportIndex s.
Proof. reflexivity. Qed.
Lemma airportIndex_with_airportRowCode x s : airportIndex (with_airportRowCode x s) = airportIndex s.
Proof. reflexivity. Qed.

#[global] Hint Rewrite
  airportIndex_bindValue airportIndex_exec airportIndex_clearBoundValues
  airportIndex_qWarning airportIndex_upd_flags airportIndex_upd_ids
  airportIndex_upd_counts airportIndex_upd_geo airportIndex_extendRect
  airportIndex_bindAndExecRecords airportIndex_checkWriting
  airportIndex_with_db airportIndex_with_warnings
  airportIndex_with_numAirports airportIndex_with_queries
  airportIndex_with_flags airportIndex_with_ids airportIndex_with_counts
  airportIndex_with_geo airportIndex_with_runwayEndRecords
  airportIndex_with_taxiNodes airportIndex_with_currentPavement
  airportIndex_with_airportIcao airportIndex_with_largestParkingGate
  airportIndex_with_largestParkingRamp airportIndex_with_airportRowCode
  : xp_airportIndex.

Create Rewrite HintDb xp_currentPavement.

Lemma currentPavement_bindValue q k v s : currentPavement (bindValue q k v s) = currentPavement s.
Proof. reflexivity. Qed.
Lemma currentPavement_exec q s : currentPavement (exec q s) = currentPavement s.
Proof. reflexivity. Qed.
Lemma currentPavement_clearBoundValues q s : currentPavement (clearBoundValues q s) = currentPavement s.
Proof. reflexivity. Qed.
Lemma currentPavement_qWarning msg s : currentPavement (qWarning msg s) = currentPavement s.
Proof. reflexivity. Qed.
Lemma currentPavement_upd_flags f s : currentPavement (upd_flags f s) = currentPavement s.
Proof. reflexivity. Qed.
Lemma currentPavement_upd_ids f s : currentPavement (upd_ids f s) = currentPavement s.
Proof. reflexivity. Qed.
Lemma currentPavement_upd_counts f s : currentPavement (upd_counts f s) = currentPavement s.
Proof. reflexivity. Qed.
Lemma currentPavement_upd_geo f s : currentPavement (upd_geo f s) = currentPavement s.
Proof. reflexivity. Qed.
Lemma currentPavement_extendRect pos s : currentPavement (extendRect pos s) = currentPavement s.
Proof. reflexivity. Qed.
Lemma currentPavement_bindAndExecRecords q recs s : currentPavement (bindAndExecRecords q recs s) = currentPavement s.
Proof. reflexivity. Qed.
Lemma currentPavement_checkWriting w s : currentPavement (checkWriting w s) = currentPavement s.
Proof. unfold checkWriting; now destruct (negb _). Qed.
Lemma currentPavement_with_db x s : currentPavement (with_db x s) = currentPavement s.
Proof. reflexivity. Qed.
Lemma currentPavement_with_warnings x s : currentPavement (with_warnings x s) = currentPavement s.
Proof. reflexivity. Qed.
Lemma currentPavement_with_numAirports x s : currentPavement (with_numAirports x s) = currentPavement s.
Proof. reflexivity. Qed.
Lemma currentPavement_with_queries x s : currentPavement (with_queries x s) = currentPavement s.
Proof. reflexivity. Qed.
Lemma currentPavement_with_flags x s : currentPavement (with_flags x s) = currentPavement s.
Proof. reflexivity. Qed.
Lemma currentPavement_with_ids x s : currentPavement (with_ids x s) = currentPavement s.
Proof. reflexivity. Qed.
Lemma currentPavement_with_counts x s : currentPavement (with_counts x s) = currentPavement s.
Proof. reflexivity. Qed.
Lemma currentPavement_with_geo x s : currentPavement (with_geo x s) = currentPavement s.
Proof. reflexivity. Qed.
Lemma currentPavement_with_runwayEndRecords x s : currentPavement (with_runwayEndRecords x s) = currentPavement s.
Proof. reflexivity. Qed.
Lemma currentPavement_with_airportIndex x s : currentPavement (with_airportIndex x s) = currentPavement s.
Proof. reflexivity. Qed.
Lemma currentPavement_with_taxiNodes x s : currentPavement (with_taxiNodes x s) = currentPavement s.
Proof. reflexivity. Qed.
Lemma currentPavement_with_airportIcao x s : currentPavement (with_airportIcao x s) = currentPavement s.
Proof. reflexivity. Qed.
Lemma currentPavement_with_largestParkingGate x s : currentPavement (with_largestParkingGate x s) = currentPavement s.
Proof. reflexivity. Qed.
Lemma currentPavement_with_largestParkingRamp x s : currentPavement (with_largestParkingRamp x s) = currentPavement s.
Proof. reflexivity. Qed.
Lemma currentPavement_with_airportRowCode x s : currentPavement (with_airportRowCode x s) = currentPavement s.
Proof. reflexivity. Qed.

#[global] Hint Rewrite
  currentPavement_bindValue currentPavement_exec
  currentPavement_clearBoundValues currentPavement_qWarning
  currentPavement_upd_flags currentPavement_upd_ids
  currentPavement_upd_counts currentPavement_upd_geo
  currentPavement_extendRect currentPavement_bindAndExecRecords
  currentPavement_checkWriting currentPavement_with_db
  currentPavement_with_warnings currentPavement_with_numAirports
  currentPavement_with_queries currentPavement_with_flags
  currentPavement_with_ids currentPavement_with_counts
  currentPavement_with_geo currentPavement_with_runwayEndRecords
  currentPavement_with_airportIndex currentPavement_with_taxiNodes
  currentPavement_with_airportIcao currentPavement_with_largestParkingGate
  currentPavement_with_largestParkingRamp
  currentPavement_with_airportRowCode
  : xp_currentPavement.

Create Rewrite HintDb xp_geo.

Lemma geo_bindValue q k v s : geo (bindValue q k v s) = geo s.
Proof. reflexivity. Qed.
Lemma geo_exec q s : geo (exec q s) = geo s.
Proof. reflexivity. Qed.
Lemma geo_clearBoundValues q s : geo (clearBoundValues q s) = geo s.
Proof. reflexivity. Qed.
Lemma geo_qWarning msg s : geo (qWarning msg s) = geo s.
Proof. reflexivity. Qed.
Lemma geo_upd_flags f s : geo (upd_flags f s) = geo s.
Proof. reflexivity. Qed.
Lemma geo_upd_ids f s : geo (upd_ids f s) = geo s.
Proof. reflexivity. Qed.
Lemma geo_upd_counts f s : geo (upd_counts f s) = geo s.
Proof. reflexivity. Qed.
Lemma geo_bindAndExecRecords q recs s : geo (bindAndExecRecords q recs s) = geo s.
Proof. reflexivity. Qed.
Lemma geo_checkWriting w s : geo (checkWriting w s) = geo s.
Proof. unfold checkWriting; now destruct (negb _). Qed.
Lemma geo_with_db x s : geo (with_db x s) = geo s.
Proof. reflexivity. Qed.
Lemma geo_with_warnings x s : geo (with_warnings x s) = geo s.
Proof. reflexivity. Qed.
Lemma geo_with_numAirports x s : geo (with_numAirports x s) = geo s.
Proof. reflexivity. Qed.
Lemma geo_with_queries x s : geo (with_queries x s) = geo s.
Proof. reflexivity. Qed.
Lemma geo_with_flags x s : geo (with_flags x s) = geo s.
Proof. reflexivity. Qed.
Lemma geo_with_ids x s : geo (with_ids x s) = geo s.
Proof. reflexivity. Qed.
Lemma geo_with_counts x s : geo (with_counts x s) = geo s.
Proof. reflexivity. Qed.
Lemma geo_with_runwayEndRecords x s : geo (with_runwayEndRecords x s) = geo s.
Proof. reflexivity. Qed.
Lemma geo_with_airportIndex x s : geo (with_airportIndex x s) = geo s.
Proof. reflexivity. Qed.
Lemma geo_with_taxiNodes x s : geo (with_taxiNodes x s) = geo s.
Proof. reflexivity. Qed.
Lemma geo_with_currentPavement x s : geo (with_currentPavement x s) = geo s.
Proof. reflexivity. Qed.
Lemma geo_with_airportIcao x s : geo (with_airportIcao x s) = geo s.
Proof. reflexivity. Qed.
Lemma geo_with_largestParkingGate x s : geo (with_largestParkingGate x s) = geo s.
Proof. reflexivity. Qed.
Lemma geo_with_largestParkingRamp x s : geo (with_largestParkingRamp x s) = geo s.
Proof. reflexivity. Qed.
Lemma geo_with_airportRowCode x s : geo (with_airportRowCode x s) = geo s.
Proof. reflexivity. Qed.

#[global] Hint Rewrite
  geo_bindValue geo_exec geo_clearBoundValues geo_qWarning geo_upd_flags
  geo_upd_ids geo_upd_counts geo_bindAndExecRecords geo_checkWriting
  geo_with_db geo_with_warnings geo_with_numAirports geo_with_queries
  geo_with_flags geo_with_ids geo_with_counts geo_with_runwayEndRecords
  geo_with_airportIndex geo_with_taxiNodes geo_with_currentPavement
  geo_with_airportIcao geo_with_largestParkingGate
  geo_with_largestParkingRamp geo_with_airportRowCode
  : xp_geo.

Create Rewrite HintDb xp_counts.

Lemma counts_bindValue q k v s : counts (bindValue q k v s) = counts s.
Proof. reflexivity. Qed.
Lemma counts_exec q s : counts (exec q s) = counts s.
Proof. reflexivity. Qed.
Lemma counts_clearBoundValues q s : counts (clearBoundValues q s) = counts s.
Proof. reflexivity. Qed.
Lemma counts_qWarning msg s : counts (qWarning msg s) = counts s.
Proof. reflexivity. Qed.
Lemma counts_upd_flags f s : counts (upd_flags f s) = counts s.
Proof. reflexivity. Qed.
Lemma counts_upd_ids f s : counts (upd_ids f s) = counts s.
Proof. reflexivity. Qed.
Lemma counts_upd_geo f s : counts (upd_geo f s) = counts s.
Proof. reflexivity. Qed.
Lemma counts_extendRect pos s : counts (extendRect pos s) = counts s.
Proof. reflexivity. Qed.
Lemma counts_bindAndExecRecords q recs s : counts (bindAndExecRecords q recs s) = counts s.
Proof. reflexivity. Qed.
Lemma counts_checkWriting w s : counts (checkWriting w s) = counts s.
Proof. unfold checkWriting; now destruct (negb _). Qed.
Lemma counts_with_db x s : counts (with_db x s) = counts s.
Proof. reflexivity. Qed.
Lemma counts_with_warnings x s : counts (with_warnings x s) = counts s.
Proof. reflexivity. Qed.
Lemma counts_with_numAirports x s : counts (with_numAirports x s) = counts s.
Proof. reflexivity. Qed.
Lemma counts_with_queries x s : counts (with_queries x s) = counts s.
Proof. reflexivity. Qed.
Lemma counts_with_flags x s : counts (with_flags x s) = counts s.
Proof. reflexivity. Qed.
Lemma counts_with_ids x s : counts (with_ids x s) = counts s.
Proof. reflexivity. Qed.
Lemma counts_with_geo x s : counts (with_geo x s) = counts s.
Proof. reflexivity. Qed.
Lemma counts_with_runwayEndRecords x s : counts (with_runwayEndRecords x s) = counts s.
Proof. reflexivity. Qed.
Lemma counts_with_airportIndex x s : counts (with_airportIndex x s) = counts s.
Proof. reflexivity. Qed.
Lemma counts_with_taxiNodes x s : counts (with_taxiNodes x s) = counts s.
Proof. reflexivity. Qed.
Lemma counts_with_currentPavement x s : counts (with_currentPavement x s) = counts s.
Proof. reflexivity. Qed.
Lemma counts_with_airportIcao x s : counts (with_airportIcao x s) = counts s.
Proof. reflexivity. Qed.
Lemma counts_with_largestParkingGate x s : counts (with_largestParkingGate x s) = counts s.
Proof. reflexivity. Qed.
Lemma counts_with_largestParkingRamp x s : counts (with_largestParkingRamp x s) = counts s.
Proof. reflexivity. Qed.
Lemma counts_with_airportRowCode x s : counts (with_airportRowCode x s) = counts s.
Proof. reflexivity. Qed.

#[global] Hint Rewrite
  counts_bindValue counts_exec counts_clearBoundValues counts_qWarning
  counts_upd_flags counts_upd_ids counts_upd_geo counts_extendRect
  counts_bindAndExecRecords counts_checkWriting counts_with_db
  counts_with_warnings counts_with_numAirports counts_with_queries
  counts_with_flags counts_with_ids counts_with_geo
  counts_with_runwayEndRecords counts_with_airportIndex
  counts_with_taxiNodes counts_with_currentPavement counts_with_airportIcao
  counts_with_largestParkingGate counts_with_largestParkingRamp
  counts_with_airportRowCode
  : xp_counts.

Create Rewrite HintDb xp_queries.

Lemma queries_exec q s : queries (exec q s) = queries s.
Proof. reflexivity. Qed.
Lemma queries_qWarning msg s : queries (qWarning msg s) = queries s.
Proof. reflexivity. Qed.
Lemma queries_upd_flags f s : queries (upd_flags f s) = queries s.
Proof. reflexivity. Qed.
Lemma queries_upd_ids f s : queries (upd_ids f s) = queries s.
Proof. reflexivity. Qed.
Lemma queries_upd_counts f s : queries (upd_counts f s) = queries s.
Proof. reflexivity. Qed.
Lemma queries_upd_geo f s : queries (upd_geo f s) = queries s.
Proof. reflexivity. Qed.
Lemma queries_extendRect pos s : queries (extendRect pos s) = queries s.
Proof. reflexivity. Qed.
Lemma queries_bindAndExecRecords q recs s : queries (bindAndExecRecords q recs s) = queries s.
Proof. reflexivity. Qed.
Lemma queries_checkWriting w s : queries (checkWriting w s) = queries s.
Proof. unfold checkWriting; now destruct (negb _). Qed.
Lemma queries_with_db x s : queries (with_db x s) = queries s.
Proof. reflexivity. Qed.
Lemma queries_with_warnings x s : queries (with_warnings x s) = queries s.
Proof. reflexivity. Qed.
Lemma queries_with_numAirports x s : queries (with_numAirports x s) = queries s.
Proof. reflexivity. Qed.
Lemma queries_with_flags x s : queries (with_flags x s) = queries s.
Proof. reflexivity. Qed.
Lemma queries_with_ids x s : queries (with_ids x s) = queries s.
Proof. reflexivity. Qed.
Lemma queries_with_counts x s : queries (with_counts x s) = queries s.
Proof. reflexivity. Qed.
Lemma queries_with_geo x s : queries (with_geo x s) = queries s.
Proof. reflexivity. Qed.
Lemma queries_with_runwayEndRecords x s : queries (with_runwayEndRecords x s) = queries s.
Proof. reflexivity. Qed.
Lemma queries_with_airportIndex x s : queries (with_airportIndex x s) = queries s.
Proof. reflexivity. Qed.
Lemma queries_with_taxiNodes x s : queries (with_taxiNodes x s) = queries s.
Proof. reflexivity. Qed.
Lemma queries_with_currentPavement x s : queries (with_currentPavement x s) = queries s.
Proof. reflexivity. Qed.
Lemma queries_with_airportIcao x s : queries (with_airportIcao x s) = queries s.
Proof. reflexivity. Qed.
Lemma queries_with_largestParkingGate x s : queries (with_largestParkingGate x s) = queries s.
Proof. reflexivity. Qed.
Lemma queries_with_largestParkingRamp x s : queries (with_largestParkingRamp x s) = queries s.
Proof. reflexivity. Qed.
Lemma queries_with_airportRowCode x s : queries (with_airportRowCode x s) = queries s.
Proof. reflexivity. Qed.

#[global] Hint Rewrite
  queries_exec queries_qWarning queries_upd_flags queries_upd_ids
  queries_upd_counts queries_upd_geo queries_extendRect
  queries_bindAndExecRecords queries_checkWriting queries_with_db
  queries_with_warnings queries_with_numAirports queries_with_flags
  queries_with_ids queries_with_counts queries_with_geo
  queries_with_runwayEndRecords queries_with_airportIndex
  queries_with_taxiNodes queries_with_currentPavement
  queries_with_airportIcao queries_with_largestParkingGate
  queries_with_largestParkingRamp queries_with_airportRowCode
  : xp_queries.

Create Rewrite HintDb xp_ids.

Lemma ids_bindValue q k v s : ids (bindValue q k v s) = ids s.
Proof. reflexivity. Qed.
Lemma ids_exec q s : ids (exec q s) = ids s.
Proof. reflexivity. Qed.
Lemma ids_clearBoundValues q s : ids (clearBoundValues q s) = ids s.
Proof. reflexivity. Qed.
Lemma ids_qWarning msg s : ids (qWarning msg s) = ids s.
Proof. reflexivity. Qed.
Lemma ids_upd_flags f s : ids (upd_flags f s) = ids s.
Proof. reflexivity. Qed.
Lemma ids_upd_counts f s : ids (upd_counts f s) = ids s.
Proof. reflexivity. Qed.
Lemma ids_upd_geo f s : ids (upd_geo f s) = ids s.
Proof. reflexivity. Qed.
Lemma ids_extendRect pos s : ids (extendRect pos s) = ids s.
Proof. reflexivity. Qed.
Lemma ids_bindAndExecRecords q recs s : ids (bindAndExecRecords q recs s) = ids s.
Proof. reflexivity. Qed.
Lemma ids_checkWriting w s : ids (checkWriting w s) = ids s.
Proof. unfold checkWriting; now destruct (negb _). Qed.
Lemma ids_with_db x s : ids (with_db x s) = ids s.
Proof. reflexivity. Qed.
Lemma ids_with_warnings x s : ids (with_warnings x s) = ids s.
Proof. reflexivity. Qed.
Lemma ids_with_numAirports x s : ids (with_numAirports x s) = ids s.
Proof. reflexivity. Qed.
Lemma ids_with_queries x s : ids (with_queries x s) = ids s.
Proof. reflexivity. Qed.
Lemma ids_with_flags x s : ids (with_flags x s) = ids s.
Proof. reflexivity. Qed.
Lemma ids_with_counts x s : ids (with_counts x s) = ids s.
Proof. reflexivity. Qed.
Lemma ids_with_geo x s : ids (with_geo x s) = ids s.
Proof. reflexivity. Qed.
Lemma ids_with_runwayEndRecords x s : ids (with_runwayEndRecords x s) = ids s.
Proof. reflexivity. Qed.
Lemma ids_with_airportIndex x s : ids (with_airportIndex x s) = ids s.
Proof. reflexivity. Qed.
Lemma ids_with_taxiNodes x s : ids (with_taxiNodes x s) = ids s.
Proof. reflexivity. Qed.
Lemma ids_with_currentPavement x s : ids (with_currentPavement x s) = ids s.
Proof. reflexivity. Qed.
Lemma ids_with_airportIcao x s : ids (with_airportIcao x s) = ids s.
Proof. reflexivity. Qed.
Lemma ids_with_largestParkingGate x s : ids (with_largestParkingGate x s) = ids s.
Proof. reflexivity. Qed.
Lemma ids_with_largestParkingRamp x s : ids (with_largestParkingRamp x s) = ids s.
Proof. reflexivity. Qed.
Lemma ids_with_airportRowCode x s : ids (with_airportRowCode x s) = ids s.
Proof. reflexivity. Qed.

#[global] Hint Rewrite
  ids_bindValue ids_exec ids_clearBoundValues ids_qWarning ids_upd_flags
  ids_upd_counts ids_upd_geo ids_extendRect ids_bindAndExecRecords
  ids_checkWriting ids_with_db ids_with_warnings ids_with_numAirports
  ids_with_queries ids_with_flags ids_with_counts ids_with_geo
  ids_with_runwayEndRecords ids_with_airportIndex ids_with_taxiNodes
  ids_with_currentPavement ids_with_airportIcao ids_with_largestParkingGate
  ids_with_largestParkingRamp ids_with_airportRowCode
  : xp_ids.

Create Rewrite HintDb xp_largestParkingGate.

Lemma largestParkingGate_bindValue q k v s : largestParkingGate (bindValue q k v s) = largestParkingGate s.
Proof. reflexivity. Qed.
Lemma largestParkingGate_exec q s : largestParkingGate (exec q s) = largestParkingGate s.
Proof. reflexivity. Qed.
Lemma largestParkingGate_clearBoundValues q s : largestParkingGate (clearBoundValues q s) = largestParkingGate s.
Proof. reflexivity. Qed.
Lemma largestParkingGate_qWarning msg s : largestParkingGate (qWarning msg s) = largestParkingGate s.
Proof. reflexivity. Qed.
Lemma largestParkingGate_upd_flags f s : largestParkingGate (upd_flags f s) = largestParkingGate s.
Proof. reflexivity. Qed.
Lemma largestParkingGate_upd_ids f s : largestParkingGate (upd_ids f s) = largestParkingGate s.
Proof. reflexivity. Qed.
Lemma largestParkingGate_upd_counts f s : largestParkingGate (upd_counts f s) = largestParkingGate s.
Proof. reflexivity. Qed.
Lemma largestParkingGate_upd_geo f s : largestParkingGate (upd_geo f s) = largestParkingGate s.
Proof. reflexivity. Qed.
Lemma largestParkingGate_extendRect pos s : largestParkingGate (extendRect pos s) = largestParkingGate s.
Proof. reflexivity. Qed.
Lemma largestParkingGate_bindAndExecRecords q recs s : largestParkingGate (bindAndExecRecords q recs s) = largestParkingGate s.
Proof. reflexivity. Qed.
Lemma largestParkingGate_checkWriting w s : largestParkingGate (checkWriting w s) = largestParkingGate s.
Proof. unfold checkWriting; now destruct (negb _). Qed.
Lemma largestParkingGate_with_db x s : largestParkingGate (with_db x s) = largestParkingGate s.
Proof. reflexivity. Qed.
Lemma largestParkingGate_with_warnings x s : largestParkingGate (with_warnings x s) = largestParkingGate s.
Proof. reflexivity. Qed.
Lemma largestParkingGate_with_numAirports x s : largestParkingGate (with_numAirports x s) = largestParkingGate s.
Proof. reflexivity. Qed.
Lemma largestParkingGate_with_queries x s : largestParkingGate (with_queries x s) = largestParkingGate s.
Proof. reflexivity. Qed.
Lemma largestParkingGate_with_flags x s : largestParkingGate (with_flags x s) = largestParkingGate s.
Proof. reflexivity. Qed.
Lemma largestParkingGate_with_ids x s : largestParkingGate (with_ids x s) = largestParkingGate s.
Proof. reflexivity. Qed.
Lemma largestParkingGate_with_counts x s : largestParkingGate (with_counts x s) = largestParkingGate s.
Proof. reflexivity. Qed.
Lemma largestParkingGate_with_geo x s : largestParkingGate (with_geo x s) = largestParkingGate s.
Proof. reflexivity. Qed.
Lemma largestParkingGate_with_runwayEndRecords x s : largestParkingGate (with_runwayEndRecords x s) = largestParkingGate s.
Proof. reflexivity. Qed.
Lemma largestParkingGate_with_airportIndex x s : largestParkingGate (with_airportIndex x s) = largestParkingGate s.
Proof. reflexivity. Qed.
Lemma largestParkingGate_with_taxiNodes x s : largestParkingGate (with_taxiNodes x s) = largestParkingGate s.
Proof. reflexivity. Qed.
Lemma largestParkingGate_with_currentPavement x s : largestParkingGate (with_currentPavement x s) = largestParkingGate s.
Proof. reflexivity. Qed.
Lemma largestParkingGate_with_airportIcao x s : largestParkingGate (with_airportIcao x s) = largestParkingGate s.
Proof. reflexivity. Qed.
Lemma largestParkingGate_with_largestParkingRamp x s : largestParkingGate (with_largestParkingRamp x s) = largestParkingGate s.
Proof. reflexivity. Qed.
Lemma largestParkingGate_with_airportRowCode x s : largestParkingGate (with_airportRowCode x s) = largestParkingGate s.
Proof. reflexivity. Qed.

#[global] Hint Rewrite
  largestParkingGate_bindValue largestParkingGate_exec
  largestParkingGate_clearBoundValues largestParkingGate_qWarning
  largestParkingGate_upd_flags largestParkingGate_upd_ids
  largestParkingGate_upd_counts largestParkingGate_upd_geo
  largestParkingGate_extendRect largestParkingGate_bindAndExecRecords
  largestParkingGate_checkWriting largestParkingGate_with_db
  largestParkingGate_with_warnings largestParkingGate_with_numAirports
  largestParkingGate_with_queries largestParkingGate_with_flags
  largestParkingGate_with_ids largestParkingGate_with_counts
  largestParkingGate_with_geo largestParkingGate_with_runwayEndRecords
  largestParkingGate_with_airportIndex largestParkingGate_with_taxiNodes
  largestParkingGate_with_currentPavement
  largestParkingGate_with_airportIcao
  largestParkingGate_with_largestParkingRamp
  largestParkingGate_with_airportRowCode
  : xp_largestParkingGate.


(** ** The flags through the binders *)

(** A binder is a chain of [let st := update st in ...].  The chain is
    followed one update at a time: the updated writer is replaced by a
    variable of which only the member in question is known. *)
Ltac let_stepv f V keep :=
  lazymatch goal with
  | |- context G [f (let x := ?A in @?B x)] =>
      first
        [ let s := fresh "s" in
          let H := fresh "Hs" in
          assert (H : f A = V) by keep;
          set (s := A) in *;
          lazymatch goal with
          | |- context G' [f (let x := s in @?B' x)] =>
              let g := context G' [f (B' s)] in change g; cbv beta
          end;
          clearbody s
        | let g := context G [f (B A)] in change g; cbv beta ]
  end.

Ltac let_step f keep :=
  lazymatch goal with
  | |- f _ = ?R => let_stepv f R keep
  end.

(** The closing steps match up to syntax only, which keeps the proof terms
    cheap to check. *)
Ltac close_eq :=
  first [ match goal with H : ?a = ?b |- ?a = ?b => exact H end
        | lazymatch goal with |- ?a = ?a => exact eq_refl end ].

Ltac keep_flags :=
  repeat first [ progress autorewrite with xp_flags
               | rewrite (app_if flags)
               | rewrite if_same ];
  try close_eq.

Ltac chain_flags := repeat let_step flags keep_flags; keep_flags.

Lemma flags_upd_flags f s : flags (upd_flags f s) = f (flags s).
Proof. reflexivity. Qed.

Lemma flags_with_flags x s : flags (with_flags x s) = x.
Proof. reflexivity. Qed.

#[global] Hint Rewrite flags_upd_flags flags_with_flags : xp_flags.

Lemma geo_upd_geo f s : geo (upd_geo f s) = f (geo s).
Proof. reflexivity. Qed.

Lemma geo_with_geo x s : geo (with_geo x s) = x.
Proof. reflexivity. Qed.

#[global] Hint Rewrite geo_upd_geo geo_with_geo : xp_geo.

Section Flags.

Variable ext : Externals.

Lemma flags_bindTaxiNode line st : flags (bindTaxiNode line st) = flags st.
Proof.
  cbv beta delta [bindTaxiNode]. destruct (ignoringAirport (flags st)); [reflexivity|cbv iota].
  chain_flags.
Qed.

Lemma flags_bindTaxiEdge line st : flags (bindTaxiEdge line st) = flags st.
Proof.
  cbv beta delta [bindTaxiEdge]. destruct (ignoringAirport (flags st)); [reflexivity|cbv iota].
  let_step flags keep_flags. destruct (String.eqb _ _); [assumption|].
  chain_flags.
Qed.

Lemma flags_bindVasi line st : flags (bindVasi line st) = flags st.
Proof.
  cbv beta delta [bindVasi]. 
  destruct (ignoringAirport (flags st)); [reflexivity|cbv iota].
  let_step flags keep_flags. let_step flags keep_flags.
  destruct (ignoredIndicator _); [assumption|].
  repeat let_step flags keep_flags.
  destruct (match (if negb _ then _ else _) with Some i => Some i | None => _ end);
    chain_flags.
Qed.

Lemma flags_writeCom line code st : flags (writeCom line code st) = flags st.
Proof.
  cbv beta delta [writeCom]. destruct (ignoringAirport (flags st)); [reflexivity|cbv iota].
  destruct code; chain_flags.
Qed.

Lemma flags_bindFuel line st : flags (bindFuel line st) = flags st.
Proof.
  cbv beta delta [bindFuel]. destruct (ignoringAirport (flags st)); [reflexivity|cbv iota].
  chain_flags.
Qed.

Lemma flags_bindMetadata line st : flags (bindMetadata line st) = flags st.
Proof. 
  cbv beta delta [bindMetadata]. destruct (ignoringAirport (flags st)); [reflexivity|cbv iota].
  chain_flags.
Qed.

Lemma flags_writeHelipad line st : flags (writeHelipad line st) = flags st.
Proof.
  cbv beta delta [writeHelipad]. destruct (ignoringAirport (flags st)); [reflexivity|cbv iota].
  chain_flags.
Qed.

Lemma flags_appendRunwayEnd line code id name ty h pos i1 i2 i3 i4 i5 st :
  flags (appendRunwayEnd line code id name ty h pos i1 i2 i3 i4 i5 st) = flags st.
Proof.
  cbv beta delta [appendRunwayEnd]. cbv zeta.
  destruct (bool_decide _); [destruct (negb _)|]; cbv beta iota; keep_flags.
Qed.

Lemma flags_writeRunwayStart id name h pos st :
  flags (writeRunwayStart id name h pos st) = flags st.
Proof. cbv beta delta [writeRunwayStart]. chain_flags. Qed.

#[local] Hint Rewrite flags_appendRunwayEnd flags_writeRunwayStart : xp_flags.

Lemma flags_bindRunway line code st : flags (bindRunway ext line code st) = flags st.
Proof.
  cbv beta delta [bindRunway]. destruct (ignoringAirport (flags st)); [reflexivity|cbv iota].
  let_step flags keep_flags.
  lazymatch goal with
  | |- flags (match ?T with pair _ _ => _ end) = _ => set (tup := T)
  end.
  assert (Ht : flags (snd tup) = flags st)
    by (subst tup; destruct code; cbn [snd]; keep_flags).
  clearbody tup. destruct tup as [[[[[primaryPos secondaryPos] primaryName] secondaryName] surface] s0].
  cbn [snd] in Ht. cbv beta iota.
  chain_flags.
Qed.

Lemma flags_writeStartupLocationMetadata line st :
  flags (writeStartupLocationMetadata line st) = flags st.
Proof.
  cbv beta delta [writeStartupLocationMetadata].
  destruct (ignoringAirport (flags st)); [reflexivity|cbv iota].
  repeat let_step flags keep_flags.
  destruct (widthCodeRadiusSize _). chain_flags.
Qed.

End Flags.

(** ** The polygon assembler *)

Section Pavement.

Variable ext : Externals.
Variable ctx : XpWriterContext.

Lemma writeAll_app l1 l2 st :
  writeAll ext (l1 ++ l2) ctx st = writeAll ext l2 ctx (writeAll ext l1 ctx st).
Proof. unfold writeAll. apply fold_left_app. Qed.

Lemma writeAll_cons l ls st :
  writeAll ext (l :: ls) ctx st = writeAll ext ls ctx (write ext l ctx st).
Proof. reflexivity. Qed.

Lemma write_node line st :
  plainNode line \/ closingNode line ->
  write ext line ctx st
  = bindPavementNode line (rowCodeOf line) (finishStartupLocation st).
Proof.
  unfold write, plainNode, closingNode.
  intros [[H|H]|[H|H]]; rewrite H; reflexivity.
Qed.

Lemma write_PAVEMENT_HEADER line st :
  rowCodeOf line = PAVEMENT_HEADER ->
  write ext line ctx st
  = bindPavement line (finishPavement (finishStartupLocation st)).
Proof. intros H. unfold write. rewrite H. reflexivity. Qed.

(** The flush of a parking stand leaves the assembler alone. *)
Lemma finishStartupLocation_Assembling st b h nh g q rows :
  Assembling st b h nh g q rows ->
  Assembling (finishStartupLocation st) b h nh g q rows.
Proof.
  unfold Assembling. intros (Hi & Hb & Hh & Hn & Hg & Hq & Hr).
  unfold finishStartupLocation.
  destruct (writingStartLocation (flags st)); [|tauto].
  repeat case_if; xp_simpl; repeat split; try assumption.
  all: unfold rowsOf; xp_simpl; rewrite List.filter_app, map_app; cbn [List.filter fst].
  all: rewrite bool_decide_eq_false_2 by discriminate; cbn [map]; rewrite app_nil_r; exact Hr.
Qed.

(** A pavement header starts the assembler afresh. *)
Lemma bindPavement_Assembling line st :
  ignoringAirport (flags st) = false ->
  exists q,
    Assembling (bindPavement line st) true false false XpGeometry.clear q
      (rowsOf insertApronQuery st).
Proof.
  intros Hi. unfold bindPavement, Assembling. rewrite Hi. unfold checkWriting.
  eexists. case_if; xp_simpl; repeat split; try assumption; reflexivity.
Qed.

(** The first steps of [bindPavementNode] change neither the flags nor the
    polygon. *)
Lemma bindPavementNode_start line st :
  let st1 := extendRect (posAt line n.LONX n.LATY) (checkWriting "bindPavementNode" st) in
  flags st1 = flags st /\ currentPavement st1 = currentPavement st
  /\ queries st1 = queries st /\ db st1 = db st.
Proof. unfold checkWriting. case_if; xp_simpl; tauto. Qed.

(** One node in the boundary phase. *)
Lemma bindPavementNode_boundary line st g q rows :
  Assembling st true false false g q rows ->
  plainNode line \/ closingNode line ->
  Assembling (bindPavementNode line (rowCodeOf line) st)
    (if isCloseCode (rowCodeOf line) then false else true)
    (isCloseCode (rowCodeOf line)) (isCloseCode (rowCodeOf line))
    (XpGeometry.mk (XpGeometry.boundary g ++ [nodeOf line]) (XpGeometry.holes g))
    q rows.
Proof.
  unfold Assembling, plainNode, closingNode, nodeOf.
  intros (Hi & Hb & Hh & Hn & Hg & Hq & Hr) Hcode.
  unfold bindPavementNode. rewrite Hi.
  destruct (bindPavementNode_start line st) as (Hf1 & Hg1 & Hq1 & Hd1).
  set (st1 := extendRect _ (checkWriting _ st)) in *. clearbody st1.
  cbv zeta. rewrite Hf1, Hb.
  assert (Hr1 : rowsOf insertApronQuery st1 = rows)
    by (rewrite <- Hr; apply rowsOf_same_db, Hd1).
  destruct Hcode as [[H|H]|[H|H]]; rewrite H; cbn [isCloseCode isControlCode].
  all: xp_simpl; rewrite ?Hf1, ?Hb, ?Hh, ?Hi, ?Hg1, ?Hq1; subst g.
  all: repeat split; try assumption; try reflexivity.
Qed.

(** One node in the hole phase. *)
Lemma bindPavementNode_hole line st nh g q rows :
  Assembling st false true nh g q rows ->
  plainNode line \/ closingNode line ->
  Assembling (bindPavementNode line (rowCodeOf line) st)
    false true (isCloseCode (rowCodeOf line))
    (XpGeometry.addHoleNode (fst (nodeOf line)) (snd (nodeOf line)) nh g)
    q rows.
Proof.
  unfold Assembling, plainNode, closingNode, nodeOf.
  intros (Hi & Hb & Hh & Hn & Hg & Hq & Hr) Hcode.
  unfold bindPavementNode. rewrite Hi.
  destruct (bindPavementNode_start line st) as (Hf1 & Hg1 & Hq1 & Hd1).
  set (st1 := extendRect _ (checkWriting _ st)) in *. clearbody st1.
  cbv zeta. rewrite Hf1, Hb, Hh, Hn.
  assert (Hr1 : rowsOf insertApronQuery st1 = rows)
    by (rewrite <- Hr; apply rowsOf_same_db, Hd1).
  destruct Hcode as [[H|H]|[H|H]]; rewrite H; cbn [isCloseCode isControlCode fst snd].
  all: xp_simpl; rewrite ?Hf1, ?Hb, ?Hh, ?Hi, ?Hg1, ?Hq1; subst g.
  all: repeat split; try assumption; try reflexivity.
Qed.

Lemma plainNode_not_close line : plainNode line -> isCloseCode (rowCodeOf line) = false.
Proof. intros [H|H]; rewrite H; reflexivity. Qed.

Lemma closingNode_close line : closingNode line -> isCloseCode (rowCodeOf line) = true.
Proof. intros [H|H]; rewrite H; reflexivity. Qed.

(** The rows of the boundary, up to the one that closes it. *)
Lemma boundary_nodes bs : forall st b q rows,
  Assembling st true false false (XpGeometry.mk b []) q rows ->
  Forall plainNode bs ->
  Assembling (writeAll ext bs ctx st) true false false
    (XpGeometry.mk (b ++ map nodeOf bs) []) q rows.
Proof.
  induction bs as [|l bs IH]; intros st b q rows Hst Hbs.
  - cbn [map writeAll fold_left]. now rewrite app_nil_r.
  - inversion Hbs as [|? ? Hl Hbs']; subst.
    rewrite writeAll_cons, write_node by (left; exact Hl).
    pose proof (bindPavementNode_boundary l _ _ _ _
                  (finishStartupLocation_Assembling _ _ _ _ _ _ _ Hst)
                  (or_introl Hl)) as Hstep.
    rewrite (plainNode_not_close l Hl) in Hstep. cbn [XpGeometry.boundary XpGeometry.holes] in Hstep.
    specialize (IH _ _ _ _ Hstep Hbs').
    cbn [map]. now rewrite <- app_assoc in IH.
Qed.

Lemma appendToLast_snoc (x : XpGeometry.Node) H r :
  XpGeometry.appendToLast x (H ++ [r]) = H ++ [r ++ [x]].
Proof.
  induction H as [|h H IH]; [reflexivity|].
  cbn [app XpGeometry.appendToLast]. rewrite IH.
  destruct (H ++ [r]) eqn:E; [now destruct H|reflexivity].
Qed.

(** The rows of a hole after its first one. *)
Lemma hole_nodes hs : forall st b H r q rows,
  Assembling st false true false (XpGeometry.mk b (H ++ [r])) q rows ->
  Forall plainNode hs ->
  Assembling (writeAll ext hs ctx st) false true false
    (XpGeometry.mk b (H ++ [r ++ map nodeOf hs])) q rows.
Proof.
  induction hs as [|l hs IH]; intros st b H r q rows Hst Hhs.
  - cbn [map writeAll fold_left]. now rewrite app_nil_r.
  - inversion Hhs as [|? ? Hl Hhs']; subst.
    rewrite writeAll_cons, write_node by (left; exact Hl).
    pose proof (bindPavementNode_hole l _ _ _ _ _
                  (finishStartupLocation_Assembling _ _ _ _ _ _ _ Hst)
                  (or_introl Hl)) as Hstep.
    rewrite (plainNode_not_close l Hl) in Hstep.
    unfold XpGeometry.addHoleNode in Hstep.
    cbn [XpGeometry.boundary XpGeometry.holes] in Hstep.
    rewrite appendToLast_snoc in Hstep. rewrite <- surjective_pairing in Hstep.
    specialize (IH _ _ _ _ _ _ Hstep Hhs').
    cbn [map]. now rewrite <- app_assoc in IH.
Qed.

(** A whole hole: its rows, the last of which closes it, make one more ring. *)
Lemma hole_ring hs hl : forall st b H q rows,
  Assembling st false true true (XpGeometry.mk b H) q rows ->
  Forall plainNode hs -> closingNode hl ->
  Assembling (writeAll ext (hs ++ [hl]) ctx st) false true true
    (XpGeometry.mk b (H ++ [map nodeOf (hs ++ [hl])])) q rows.
Proof.
  intros st b H q rows Hst Hhs Hhl.
  destruct hs as [|h1 hs].
  - cbn [app writeAll fold_left map].
    rewrite write_node by (right; exact Hhl).
    pose proof (bindPavementNode_hole hl _ _ _ _ _
                  (finishStartupLocation_Assembling _ _ _ _ _ _ _ Hst)
                  (or_intror Hhl)) as Hstep.
    rewrite (closingNode_close hl Hhl) in Hstep.
    unfold XpGeometry.addHoleNode in Hstep.
    cbn [XpGeometry.boundary XpGeometry.holes] in Hstep.
    rewrite appendToLast_snoc in Hstep. rewrite <- surjective_pairing in Hstep.
    exact Hstep.
  - inversion Hhs as [|? ? Hh1 Hhs']; subst.
    rewrite <- app_comm_cons, writeAll_cons, writeAll_app.
    rewrite write_node by (left; exact Hh1).
    pose proof (bindPavementNode_hole h1 _ _ _ _ _
                  (finishStartupLocation_Assembling _ _ _ _ _ _ _ Hst)
                  (or_introl Hh1)) as Hstep.
    rewrite (plainNode_not_close h1 Hh1) in Hstep.
    unfold XpGeometry.addHoleNode in Hstep.
    cbn [XpGeometry.boundary XpGeometry.holes] in Hstep.
    rewrite appendToLast_snoc in Hstep. rewrite <- surjective_pairing in Hstep.
    pose proof (hole_nodes hs _ _ _ _ _ _ Hstep Hhs') as Hmid.
    cbn [writeAll fold_left]. rewrite write_node by (right; exact Hhl).
    pose proof (bindPavementNode_hole hl _ _ _ _ _
                  (finishStartupLocation_Assembling _ _ _ _ _ _ _ Hmid)
                  (or_intror Hhl)) as Hlast.
    rewrite (closingNode_close hl Hhl) in Hlast.
    unfold XpGeometry.addHoleNode in Hlast.
    cbn [XpGeometry.boundary XpGeometry.holes] in Hlast.
    rewrite appendToLast_snoc in Hlast. rewrite <- surjective_pairing in Hlast.
    cbn [map app]. rewrite map_app. cbn [map app] in *.
    exact Hlast.
Qed.

(** The flush of the assembler: the polygon in progress is written when one
    of the two phases is on, and the flags are cleared. *)
Lemma finishPavement_Assembling st b h nh g q rows :
  Assembling st b h nh g q rows ->
  b || h = true ->
  Assembling (finishPavement st) false false false g
    (<[":geometry" := QByteArray g]> q)
    (rows ++ [<[":geometry" := QByteArray g]> q]).
Proof.
  unfold Assembling. intros (Hi & Hb & Hh & Hn & Hg & Hq & Hr) Hon.
  unfold finishPavement. rewrite Hi, Hb, Hh, Hon. unfold checkWriting.
  case_if; xp_simpl; subst g q rows; repeat split; try assumption.
  all: unfold rowsOf; xp_simpl; rewrite List.filter_app, map_app; cbn [List.filter fst].
  all: rewrite bool_decide_eq_true_2 by reflexivity; reflexivity.
Qed.

(** C4.  After a pavement header, [N] boundary rows of which the last one
    closes the ring, then [M] hole rows of which the last one closes the
    ring, the flush writes one apron whose polygon has the [N] nodes as its
    boundary and one hole ring, of the [M] nodes. *)
Theorem polygon_one_boundary_one_hole header bs bl hs hl st :
  ignoringAirport (flags st) = false ->
  rowCodeOf header = PAVEMENT_HEADER ->
  Forall plainNode bs -> closingNode bl ->
  Forall plainNode hs -> closingNode hl ->
  let started := write ext header ctx st in
  let flushed :=
    finishPavement (writeAll ext ((bs ++ [bl]) ++ (hs ++ [hl])) ctx started) in
  exists rec boundary hole,
    rowsOf insertApronQuery flushed = rowsOf insertApronQuery started ++ [rec]
    /\ rec !! ":geometry" = Some (QByteArray (XpGeometry.mk boundary [hole]))
    /\ boundary = map nodeOf (bs ++ [bl])
    /\ hole = map nodeOf (hs ++ [hl])
    /\ length boundary = S (length bs)
    /\ length hole = S (length hs).
Proof.
  intros Hi Hheader Hbs Hbl Hhs Hhl started flushed.
  subst flushed started. rewrite (write_PAVEMENT_HEADER header st Hheader).
  set (st0 := finishPavement (finishStartupLocation st)).
  assert (Hi0 : ignoringAirport (flags st0) = false).
  { subst st0. now rewrite finishPavement_ignoring, finishStartupLocation_ignoring. }
  destruct (bindPavement_Assembling header st0 Hi0) as [q Hstart].
  set (started := bindPavement header st0) in *.
  assert (Hrows : rowsOf insertApronQuery started = rowsOf insertApronQuery st0)
    by apply Hstart.
  rewrite Hrows.
  (* the boundary *)
  pose proof (boundary_nodes bs _ _ _ _ Hstart Hbs) as Hb1.
  pose proof (bindPavementNode_boundary bl _ _ _ _
                (finishStartupLocation_Assembling _ _ _ _ _ _ _ Hb1)
                (or_intror Hbl)) as Hb2.
  rewrite (closingNode_close bl Hbl) in Hb2.
  cbn [XpGeometry.boundary XpGeometry.holes app] in Hb2.
  rewrite <- write_node in Hb2 by (right; exact Hbl).
  change (write ext bl ctx (writeAll ext bs ctx started))
    with (writeAll ext [bl] ctx (writeAll ext bs ctx started)) in Hb2.
  rewrite <- writeAll_app in Hb2.
  (* the hole *)
  pose proof (hole_ring hs hl _ _ _ _ _ Hb2 Hhs Hhl) as Hh2.
  rewrite <- writeAll_app in Hh2. cbn [app] in Hh2.
  (* the flush *)
  pose proof (finishPavement_Assembling _ _ _ _ _ _ _ Hh2 eq_refl) as Hflush.
  destruct Hflush as (_ & _ & _ & _ & _ & _ & Hr).
  cbn [app] in Hr.
  exists (<[":geometry" :=
             QByteArray (XpGeometry.mk (map nodeOf bs ++ [nodeOf bl])
                           [map nodeOf (hs ++ [hl])])]> q).
  exists (map nodeOf bs ++ [nodeOf bl]), (map nodeOf (hs ++ [hl])).
  split; [exact Hr|]. split; [apply lookup_insert_eq|].
  split; [now rewrite List.map_app|]. split; [reflexivity|].
  rewrite List.length_app, !List.length_map, List.length_app. cbn [length]. lia.
Qed.

(** The flush proper, in a session that is not ignoring: with one of the two
    phases on, the polygon in progress is written, whatever its boundary, and
    the three flags are cleared; with both off nothing happens at all. *)
Lemma finishPavement_cases st :
  ignoringAirport (flags st) = false ->
  (writingPavementBoundary (flags st) || writingPavementHoles (flags st) = true ->
   rowsOf insertApronQuery (finishPavement st)
   = rowsOf insertApronQuery st
     ++ [<[":geometry" := QByteArray (currentPavement st)]> (boundApron (queries st))]
   /\ writingPavementBoundary (flags (finishPavement st)) = false
   /\ writingPavementHoles (flags (finishPavement st)) = false
   /\ writingPavementNewHole (flags (finishPavement st)) = false)
  /\ (writingPavementBoundary (flags st) || writingPavementHoles (flags st) = false ->
      finishPavement st = st).
Proof.
  intros Hi. split; intros Hon.
  - assert (Hst : Assembling st (writingPavementBoundary (flags st))
                    (writingPavementHoles (flags st))
                    (writingPavementNewHole (flags st)) (currentPavement st)
                    (boundApron (queries st)) (rowsOf insertApronQuery st))
      by (unfold Assembling; tauto).
    pose proof (finishPavement_Assembling _ _ _ _ _ _ _ Hst Hon) as H.
    unfold Assembling in H. tauto.
  - unfold finishPavement. now rewrite Hi, Hon.
Qed.

End Pavement.

Section FlagsInvariant.

Variable ext : Externals.
Variable ctx : XpWriterContext.

Lemma flags_finishPavement st :
  flags (finishPavement st)
  = if ignoringAirport (flags st) then flags st
    else if writingPavementBoundary (flags st) || writingPavementHoles (flags st)
    then set_writingPavementNewHole false
           (set_writingPavementHoles false
              (set_writingPavementBoundary false (flags st)))
    else flags st.
Proof.
  unfold finishPavement, checkWriting. repeat case_if; xp_simpl; congruence.
Qed.

Lemma flags_finishStartupLocation st :
  flags (finishStartupLocation st)
  = if writingStartLocation (flags st)
    then set_writingStartLocation false (flags st) else flags st.
Proof.
  unfold finishStartupLocation. repeat case_if; xp_simpl; congruence.
Qed.

Lemma flags_writeStartupLocation line st :
  flags (writeStartupLocation line st)
  = if ignoringAirport (flags st) then flags st
    else set_writingStartLocation true (flags st).
Proof.
  unfold writeStartupLocation, checkWriting. repeat case_if; xp_simpl; congruence.
Qed.

Lemma flags_writeStartup line st :
  flags (writeStartup line st)
  = if ignoringAirport (flags st) then flags st
    else set_writingStartLocation false (flags st).
Proof.
  unfold writeStartup. destruct (ignoringAirport (flags st)); [reflexivity|].
  rewrite flags_finishStartupLocation. autorewrite with xp_flags.
  xp_simpl. reflexivity.
Qed.

Lemma flags_bindPavement line st :
  flags (bindPavement line st)
  = if ignoringAirport (flags st) then flags st
    else set_writingPavementNewHole false
           (set_writingPavementHoles false
              (set_writingPavementBoundary true (flags st))).
Proof.
  unfold bindPavement, checkWriting. repeat case_if; xp_simpl; congruence.
Qed.

Lemma flags_bindViewpoint line st :
  flags (bindViewpoint line st)
  = if ignoringAirport (flags st) then flags st else set_hasTower true (flags st).
Proof.
  unfold bindViewpoint, checkWriting. repeat case_if; xp_simpl; congruence.
Qed.

Lemma flags_bindPavementNode line code st :
  flags (bindPavementNode line code st)
  = if ignoringAirport (flags st) then flags st
    else
      let f1 := set_writingPavementNewHole false (flags st) in
      if isCloseCode code then
        let f2 := if writingPavementBoundary f1
                  then set_writingPavementHoles true
                         (set_writingPavementBoundary false f1)
                  else f1 in
        if writingPavementHoles f2 then set_writingPavementNewHole true f2 else f2
      else f1.
Proof.
  unfold bindPavementNode. case_if; [reflexivity|].
  destruct (bindPavementNode_start line st) as (Hf1 & _).
  set (st1 := extendRect _ (checkWriting _ st)) in *. clearbody st1.
  cbv zeta. rewrite <- Hf1.
  destruct (isControlCode code), (isCloseCode code),
    (writingPavementBoundary (flags st1)) eqn:Hb,
    (writingPavementHoles (flags st1)) eqn:Hh;
    xp_simpl; rewrite ?Hb, ?Hh; xp_simpl; rewrite ?Hb, ?Hh; reflexivity.
Qed.

Lemma flags_reset st : flags (reset st) = noFlags.
Proof. reflexivity. Qed.

Lemma flags_finishAirport st : flags (finishAirport ext ctx st) = noFlags.
Proof. reflexivity. Qed.

Lemma flags_writeAirportFile icao fileId st :
  flags (writeAirportFile icao fileId st) = flags st.
Proof. cbv beta delta [writeAirportFile]. chain_flags. Qed.

Lemma flagsOk_bindAirport line code st :
  flags st = noFlags -> flagsOk (flags (bindAirport ext line code ctx st)) = true.
Proof.
  intros Hf. cbv beta delta [bindAirport].
  pose proof flags_writeAirportFile as Hwaf.
  repeat let_stepv flags (flags st) ltac:(rewrite ?Hwaf; keep_flags).
  destruct (AirportIndex.addAirport _ _ _) as [added index]. cbv iota beta.
  let_stepv flags (flags st) keep_flags.
  destruct (negb added || negb _).
  - autorewrite with xp_flags. rewrite Hs4, Hf. reflexivity.
  - repeat let_stepv flags (flags st) keep_flags.
    destruct (removeIndicators _ _) as [matched stripped]. cbv iota beta.
    repeat let_stepv flags (flags st) keep_flags.
    autorewrite with xp_flags. rewrite Hs4, Hf. reflexivity.
Qed.

Ltac flags_cases st :=
  let H := fresh in
  intros H; destruct (flags st) as [[] [] [] [] [] [] [] []];
  cbn in H |- *; congruence.

Lemma flagsOk_finishPavement st :
  flagsOk (flags st) = true -> flagsOk (flags (finishPavement st)) = true.
Proof. rewrite flags_finishPavement. flags_cases st. Qed.

Lemma flagsOk_finishStartupLocation st :
  flagsOk (flags st) = true -> flagsOk (flags (finishStartupLocation st)) = true.
Proof. rewrite flags_finishStartupLocation. flags_cases st. Qed.

Lemma flagsOk_writeStartupLocation line st :
  flagsOk (flags st) = true -> flagsOk (flags (writeStartupLocation line st)) = true.
Proof. rewrite flags_writeStartupLocation. flags_cases st. Qed.

Lemma flagsOk_writeStartup line st :
  flagsOk (flags st) = true -> flagsOk (flags (writeStartup line st)) = true.
Proof. rewrite flags_writeStartup. flags_cases st. Qed.

Lemma flagsOk_bindPavement line st :
  flagsOk (flags st) = true -> flagsOk (flags (bindPavement line st)) = true.
Proof. rewrite flags_bindPavement. flags_cases st. Qed.

Lemma flagsOk_bindViewpoint line st :
  flagsOk (flags st) = true -> flagsOk (flags (bindViewpoint line st)) = true.
Proof. rewrite flags_bindViewpoint. flags_cases st. Qed.

Lemma flagsOk_bindPavementNode line code st :
  flagsOk (flags st) = true ->
  flagsOk (flags (bindPavementNode line code st)) = true.
Proof.
  rewrite flags_bindPavementNode. destruct (isCloseCode code); flags_cases st.
Qed.

(** Every row keeps the flags well formed. *)
Lemma flagsOk_write line st :
  flagsOk (flags st) = true -> flagsOk (flags (write ext line ctx st)) = true.
Proof.
  intros Hok.
  pose proof (flagsOk_finishPavement st Hok) as Hp.
  pose proof (flagsOk_finishStartupLocation st Hok) as Hs.
  pose proof (flagsOk_finishStartupLocation _ Hp) as Hps.
  cbv beta zeta delta [write].
  destruct (rowCodeOf line) eqn:Hcode;
    set (c1 := containsCode _ _); vm_compute in c1; subst c1;
    set (c2 := bool_decide _); vm_compute in c2; subst c2;
    cbv beta iota zeta.
  all: rewrite ?flags_bindRunway, ?flags_writeHelipad, ?flags_bindVasi,
         ?flags_bindTaxiNode, ?flags_bindTaxiEdge, ?flags_bindMetadata,
         ?flags_bindFuel, ?flags_writeCom, ?flags_writeStartupLocationMetadata.
  all: try assumption.
  all: try (apply flagsOk_bindAirport, flags_finishAirport).
  - apply flagsOk_bindPavement, flagsOk_finishPavement, Hs.
  - apply flagsOk_bindPavementNode, Hs.
  - apply flagsOk_bindPavementNode, Hs.
  - apply flagsOk_bindPavementNode, Hs.
  - apply flagsOk_bindPavementNode, Hs.
  - apply flagsOk_bindViewpoint, Hps.
  - apply flagsOk_writeStartup, Hps.
  - apply flagsOk_writeStartupLocation, flagsOk_finishStartupLocation, Hps.
Qed.

(** The flags of every session that starts from the constructed writer. *)
Lemma flagsOk_writeAll lines index :
  flagsOk (flags (writeAll ext lines ctx (initial index))) = true.
Proof.
  induction lines as [|line lines IH] using rev_ind; [reflexivity|].
  unfold writeAll in *. rewrite fold_left_app. cbn [fold_left].
  apply flagsOk_write, IH.
Qed.

End FlagsInvariant.

(** ** Parking stands *)

Section Parking.

Variable ext : Externals.
Variable ctx : XpWriterContext.

Lemma write_AIRPORT_LOCATION line st :
  rowCodeOf line = AIRPORT_LOCATION ->
  write ext line ctx st
  = writeStartupLocation line
      (finishStartupLocation (finishStartupLocation (finishPavement st))).
Proof. intros H. unfold write. rewrite H. reflexivity. Qed.

Lemma write_RAMP_START_METADATA line st :
  rowCodeOf line = RAMP_START_METADATA ->
  write ext line ctx st = writeStartupLocationMetadata line (finishPavement st).
Proof. intros H. unfold write. rewrite H. reflexivity. Qed.

(** The stand that a startup location row opens when its name names no
    fuel: whatever the type token, the type bound last is the empty one. *)
Lemma writeStartupLocation_no_fuel line st :
  ignoringAirport (flags st) = false ->
  fuelName (mid line sl.NAME) = false ->
  let st' := writeStartupLocation line st in
  ignoringAirport (flags st') = false
  /\ writingStartLocation (flags st') = true
  /\ boundParking (queries st') !! ":type" = Some (QString "")
  /\ db st' = db st.
Proof.
  intros Hign Hfuel. unfold fuelName in Hfuel.
  apply orb_false_iff in Hfuel as [Hfuel Hf]. apply orb_false_iff in Hfuel as [Hgas Hj].
  cbv zeta. unfold writeStartupLocation. rewrite Hign, Hgas, Hj, Hf.
  unfold checkWriting. repeat case_if; xp_simpl; repeat split; by simplify_map_eq.
Qed.

(** The metadata row of a stand whose type is empty so far. *)
Lemma writeStartupLocationMetadata_untyped line st :
  ignoringAirport (flags st) = false ->
  boundParking (queries st) !! ":type" = Some (QString "") ->
  let st' := writeStartupLocationMetadata line st in
  writingStartLocation (flags st') = writingStartLocation (flags st)
  /\ db st' = db st
  /\ boundParking (queries st') !! ":radius"
     = Some (QFloat (fst (widthCodeRadiusSize (QStr.value line sm.WIDTH))))
  /\ boundParking (queries st') !! ":type"
     = Some (QString (typeAfterMetadata (QStr.value line sm.OPTYPE)
                        (snd (widthCodeRadiusSize (QStr.value line sm.WIDTH))))).
Proof.
  intros Hign Htype. cbv zeta. unfold writeStartupLocationMetadata, typeAfterMetadata.
  rewrite Hign.
  assert (Hty : forall s0, boundParking (queries s0) = boundParking (queries st) ->
            String.eqb (toString (boundValue insertParkingQuery ":type" s0)) "FUEL" = false).
  { intros s0 Hs0. xp_simpl. rewrite Hs0, Htype. reflexivity. }
  rewrite Hty by (unfold checkWriting; case_if; reflexivity).
  cbn [negb].
  destruct (widthCodeRadiusSize _) as [radius sizeType]. cbn [fst snd].
  unfold checkWriting.
  destruct (negb (writingAirport _));
  (destruct (String.eqb (QStr.value line sm.OPTYPE) "general_aviation") eqn:Hga;
   [|destruct (String.eqb (QStr.value line sm.OPTYPE) "cargo") eqn:Hc;
     [|destruct (String.eqb (QStr.value line sm.OPTYPE) "military") eqn:Hm]]);
  destruct (_ <? _)%nat; xp_simpl; simplify_map_eq; cbn; xp_simpl; by simplify_map_eq.
Qed.

(** C1, as the code has it.  A stand opened by a startup location row of
    type "gate" whose name names no fuel, followed by a metadata row of
    width code "D", is flushed with radius 80, but its type is never "GM":
    the empty type that [writeStartupLocation] binds last replaces the "G",
    so that the flushed type is the operation type of the metadata row alone
    ("RGAM", "RC", "RM" or empty). *)
Theorem gate_stand_width_D_loses_type line meta st :
  ignoringAirport (flags st) = false ->
  rowCodeOf line = AIRPORT_LOCATION ->
  at_ line sl.TYPE = "gate" ->
  fuelName (mid line sl.NAME) = false ->
  rowCodeOf meta = RAMP_START_METADATA ->
  QStr.value meta sm.WIDTH = "D" ->
  let opened := write ext line ctx st in
  let flushed := finishStartupLocation (write ext meta ctx opened) in
  exists rec,
    rowsOf insertParkingQuery flushed = rowsOf insertParkingQuery opened ++ [rec]
    /\ rec !! ":radius" = Some (QFloat 80)
    /\ rec !! ":type"
       = Some (QString (typeAfterMetadata (QStr.value meta sm.OPTYPE) "M"))
    /\ rec !! ":type" <> Some (QString "GM").
Proof.
  intros Hign Hloc _ Hfuel Hmeta Hwidth opened flushed.
  subst opened flushed. rewrite (write_AIRPORT_LOCATION line st Hloc).
  set (st1 := finishStartupLocation (finishStartupLocation (finishPavement st))).
  assert (Hign1 : ignoringAirport (flags st1) = false).
  { subst st1. now rewrite !finishStartupLocation_ignoring, finishPavement_ignoring. }
  destruct (writeStartupLocation_no_fuel line st1 Hign1 Hfuel) as (Hign2 & Hopen & Htype & _).
  set (st2 := writeStartupLocation line st1) in *.
  rewrite (write_RAMP_START_METADATA meta st2 Hmeta).
  assert (Hign3 : ignoringAirport (flags (finishPavement st2)) = false)
    by now rewrite finishPavement_ignoring.
  assert (Htype3 : boundParking (queries (finishPavement st2)) !! ":type" = Some (QString ""))
    by now rewrite finishPavement_boundParking.
  destruct (writeStartupLocationMetadata_untyped meta (finishPavement st2) Hign3 Htype3)
    as (Hopen4 & Hdb4 & Hradius & Htype4).
  set (st4 := writeStartupLocationMetadata meta (finishPavement st2)) in *.
  rewrite finishPavement_writingStartLocation, Hopen in Hopen4.
  rewrite Hwidth in Hradius, Htype4. cbn [widthCodeRadiusSize fst snd] in Hradius, Htype4.
  exists (boundParking (queries st4)).
  rewrite (finishStartupLocation_rows st4 Hopen4), (rowsOf_same_db _ _ _ Hdb4),
    finishPavement_rowsOf_parking.
  repeat split; try assumption.
  rewrite Htype4. unfold typeAfterMetadata.
  repeat case_if; discriminate.
Qed.

(** The stand of a name that contains "jetfuel". *)
Lemma writeStartupLocation_jetfuel line st :
  ignoringAirport (flags st) = false ->
  QStr.contains (QStr.toLower (mid line sl.NAME)) "jetfuel" = true ->
  let st' := writeStartupLocation line st in
  boundValue insertAirportQuery ":has_jetfuel" st' = Some (QInt 1)
  /\ boundValue insertAirportQuery ":has_avgas" st' = Some (QInt 1)
  /\ boundValue insertParkingQuery ":type" st' = Some (QString "FUEL").
Proof.
  intros Hign Hjet. 
  pose proof (contains_app "jet" "fuel" _ Hjet) as Hfuel.
  cbv zeta. unfold writeStartupLocation. rewrite Hign, Hjet, Hfuel.
  destruct (_ || _ || _); unfold checkWriting;
    destruct (negb _); xp_simpl; repeat split; by simplify_map_eq.
Qed.

(** C9.  A startup location row whose name contains "jetfuel", whatever the
    case of the letters, sets both fuel flags of the airport and binds the
    type "FUEL": the name passes the test for "fuel" as well. *)
Theorem jetfuel_name_sets_both_flags line st :
  ignoringAirport (flags st) = false ->
  rowCodeOf line = AIRPORT_LOCATION ->
  QStr.containsCI (mid line sl.NAME) "jetfuel" = true ->
  let st' := write ext line ctx st in
  boundValue insertAirportQuery ":has_jetfuel" st' = Some (QInt 1)
  /\ boundValue insertAirportQuery ":has_avgas" st' = Some (QInt 1)
  /\ boundValue insertParkingQuery ":type" st' = Some (QString "FUEL").
Proof.
  intros Hign Hloc Hjet. rewrite (write_AIRPORT_LOCATION line st Hloc).
  apply writeStartupLocation_jetfuel.
  - now rewrite !finishStartupLocation_ignoring, finishPavement_ignoring.
  - exact Hjet.
Qed.

(** C5.  The comparator of gates: "GH" over everything else, "GS" under
    everything else, and no order among the other codes. *)
Theorem compareGate_table :
  compareGate "GH" "GS" = 1 /\
  compareGate "GS" "GH" = -1 /\
  (forall x, compareGate x x = 0) /\
  (forall y, y <> "GH" -> compareGate "GH" y = 1 /\ compareGate y "GH" = -1) /\
  (forall y, y <> "GH" -> y <> "GS" ->
     compareGate "GS" y = -1 /\ compareGate y "GS" = 1) /\
  (forall x y, x <> "GH" -> x <> "GS" -> y <> "GH" -> y <> "GS" ->
     compareGate x y = 0).
Proof.
  split; [reflexivity|]. split; [reflexivity|].
  split; [|split; [|split]].
  - intros x. unfold compareGate. now rewrite String.eqb_refl.
  - intros y Hy. unfold compareGate.
    rewrite (eqb_false "GH" y), (eqb_false y "GH") by congruence.
    split; reflexivity.
  - intros y Hh Hs. unfold compareGate.
    rewrite (eqb_false "GS" y), (eqb_false y "GS"), (eqb_false y "GH") by congruence.
    split; reflexivity.
  - intros x y Hx1 Hx2 Hy1 Hy2. unfold compareGate.
    rewrite (eqb_false x "GH"), (eqb_false y "GH"), (eqb_false x "GS"),
      (eqb_false y "GS") by assumption.
    now destruct (String.eqb x y).
Qed.

(** C6.  The table of the ICAO width codes, and its use: the radius that a
    metadata row binds is the one of its width code. *)
Theorem widthCode_table :
  widthCodeRadiusSize "A" = (25%Q, "S") /\
  widthCodeRadiusSize "B" = (40%Q, "S") /\
  widthCodeRadiusSize "C" = (60%Q, "M") /\
  widthCodeRadiusSize "D" = (80%Q, "M") /\
  widthCodeRadiusSize "E" = (100%Q, "H") /\
  widthCodeRadiusSize "F" = (130%Q, "H") /\
  widthCodeRadiusSize "Z" = (10%Q, "S") /\
  (forall w, ~ In w ["A"; "B"; "C"; "D"; "E"; "F"] ->
     widthCodeRadiusSize w = (10%Q, "S")) /\
  (forall meta st,
     ignoringAirport (flags st) = false ->
     boundValue insertParkingQuery ":radius" (writeStartupLocationMetadata meta st)
     = Some (QFloat (fst (widthCodeRadiusSize (QStr.value meta sm.WIDTH))))).
Proof.
  repeat (split; [reflexivity|]). split.
  - intros w Hw. unfold widthCodeRadiusSize.
    repeat (rewrite (eqb_false w) by (intros ->; apply Hw; cbn; tauto)).
    reflexivity.
  - intros meta st Hign. unfold writeStartupLocationMetadata. rewrite Hign.
    destruct (widthCodeRadiusSize _) as [radius sizeType]. cbn [fst].
    set (st1 := if Nat.ltb _ _ then _ else _).
    assert (Hr : forall t s0, boundValue insertParkingQuery ":radius"
                   (bindValue insertParkingQuery ":type" t
                      (bindValue insertParkingQuery ":radius" (QFloat radius) s0))
                 = Some (QFloat radius)).
    { intros. xp_simpl. by simplify_map_eq. }
    assert (Hr' : forall s0, boundValue insertParkingQuery ":radius"
                    (bindValue insertParkingQuery ":radius" (QFloat radius) s0)
                  = Some (QFloat radius)).
    { intros. xp_simpl. by simplify_map_eq. }
    repeat case_if; auto.
Qed.

End Parking.

(** ** The flush of the polygon *)

Section Flush.

Variable ext : Externals.
Variable ctx : XpWriterContext.

Lemma finishPavement_idempotent st :
  finishPavement (finishPavement st) = finishPavement st.
Proof.
  destruct (ignoringAirport (flags st)) eqn:Hi.
  - assert (E : finishPavement st = st) by (unfold finishPavement; now rewrite Hi).
    now rewrite !E.
  - destruct (finishPavement_cases st Hi) as [Hon Hoff].
    destruct (writingPavementBoundary (flags st) || writingPavementHoles (flags st)) eqn:E.
    + destruct (Hon eq_refl) as (_ & Hb & Hh & _).
      assert (Hi' : ignoringAirport (flags (finishPavement st)) = false)
        by now rewrite finishPavement_ignoring.
      apply (proj2 (finishPavement_cases _ Hi')). now rewrite Hb, Hh.
    + now rewrite !(Hoff eq_refl).
Qed.

(** A row that is neither a pavement header nor a node flushes the polygon
    before anything else, and so does the end of the file. *)
Lemma write_flushes line st :
  containsCode (rowCodeOf line)
    [PAVEMENT_HEADER; NODE; NODE_AND_CONTROL_POINT; NODE_CLOSE;
     NODE_AND_CONTROL_POINT_CLOSE] = false ->
  write ext line ctx st = write ext line ctx (finishPavement st).
Proof.
  intros H. unfold write. rewrite H. cbn [negb].
  now rewrite finishPavement_idempotent.
Qed.

Lemma finish_flushes st :
  finish ext ctx st = finish ext ctx (finishPavement st).
Proof. unfold finish. now rewrite finishPavement_idempotent. Qed.

(** C3, as the code has it.  In every session the flush of the polygon
    leaves the three flags of the assembler off.  It writes the polygon in
    progress whenever the session is not ignoring and one of the two phases
    is on, be the boundary empty or not; otherwise it does nothing. *)
Theorem flush_clears_flags_and_writes_open_polygon lines index :
  let st := writeAll ext lines ctx (initial index) in
  let st' := finishPavement st in
  writingPavementBoundary (flags st') = false
  /\ writingPavementHoles (flags st') = false
  /\ writingPavementNewHole (flags st') = false
  /\ if negb (ignoringAirport (flags st))
        && (writingPavementBoundary (flags st) || writingPavementHoles (flags st))
     then rowsOf insertApronQuery st'
          = rowsOf insertApronQuery st
            ++ [<[":geometry" := QByteArray (currentPavement st)]>
                  (boundApron (queries st))]
     else st' = st.
Proof.
  intros st st'. subst st'.
  pose proof (flagsOk_writeAll ext ctx lines index) as Hok. fold st in Hok.
  clearbody st.
  destruct (ignoringAirport (flags st)) eqn:Hi.
  - assert (E : finishPavement st = st) by (unfold finishPavement; now rewrite Hi).
    rewrite E. cbn [negb andb]. revert Hok Hi.
    destruct (flags st) as [[] [] [] [] [] [] [] []]; cbn; intuition congruence.
  - destruct (finishPavement_cases st Hi) as [Hon Hoff]. cbn [negb andb].
    destruct (writingPavementBoundary (flags st) || writingPavementHoles (flags st)) eqn:E.
    + destruct (Hon eq_refl) as (Hr & Hb & Hh & Hn). tauto.
    + rewrite (Hoff eq_refl). revert Hok Hi E.
      destruct (flags st) as [[] [] [] [] [] [] [] []]; cbn; intuition congruence.
Qed.

End Flush.

(** C3, as it is stated, fails: directly after a pavement header the
    boundary has no node, and the flush - by a row that is no pavement row,
    or by the end of the file - writes an apron all the same. *)
Lemma empty_boundary_is_written :
  let st := write Sample.ext Sample.pavement Sample.context Sample.opened in
  XpGeometry.boundary (currentPavement st) = []
  /\ rowsOf insertApronQuery st = []
  /\ map (fun rec => rec !! ":geometry")
       (rowsOf insertApronQuery (finishPavement st))
     = [Some (QByteArray XpGeometry.clear)]
  /\ map (fun rec => rec !! ":geometry")
       (rowsOf insertApronQuery
          (write Sample.ext Sample.windsock Sample.context st))
     = [Some (QByteArray XpGeometry.clear)]
  /\ map (fun rec => rec !! ":geometry")
       (rowsOf insertApronQuery (finish Sample.ext Sample.context st))
     = [Some (QByteArray XpGeometry.clear)].
Proof. cbv zeta. repeat split; vm_compute; reflexivity. Qed.

(** ** The airport session *)

Ltac keep_db :=
  repeat first [ progress autorewrite with xp_db
               | rewrite (app_if db)
               | rewrite if_same ];
  try close_eq.

Ltac keep_geo :=
  repeat first [ progress autorewrite with xp_geo
               | rewrite (app_if geo)
               | rewrite if_same ];
  try close_eq.

Ltac keep_ends :=
  repeat first [ progress autorewrite with xp_runwayEndRecords
               | rewrite (app_if runwayEndRecords)
               | rewrite if_same ];
  try close_eq.

Ltac keep_index :=
  repeat first [ progress autorewrite with xp_airportIndex
               | rewrite (app_if airportIndex)
               | rewrite if_same ];
  try close_eq.

Section Session.

Variable ext : Externals.
Variable ctx : XpWriterContext.

(** *** An ignored airport *)

(** While an airport is ignored and no stand is open, a row that is no
    header changes nothing at all. *)
Lemma write_ignored line st :
  ignoringAirport (flags st) = true ->
  writingStartLocation (flags st) = false ->
  ~ headerRow line ->
  write ext line ctx st = st.
Proof.
  intros Hi Hs Hh.
  assert (Ep : finishPavement st = st) by (unfold finishPavement; now rewrite Hi).
  assert (Es : finishStartupLocation st = st)
    by (unfold finishStartupLocation; now rewrite Hs).
  cbv beta zeta delta [write]. unfold headerRow in Hh.
  destruct (rowCodeOf line) eqn:Hcode;
    try (exfalso; apply Hh; auto; fail);
    repeat first [rewrite Ep | rewrite Es | rewrite if_same]; try reflexivity.
  all: cbv beta delta
         [bindRunway writeHelipad bindPavement bindPavementNode bindViewpoint
          writeStartup bindVasi writeStartupLocation
          writeStartupLocationMetadata bindTaxiNode bindTaxiEdge bindMetadata
          bindFuel writeCom];
       rewrite Hi; reflexivity.
Qed.

Lemma writeAll_ignored rows st :
  ignoringAirport (flags st) = true ->
  writingStartLocation (flags st) = false ->
  Forall (fun r => ~ headerRow r) rows ->
  writeAll ext rows ctx st = st.
Proof.
  intros Hi Hs. induction 1 as [|r rows Hr _ IH]; [reflexivity|].
  cbn [writeAll fold_left]. rewrite write_ignored by assumption. exact IH.
Qed.

Lemma finishAirport_not_writing st :
  writingAirport (flags st) && negb (ignoringAirport (flags st)) = false ->
  finishAirport ext ctx st = reset st.
Proof. intros H. cbv beta delta [finishAirport]. rewrite H. reflexivity. Qed.

Lemma db_reset st : db (reset st) = db st.
Proof. reflexivity. Qed.

Lemma airportIndex_reset st : airportIndex (reset st) = airportIndex st.
Proof. reflexivity. Qed.

(** The end of the file in an ignored airport writes nothing. *)
Lemma finish_ignored st :
  ignoringAirport (flags st) = true ->
  writingStartLocation (flags st) = false ->
  db (finish ext ctx st) = db st.
Proof.
  intros Hi Hs. unfold finish.
  assert (Ep : finishPavement st = st) by (unfold finishPavement; now rewrite Hi).
  assert (Es : finishStartupLocation st = st)
    by (unfold finishStartupLocation; now rewrite Hs).
  rewrite Ep, Es, finishAirport_not_writing by (rewrite Hi; apply andb_false_r).
  apply db_reset.
Qed.

(** *** What the flushes write *)

Lemma rowsOf_app_others (q : SqlQueryId) (a b : XpAirportWriter) l :
  db b = db a ++ l -> Forall (fun e => fst e <> q) l -> rowsOf q b = rowsOf q a.
Proof.
  intros Hdb Hl. unfold rowsOf. rewrite Hdb, List.filter_app, List.map_app.
  replace (List.filter _ l) with (@nil (SqlQueryId * SqlRecord)); [apply app_nil_r|].
  clear Hdb. induction Hl as [|e l He _ IH]; [reflexivity|].
  cbn [List.filter]. rewrite bool_decide_eq_false_2 by exact He. exact IH.
Qed.

Lemma db_finishPavement st :
  exists l, db (finishPavement st) = db st ++ l
            /\ Forall (fun e => fst e = insertApronQuery) l.
Proof.
  unfold finishPavement, checkWriting.
  repeat case_if; xp_simpl;
    first [ exists []; split; [now rewrite app_nil_r|constructor]
          | eexists [_]; split; [reflexivity|repeat constructor] ].
Qed.

Lemma db_finishStartupLocation st :
  exists l, db (finishStartupLocation st) = db st ++ l
            /\ Forall (fun e => fst e = insertParkingQuery) l.
Proof.
  unfold finishStartupLocation.
  destruct (writingStartLocation (flags st));
    [|exists []; split; [now rewrite app_nil_r|constructor]].
  repeat case_if; xp_simpl; eexists [_]; split; try reflexivity; repeat constructor.
Qed.

Lemma db_bindAirportCounts st : db (bindAirportCounts ext ctx st) = db st.
Proof. cbv beta delta [bindAirportCounts]. repeat let_step db keep_db. keep_db. Qed.

Lemma db_findBoundingRect st : db (findBoundingRect st) = db st.
Proof. cbv beta delta [findBoundingRect]. repeat let_step db keep_db. keep_db. Qed.

Lemma runwayEndRecords_bindAirportCounts st :
  runwayEndRecords (bindAirportCounts ext ctx st) = runwayEndRecords st.
Proof.
  cbv beta delta [bindAirportCounts]. repeat let_step runwayEndRecords keep_ends.
  keep_ends.
Qed.

Lemma runwayEndRecords_findBoundingRect st :
  runwayEndRecords (findBoundingRect st) = runwayEndRecords st.
Proof.
  cbv beta delta [findBoundingRect]. repeat let_step runwayEndRecords keep_ends.
  keep_ends.
Qed.

Lemma geo_bindAirportCounts st : geo (bindAirportCounts ext ctx st) = geo st.
Proof. cbv beta delta [bindAirportCounts]. repeat let_step geo keep_geo. keep_geo. Qed.

(** The row of the airport, and the rows of its runway ends after it. *)
Lemma db_writeAirportRow st :
  exists rec,
    db (writeAirportRow ctx st)
    = db st ++ (insertAirportQuery, rec)
               :: map (fun r => (insertRunwayEndQuery, r)) (runwayEndRecords st)
    /\ let rect := if Geo.isPoint (airportRect (geo st))
                   then Geo.inflate (1 # 60) (1 # 60) (airportRect (geo st))
                   else airportRect (geo st) in
       let center := if Geo.isValid (airportPos (geo st))
                     then airportPos (geo st) else Geo.getCenter rect in
       rec !! ":lonx" = Some (QFloat (lonX center))
       /\ rec !! ":laty" = Some (QFloat (latY center))
       /\ rec !! ":left_lonx" = Some (QFloat (lonX (topLeft rect)))
       /\ rec !! ":top_laty" = Some (QFloat (latY (topLeft rect)))
       /\ rec !! ":right_lonx" = Some (QFloat (lonX (bottomRight rect)))
       /\ rec !! ":bottom_laty" = Some (QFloat (latY (bottomRight rect))).
Proof.
  unfold writeAirportRow.
  destruct (Geo.isPoint (airportRect (geo st))); xp_simpl;
    (eexists; split; [rewrite <- app_assoc; reflexivity|]);
    cbv zeta; repeat split; by simplify_map_eq.
Qed.

(** [finishAirport] writes the airport and its runway ends, or nothing. *)
Lemma db_finishAirport st :
  exists l, db (finishAirport ext ctx st) = db st ++ l
            /\ Forall (fun e => fst e = insertAirportQuery
                                \/ fst e = insertRunwayEndQuery) l.
Proof.
  cbv beta delta [finishAirport].
  destruct (writingAirport (flags st) && negb (ignoringAirport (flags st))).
  - cbv zeta. rewrite db_reset.
    destruct (db_writeAirportRow (findBoundingRect (bindAirportCounts ext ctx st)))
      as (rec & Hdb & _).
    rewrite Hdb, db_findBoundingRect, db_bindAirportCounts.
    eexists. split; [reflexivity|].
    constructor; [left; reflexivity|].
    apply List.Forall_forall. intros e He. apply List.in_map_iff in He as (r & <- & _).
    right. reflexivity.
  - cbv zeta. rewrite db_reset. exists []. split; [now rewrite app_nil_r|constructor].
Qed.

End Session.

Section Duplicate.

Variable ext : Externals.
Variable ctx : XpWriterContext.

Lemma write_header line st :
  headerRow line ->
  write ext line ctx st
  = bindAirport ext line (rowCodeOf line) ctx
      (finishAirport ext ctx (finishStartupLocation (finishPavement st))).
Proof.
  intros [H|[H|H]]; cbv beta zeta delta [write]; rewrite H; reflexivity.
Qed.

Lemma airportIndex_finishPavement st :
  airportIndex (finishPavement st) = airportIndex st.
Proof.
  cbv beta delta [finishPavement].
  destruct (ignoringAirport (flags st)); [reflexivity|cbv iota].
  destruct (_ || _); [|reflexivity].
  repeat let_step airportIndex keep_index. keep_index.
Qed.

Lemma airportIndex_finishStartupLocation st :
  airportIndex (finishStartupLocation st) = airportIndex st.
Proof.
  cbv beta delta [finishStartupLocation].
  destruct (writingStartLocation (flags st)); [cbv iota|reflexivity].
  repeat let_step airportIndex keep_index. keep_index.
Qed.

Lemma airportIndex_finishAirport st :
  airportIndex (finishAirport ext ctx st) = airportIndex st.
Proof.
  cbv beta delta [finishAirport]. cbv zeta. rewrite airportIndex_reset.
  destruct (_ && _); [|reflexivity].
  cbv beta delta [writeAirportRow]. repeat let_step airportIndex keep_index.
  keep_index.
  cbv beta delta [findBoundingRect]. repeat let_step airportIndex keep_index.
  keep_index.
  cbv beta delta [bindAirportCounts]. repeat let_step airportIndex keep_index.
  keep_index.
Qed.

(** The header of an airport that the index knows already: the session
    ignores the airport, and the file record is written all the same. *)
Lemma bindAirport_duplicate line code st id0 :
  flags st = noFlags ->
  AirportIndex.airports (airportIndex st) !! QStr.value line ap.ICAO = Some id0 ->
  let st' := bindAirport ext line code ctx st in
  flags st' = set_ignoringAirport true noFlags
  /\ airportIndex st' = airportIndex st
  /\ exists rec,
       db st' = db st ++ [(insertAirportFileQuery, rec)]
       /\ rec !! ":ident" = Some (QString (QStr.value line ap.ICAO)).
Proof.
  intros Hf Hreg. cbv zeta. unfold bindAirport.
  rewrite Hf. cbn [writingAirport ignoringAirport noFlags].
  rewrite Hf. cbn [writingAirport ignoringAirport noFlags].
  unfold writeAirportFile, AirportIndex.addAirport. xp_simpl.
  rewrite Hreg. cbn [negb orb]. xp_simpl. rewrite Hf.
  destruct (airportIndex st) as [airports ends]. cbn [AirportIndex.airports AirportIndex.runwayEnds].
  repeat split. eexists. split; [reflexivity|]. by simplify_map_eq.
Qed.

(** The airport and the ignoring flag after the two flushes of a header. *)
Lemma airport_flags_flushed st :
  writingAirport (flags (finishStartupLocation (finishPavement st)))
  = writingAirport (flags st)
  /\ ignoringAirport (flags (finishStartupLocation (finishPavement st)))
     = ignoringAirport (flags st).
Proof.
  rewrite flags_finishStartupLocation, flags_finishPavement.
  destruct (flags st) as [? ? ? ? ? ? ? ?]; cbn.
  repeat case_if; split; reflexivity.
Qed.

Lemma rowsOf_app_one (q : SqlQueryId) (a b : XpAirportWriter) rec l :
  db b = db a ++ (q, rec) :: l -> Forall (fun e => fst e <> q) l ->
  rowsOf q b = rowsOf q a ++ [rec].
Proof.
  intros Hdb Hl. unfold rowsOf. rewrite Hdb, List.filter_app, List.map_app.
  cbn [List.filter fst]. rewrite bool_decide_eq_true_2 by reflexivity.
  cbn [map snd]. do 2 f_equal. clear Hdb.
  induction Hl as [|e l He _ IH]; [reflexivity|].
  cbn [List.filter]. rewrite bool_decide_eq_false_2 by exact He. exact IH.
Qed.

(** The airport rows of [finishAirport]: the row of the airport that is
    being written, and no row when none is. *)
Lemma airport_rows_finishAirport st :
  if writingAirport (flags st) && negb (ignoringAirport (flags st))
  then exists prev,
         rowsOf insertAirportQuery (finishAirport ext ctx st)
         = rowsOf insertAirportQuery st ++ [prev]
  else rowsOf insertAirportQuery (finishAirport ext ctx st)
       = rowsOf insertAirportQuery st.
Proof.
  destruct (writingAirport (flags st) && negb (ignoringAirport (flags st))) eqn:E.
  - cbv beta delta [finishAirport]. rewrite E. cbv zeta.
    destruct (db_writeAirportRow ctx (findBoundingRect (bindAirportCounts ext ctx st)))
      as (prev & Hdb & _).
    rewrite db_findBoundingRect, db_bindAirportCounts in Hdb.
    exists prev. rewrite (rowsOf_same_db _ _ _ (db_reset _)).
    apply (rowsOf_app_one _ _ _ _ _ Hdb).
    apply List.Forall_forall. intros e He.
    apply List.in_map_iff in He as (r & <- & _). discriminate.
  - rewrite finishAirport_not_writing by exact E.
    apply rowsOf_same_db, db_reset.
Qed.

(** The airport rows of the flushes of a header or of the end of the file. *)
Lemma airport_rows_finish st :
  if writingAirport (flags st) && negb (ignoringAirport (flags st))
  then exists prev,
         rowsOf insertAirportQuery (finish ext ctx st)
         = rowsOf insertAirportQuery st ++ [prev]
  else rowsOf insertAirportQuery (finish ext ctx st)
       = rowsOf insertAirportQuery st.
Proof.
  unfold finish.
  pose proof (airport_rows_finishAirport (finishStartupLocation (finishPavement st)))
    as H.
  destruct (airport_flags_flushed st) as [Hw Hi]. rewrite Hw, Hi in H.
  assert (Hrows : rowsOf insertAirportQuery (finishStartupLocation (finishPavement st))
                  = rowsOf insertAirportQuery st).
  { destruct (db_finishStartupLocation (finishPavement st)) as (l2 & H2 & F2).
    destruct (db_finishPavement st) as (l1 & H1 & F1).
    rewrite (rowsOf_app_others _ _ _ _ H2), (rowsOf_app_others _ _ _ _ H1);
      [reflexivity| |].
    - eapply Forall_impl; [exact F1|]. intros e ->. discriminate.
    - eapply Forall_impl; [exact F2|]. intros e ->. discriminate. }
  rewrite Hrows in H. exact H.
Qed.

(** C8.  The header of an airport whose identifier the index holds already
    does what the end of the file does for the airport before it, and then
    only this: it writes the file record of the identifier and puts the
    session into the ignoring state.  It writes no airport row and leaves
    the index as it is; the rows of the airport then change nothing, and
    neither the end of the file nor the next header writes an airport for
    it.  So the airport rows from the session before the header to the end
    of the file grow by the row of the airport that was open before the
    header, when one was, and by nothing else. *)
Theorem duplicate_airport_is_ignored line rows st :
  headerRow line ->
  is_Some (AirportIndex.airports (airportIndex st) !! QStr.value line ap.ICAO) ->
  Forall (fun r => ~ headerRow r) rows ->
  let st0 := finish ext ctx st in
  let st1 := write ext line ctx st in
  let st2 := writeAll ext rows ctx st1 in
  ignoringAirport (flags st1) = true
  /\ writingAirport (flags st1) = false
  /\ (exists rec,
        rowsOf insertAirportFileQuery st1
        = rowsOf insertAirportFileQuery st ++ [rec]
        /\ rec !! ":ident" = Some (QString (QStr.value line ap.ICAO)))
  /\ st2 = st1
  /\ rowsOf insertAirportQuery (finish ext ctx st2) = rowsOf insertAirportQuery st1
  /\ rowsOf insertAirportQuery (finishAirport ext ctx st2)
     = rowsOf insertAirportQuery st1
  /\ st1 = bindAirport ext line (rowCodeOf line) ctx st0
  /\ (exists rec,
        db st1 = db st0 ++ [(insertAirportFileQuery, rec)]
        /\ rec !! ":ident" = Some (QString (QStr.value line ap.ICAO)))
  /\ rowsOf insertAirportQuery st1 = rowsOf insertAirportQuery st0
  /\ airportIndex st1 = airportIndex st
  /\ (if writingAirport (flags st) && negb (ignoringAirport (flags st))
      then exists prev,
             rowsOf insertAirportQuery (finish ext ctx st2)
             = rowsOf insertAirportQuery st ++ [prev]
      else rowsOf insertAirportQuery (finish ext ctx st2)
           = rowsOf insertAirportQuery st).
Proof.
  intros Hh [id0 Hreg] Hrows st0 st1 st2. subst st2 st1.
  rewrite (write_header line st Hh).
  change (finishAirport ext ctx (finishStartupLocation (finishPavement st)))
    with st0.
  assert (Hf0 : flags st0 = noFlags) by apply flags_finishAirport.
  assert (Hix0 : airportIndex st0 = airportIndex st).
  { subst st0. unfold finish.
    now rewrite airportIndex_finishAirport, airportIndex_finishStartupLocation,
      airportIndex_finishPavement. }
  assert (Hix : AirportIndex.airports (airportIndex st0) !! QStr.value line ap.ICAO
                = Some id0) by now rewrite Hix0.
  destruct (bindAirport_duplicate line (rowCodeOf line) st0 id0 Hf0 Hix)
    as (Hf1 & Hix1 & rec & Hdb1 & Hident).
  set (st1 := bindAirport ext line (rowCodeOf line) ctx st0) in *.
  assert (Hi1 : ignoringAirport (flags st1) = true) by now rewrite Hf1.
  assert (Hs1 : writingStartLocation (flags st1) = false) by now rewrite Hf1.
  assert (Hw1 : writingAirport (flags st1) = false) by now rewrite Hf1.
  assert (Hfile : Forall (fun e : SqlQueryId * SqlRecord => fst e <> insertAirportQuery)
                    [(insertAirportFileQuery, rec)])
    by (repeat constructor; discriminate).
  assert (Hap1 : rowsOf insertAirportQuery st1 = rowsOf insertAirportQuery st0)
    by exact (rowsOf_app_others _ _ _ _ Hdb1 Hfile).
  assert (Hfin : rowsOf insertAirportQuery (finish ext ctx st1)
                 = rowsOf insertAirportQuery st1)
    by (apply rowsOf_same_db, finish_ignored; assumption).
  rewrite (writeAll_ignored ext ctx rows st1 Hi1 Hs1 Hrows).
  split; [exact Hi1|]. split; [exact Hw1|].
  split; [|split; [reflexivity|split; [exact Hfin|split]]].
  - exists rec. split; [|exact Hident].
    unfold rowsOf at 1. rewrite Hdb1, List.filter_app, List.map_app.
    cbn [List.filter fst]. rewrite bool_decide_eq_true_2 by reflexivity.
    cbn [map snd]. f_equal.
    change (rowsOf insertAirportFileQuery st0 = rowsOf insertAirportFileQuery st).
    subst st0. unfold finish.
    destruct (db_finishAirport ext ctx (finishStartupLocation (finishPavement st)))
      as (l3 & H3 & F3).
    destruct (db_finishStartupLocation (finishPavement st)) as (l2 & H2 & F2).
    destruct (db_finishPavement st) as (l1 & H1 & F1).
    rewrite (rowsOf_app_others _ _ _ _ H3), (rowsOf_app_others _ _ _ _ H2),
      (rowsOf_app_others _ _ _ _ H1); [reflexivity| | |].
    + eapply Forall_impl; [exact F1|]. intros e ->. discriminate.
    + eapply Forall_impl; [exact F2|]. intros e ->. discriminate.
    + eapply Forall_impl; [exact F3|]. intros e [-> | ->]; discriminate.
  - rewrite finishAirport_not_writing by (rewrite Hw1; reflexivity).
    apply rowsOf_same_db, db_reset.
  - split; [reflexivity|]. split; [exists rec; split; assumption|].
    split; [exact Hap1|]. split; [now rewrite Hix1|].
    rewrite Hfin, Hap1. subst st0. apply airport_rows_finish.
Qed.

End Duplicate.

(** ** The bounding rectangle at the end of an airport *)

Section BoundingRect.

Variable ext : Externals.
Variable ctx : XpWriterContext.

(** Without a rectangle the datum comes first, the center of the longest
    runway second. *)
Lemma findBoundingRect_no_rect st :
  Geo.rectIsValid (airportRect (geo st)) = false ->
  geo (findBoundingRect st)
  = if Geo.isValid (airportDatumPos (geo st))
    then set_airportPos (airportDatumPos (geo st))
           (set_airportRect (Geo.RectOf (airportDatumPos (geo st))) (geo st))
    else if Geo.isValid (longestRunwayCenterPos (geo st))
    then set_airportPos (longestRunwayCenterPos (geo st))
           (set_airportRect (Geo.RectOf (longestRunwayCenterPos (geo st))) (geo st))
    else geo st.
Proof.
  intros Hr. cbv beta delta [findBoundingRect]. rewrite Hr.
  change (negb false) with true. cbv iota zeta.
  rewrite !(app_if geo). autorewrite with xp_geo.
  repeat case_if; reflexivity.
Qed.

Lemma finishAirport_writing st :
  writingAirport (flags st) = true ->
  ignoringAirport (flags st) = false ->
  finishAirport ext ctx st
  = reset (writeAirportRow ctx (findBoundingRect (bindAirportCounts ext ctx st))).
Proof.
  intros Hw Hi. cbv beta delta [finishAirport]. rewrite Hw, Hi. reflexivity.
Qed.

Lemma rowsOf_airport_writeAirportRow st rec :
  db (writeAirportRow ctx st)
  = db st ++ (insertAirportQuery, rec)
             :: map (fun r => (insertRunwayEndQuery, r)) (runwayEndRecords st) ->
  rowsOf insertAirportQuery (writeAirportRow ctx st)
  = rowsOf insertAirportQuery st ++ [rec].
Proof.
  intros Hdb. unfold rowsOf. rewrite Hdb, List.filter_app, List.map_app.
  cbn [List.filter fst]. rewrite bool_decide_eq_true_2 by reflexivity.
  cbn [map snd]. do 2 f_equal. clear Hdb.
  induction (runwayEndRecords st) as [|r l IH]; [reflexivity|].
  cbn [map List.filter fst]. rewrite bool_decide_eq_false_2 by discriminate.
  exact IH.
Qed.

(** The center that [finishAirport] writes for an airport that is being
    written, when the position is valid after the fallback. *)
Lemma finishAirport_center st pos :
  writingAirport (flags st) = true ->
  ignoringAirport (flags st) = false ->
  airportPos (geo (findBoundingRect (bindAirportCounts ext ctx st))) = pos ->
  Geo.isValid pos = true ->
  exists rec,
    rowsOf insertAirportQuery (finishAirport ext ctx st)
    = rowsOf insertAirportQuery st ++ [rec]
    /\ rec !! ":lonx" = Some (QFloat (lonX pos))
    /\ rec !! ":laty" = Some (QFloat (latY pos)).
Proof.
  intros Hw Hi Hpos Hvalid. rewrite (finishAirport_writing st Hw Hi).
  set (st2 := findBoundingRect (bindAirportCounts ext ctx st)) in *.
  destruct (db_writeAirportRow ctx st2) as (rec & Hdb & Hrec).
  cbv zeta in Hrec. rewrite Hpos, Hvalid in Hrec.
  destruct Hrec as (Hlon & Hlat & _).
  exists rec. split; [|split; assumption].
  rewrite (rowsOf_same_db _ _ _ (db_reset _)),
    (rowsOf_airport_writeAirportRow st2 rec Hdb).
  f_equal. apply rowsOf_same_db. subst st2.
  now rewrite db_findBoundingRect, db_bindAirportCounts.
Qed.


End BoundingRect.


(** ** Runways *)

(** A normalized course lies in [0, 360) and differs from the course by a
    whole number of turns. *)
Lemma normalizeCourse_spec (c : Q) :
  (0 <= Geo.normalizeCourse c)%Q
  /\ (Geo.normalizeCourse c < 360)%Q
  /\ exists k : Z, (Geo.normalizeCourse c == c - 360 * inject_Z k)%Q.
Proof.
  unfold Geo.normalizeCourse.
  set (k := Qfloor (c / 360)).
  pose proof (Qfloor_le (c / 360)) as Hle. fold k in Hle.
  pose proof (Qlt_floor (c / 360)) as Hlt. fold k in Hlt.
  rewrite inject_Z_plus in Hlt.
  assert (Hc : (c == 360 * (c / 360))%Q) by (field; discriminate).
  pose proof (Qred_correct (c - 360 * inject_Z k)) as Hred.
  set (n := Qred (c - 360 * inject_Z k)) in *.
  set (x := (c / 360)%Q) in *. set (z := inject_Z k) in *.
  change (inject_Z 1) with 1%Q in Hlt.
  split; [|split].
  - lra.
  - lra.
  - exists k. exact Hred.
Qed.

Section Runway.

Variable ext : Externals.
Variable ctx : XpWriterContext.

Lemma write_runway line st :
  rowCodeOf line = LAND_RUNWAY \/ rowCodeOf line = WATER_RUNWAY ->
  write ext line ctx st
  = bindRunway ext line (rowCodeOf line) (finishStartupLocation (finishPavement st)).
Proof.
  intros [H|H]; cbv beta zeta delta [write]; rewrite H; reflexivity.
Qed.

Lemma runwayEndRecords_finishPavement st :
  runwayEndRecords (finishPavement st) = runwayEndRecords st.
Proof.
  cbv beta delta [finishPavement].
  destruct (ignoringAirport (flags st)); [reflexivity|cbv iota].
  destruct (_ || _); [|reflexivity].
  repeat let_step runwayEndRecords keep_ends. keep_ends.
Qed.

Lemma runwayEndRecords_finishStartupLocation st :
  runwayEndRecords (finishStartupLocation st) = runwayEndRecords st.
Proof.
  cbv beta delta [finishStartupLocation].
  destruct (writingStartLocation (flags st)); [cbv iota|reflexivity].
  repeat let_step runwayEndRecords keep_ends. keep_ends.
Qed.

Lemma runwayEndRecords_writeRunwayStart id name h pos st :
  runwayEndRecords (writeRunwayStart id name h pos st) = runwayEndRecords st.
Proof.
  cbv beta delta [writeRunwayStart]. repeat let_step runwayEndRecords keep_ends.
  keep_ends.
Qed.

(** The record that one end of a runway adds. *)
Lemma runwayEndRecords_appendRunwayEnd line code id name ty h pos i1 i2 i3 i4 i5 st :
  exists rec,
    runwayEndRecords (appendRunwayEnd line code id name ty h pos i1 i2 i3 i4 i5 st)
    = runwayEndRecords st ++ [rec]
    /\ rec !! ":name" = Some (QString name)
    /\ rec !! ":end_type" = Some (QString ty)
    /\ rec !! ":heading" = Some (QFloat h)
    /\ rec !! ":runway_end_id" = Some (QInt id).
Proof.
  unfold appendRunwayEnd.
  destruct (bool_decide _); [destruct (negb _)|]; xp_simpl;
    (eexists; split; [reflexivity|]); repeat split; by simplify_map_eq.
Qed.

(** The two ends that a runway row adds to the ends of the airport. *)
Lemma bindRunway_ends line st :
  ignoringAirport (flags st) = false ->
  rowCodeOf line = LAND_RUNWAY \/ rowCodeOf line = WATER_RUNWAY ->
  let h := angleDegTo ext (primaryPosOf line) (secondaryPosOf line) in
  exists recP recS,
    runwayEndRecords (bindRunway ext line (rowCodeOf line) st)
    = runwayEndRecords st ++ [recP; recS]
    /\ recP !! ":end_type" = Some (QString "P")
    /\ recP !! ":heading" = Some (QFloat h)
    /\ recS !! ":end_type" = Some (QString "S")
    /\ recS !! ":heading"
       = Some (QFloat (Geo.normalizeCourse (Geo.opposedCourseDeg h))).
Proof.
  intros Hi Hcode. unfold primaryPosOf, secondaryPosOf.
  cbv beta delta [bindRunway]. rewrite Hi. cbv iota.
  let_stepv runwayEndRecords (runwayEndRecords st) keep_ends.
  destruct Hcode as [Hc|Hc]; rewrite Hc; cbv beta iota.
  all: repeat let_stepv runwayEndRecords (runwayEndRecords st) keep_ends.
  all: rewrite !runwayEndRecords_writeRunwayStart; autorewrite with xp_runwayEndRecords.
  all: match goal with
       | |- context [appendRunwayEnd ?l ?c ?i ?n ?t ?h ?p ?a ?b ?d ?e ?f
                       (appendRunwayEnd ?l' ?c' ?i' ?n' ?t' ?h' ?p' ?a' ?b' ?d' ?e' ?f' ?s')] =>
           destruct (runwayEndRecords_appendRunwayEnd l' c' i' n' t' h' p' a' b' d' e' f' s')
             as (recP & HP & _ & HPty & HPh & _);
           destruct (runwayEndRecords_appendRunwayEnd l c i n t h p a b d e f
                       (appendRunwayEnd l' c' i' n' t' h' p' a' b' d' e' f' s'))
             as (recS & HS & _ & HSty & HSh & _);
           exists recP, recS; rewrite HS, HP, <- app_assoc;
           split; [f_equal|repeat split; assumption]
       end.
  all: keep_ends.
Qed.

(** C7.  Every runway row, land or water, adds a primary end whose heading
    is the bearing from the primary to the secondary position, and a
    secondary end whose heading is that bearing plus 180 degrees normalized
    to [0, 360): it lies in that range and differs from the sum by a whole
    number of turns. *)
Theorem secondary_heading_is_opposite line st :
  ignoringAirport (flags st) = false ->
  rowCodeOf line = LAND_RUNWAY \/ rowCodeOf line = WATER_RUNWAY ->
  let h := angleDegTo ext (primaryPosOf line) (secondaryPosOf line) in
  exists recP recS h2,
    runwayEndRecords (write ext line ctx st) = runwayEndRecords st ++ [recP; recS]
    /\ recP !! ":end_type" = Some (QString "P")
    /\ recP !! ":heading" = Some (QFloat h)
    /\ recS !! ":end_type" = Some (QString "S")
    /\ recS !! ":heading" = Some (QFloat h2)
    /\ (0 <= h2)%Q /\ (h2 < 360)%Q
    /\ exists k : Z, (h2 == h + 180 - 360 * inject_Z k)%Q.
Proof.
  intros Hi Hcode h. rewrite (write_runway line st Hcode).
  set (st0 := finishStartupLocation (finishPavement st)).
  assert (Hi0 : ignoringAirport (flags st0) = false).
  { subst st0. now rewrite finishStartupLocation_ignoring, finishPavement_ignoring. }
  destruct (bindRunway_ends line st0 Hi0 Hcode) as (recP & recS & He & HP & HPh & HS & HSh).
  exists recP, recS, (Geo.normalizeCourse (Geo.opposedCourseDeg h)).
  rewrite He. subst st0.
  rewrite runwayEndRecords_finishStartupLocation, runwayEndRecords_finishPavement.
  destruct (normalizeCourse_spec (Geo.opposedCourseDeg h)) as (H0 & H360 & k & Hk).
  repeat split; try assumption.
  exists k. exact Hk.
Qed.

End Runway.

(** ** Approach indicators *)

Section Vasi.

Variable ext : Externals.
Variable ctx : XpWriterContext.

Lemma write_LIGHTING_OBJECT line st :
  rowCodeOf line = LIGHTING_OBJECT ->
  write ext line ctx st = bindVasi line (finishStartupLocation (finishPavement st)).
Proof. intros H. cbv beta zeta delta [write]. rewrite H. reflexivity. Qed.

(** A lighting object that finds no runway end changes no record, counts
    nothing and is reported. *)
Lemma bindVasi_no_candidate line st :
  ignoringAirport (flags st) = false ->
  ignoredIndicator (toApproachIndicator (QStr.toInt (at_ line v.TYPE))) = false ->
  (if negb (QStr.isEmpty (QStr.value line v.RUNWAY))
   then findEndByName (QStr.value line v.RUNWAY) (runwayEndRecords st) 0
   else None) = None ->
  findEndByAngle (QStr.toFloat (at_ line v.ORIENT)) (runwayEndRecords st) 0 None
    (Geo.FLOAT_MAX / 4)%Q = None ->
  runwayEndRecords (bindVasi line st) = runwayEndRecords st
  /\ counts (bindVasi line st) = counts st
  /\ exists w, warnings (bindVasi line st) = w ++ ["No runway end for VASI found"].
Proof.
  intros Hi Hty Hname Hangle. unfold bindVasi. rewrite Hi.
  assert (He : runwayEndRecords (checkWriting "bindVasi" st) = runwayEndRecords st)
    by apply runwayEndRecords_checkWriting.
  set (st1 := checkWriting "bindVasi" st) in *.
  assert (Hc : counts st1 = counts st) by apply counts_checkWriting.
  clearbody st1. cbv zeta. rewrite Hty, He, Hname, Hangle.
  xp_simpl. repeat split; try assumption. eexists. reflexivity.
Qed.


End Vasi.

(** ** The theorems on the sample session *)

Lemma gate_stand_width_D_loses_type_witness :
  let opened := write Sample.ext Sample.gate Sample.context Sample.opened in
  let flushed :=
    finishStartupLocation
      (write Sample.ext Sample.gateMetadata Sample.context opened) in
  exists rec,
    rowsOf insertParkingQuery flushed = rowsOf insertParkingQuery opened ++ [rec]
    /\ rec !! ":radius" = Some (QFloat 80)
    /\ rec !! ":type"
       = Some (QString (typeAfterMetadata
                          (QStr.value Sample.gateMetadata sm.OPTYPE) "M"))
    /\ rec !! ":type" <> Some (QString "GM").
Proof.
  apply (gate_stand_width_D_loses_type Sample.ext Sample.context Sample.gate
           Sample.gateMetadata Sample.opened); vm_compute; reflexivity.
Defined.


Lemma polygon_one_boundary_one_hole_witness :
  let started := write Sample.ext Sample.pavement Sample.context Sample.opened in
  let flushed :=
    finishPavement
      (writeAll Sample.ext
         (([Sample.node1; Sample.node2] ++ [Sample.nodeClose])
          ++ ([Sample.hole1] ++ [Sample.holeClose]))
         Sample.context started) in
  exists rec boundary hole,
    rowsOf insertApronQuery flushed = rowsOf insertApronQuery started ++ [rec]
    /\ rec !! ":geometry" = Some (QByteArray (XpGeometry.mk boundary [hole]))
    /\ boundary = map nodeOf ([Sample.node1; Sample.node2] ++ [Sample.nodeClose])
    /\ hole = map nodeOf ([Sample.hole1] ++ [Sample.holeClose])
    /\ length boundary = 3%nat
    /\ length hole = 2%nat.
Proof.
  apply (polygon_one_boundary_one_hole Sample.ext Sample.context Sample.pavement
           [Sample.node1; Sample.node2] Sample.nodeClose
           [Sample.hole1] Sample.holeClose Sample.opened).
  - vm_compute; reflexivity.
  - vm_compute; reflexivity.
  - constructor; [left; vm_compute; reflexivity|].
    constructor; [right; vm_compute; reflexivity|]. constructor.
  - left; vm_compute; reflexivity.
  - constructor; [left; vm_compute; reflexivity|]. constructor.
  - right; vm_compute; reflexivity.
Defined.

Lemma compareGate_table_witness :
  compareGate "GH" "GM" = 1 /\ compareGate "GM" "GH" = -1 /\
  compareGate "GS" "GM" = -1 /\ compareGate "GM" "GS" = 1 /\
  compareGate "GM" "G" = 0.
Proof.
  destruct compareGate_table as (_ & _ & _ & Hgh & Hgs & Hother).
  pose proof (Hgh "GM" ltac:(discriminate)) as [a b].
  pose proof (Hgs "GM" ltac:(discriminate) ltac:(discriminate)) as [c d].
  refine (conj a (conj b (conj c (conj d _)))).
  apply Hother; discriminate.
Defined.

Lemma widthCode_table_witness :
  widthCodeRadiusSize "G" = (10%Q, "S")
  /\ boundValue insertParkingQuery ":radius"
       (writeStartupLocationMetadata Sample.gateMetadata
          (write Sample.ext Sample.gate Sample.context Sample.opened))
     = Some (QFloat (fst (widthCodeRadiusSize
                            (QStr.value Sample.gateMetadata sm.WIDTH)))).
Proof.
  destruct widthCode_table as (_ & _ & _ & _ & _ & _ & _ & Hother & Hmeta).
  split.
  - apply Hother. cbn. intuition discriminate.
  - apply Hmeta. vm_compute; reflexivity.
Defined.

Lemma secondary_heading_is_opposite_witness :
  let h := angleDegTo Sample.ext (primaryPosOf Sample.runway)
             (secondaryPosOf Sample.runway) in
  exists recP recS h2,
    runwayEndRecords (write Sample.ext Sample.runway Sample.context Sample.opened)
    = runwayEndRecords Sample.opened ++ [recP; recS]
    /\ recP !! ":end_type" = Some (QString "P")
    /\ recP !! ":heading" = Some (QFloat h)
    /\ recS !! ":end_type" = Some (QString "S")
    /\ recS !! ":heading" = Some (QFloat h2)
    /\ (0 <= h2)%Q /\ (h2 < 360)%Q
    /\ exists k : Z, (h2 == h + 180 - 360 * inject_Z k)%Q.
Proof.
  apply (secondary_heading_is_opposite Sample.ext Sample.context Sample.runway
           Sample.opened).
  - vm_compute; reflexivity.
  - left; vm_compute; reflexivity.
Defined.

Lemma duplicate_airport_is_ignored_witness :
  let st0 := finish Sample.ext Sample.context Sample.opened in
  let st1 := write Sample.ext Sample.header Sample.context Sample.opened in
  let st2 := writeAll Sample.ext [Sample.runway; Sample.gate] Sample.context st1 in
  ignoringAirport (flags st1) = true
  /\ writingAirport (flags st1) = false
  /\ (exists rec,
        rowsOf insertAirportFileQuery st1
        = rowsOf insertAirportFileQuery Sample.opened ++ [rec]
        /\ rec !! ":ident" = Some (QString (QStr.value Sample.header ap.ICAO)))
  /\ st2 = st1
  /\ rowsOf insertAirportQuery (finish Sample.ext Sample.context st2)
     = rowsOf insertAirportQuery st1
  /\ rowsOf insertAirportQuery (finishAirport Sample.ext Sample.context st2)
     = rowsOf insertAirportQuery st1
  /\ st1 = bindAirport Sample.ext Sample.header (rowCodeOf Sample.header)
             Sample.context st0
  /\ (exists rec,
        db st1 = db st0 ++ [(insertAirportFileQuery, rec)]
        /\ rec !! ":ident" = Some (QString (QStr.value Sample.header ap.ICAO)))
  /\ rowsOf insertAirportQuery st1 = rowsOf insertAirportQuery st0
  /\ airportIndex st1 = airportIndex Sample.opened
  /\ (if writingAirport (flags Sample.opened)
         && negb (ignoringAirport (flags Sample.opened))
      then exists prev,
             rowsOf insertAirportQuery (finish Sample.ext Sample.context st2)
             = rowsOf insertAirportQuery Sample.opened ++ [prev]
      else rowsOf insertAirportQuery (finish Sample.ext Sample.context st2)
           = rowsOf insertAirportQuery Sample.opened).
Proof.
  apply (duplicate_airport_is_ignored Sample.ext Sample.context Sample.header
           [Sample.runway; Sample.gate] Sample.opened).
  - left; vm_compute; reflexivity.
  - eexists; vm_compute; reflexivity.
  - repeat constructor; intros [H|[H|H]]; vm_compute in H; discriminate.
Defined.

Lemma jetfuel_name_sets_both_flags_witness :
  let st' := write Sample.ext Sample.fuelStand Sample.context Sample.opened in
  boundValue insertAirportQuery ":has_jetfuel" st' = Some (QInt 1)
  /\ boundValue insertAirportQuery ":has_avgas" st' = Some (QInt 1)
  /\ boundValue insertParkingQuery ":type" st' = Some (QString "FUEL").
Proof.
  apply (jetfuel_name_sets_both_flags Sample.ext Sample.context Sample.fuelStand
           Sample.opened); vm_compute; reflexivity.
Defined.


(** ** Helpers of the BGL reader *)

Lemma land_pow2 (b k : Z) :
  0 <= k -> Z.land b (2 ^ k) = if Z.testbit b k then 2 ^ k else 0.
Proof.
  intros Hk. apply Z.bits_inj'. intros n Hn.
  rewrite Z.land_spec, Z.pow2_bits_eqb by assumption.
  destruct (Z.eqb_spec k n) as [->|Hne].
  - destruct (Z.testbit b n); [now rewrite Z.pow2_bits_true|now rewrite Z.bits_0].
  - rewrite andb_false_r.
    destruct (Z.testbit b k); [rewrite Z.pow2_bits_false by assumption|rewrite Z.bits_0];
      reflexivity.
Qed.

(** X1.  [enumToStr] never gives one of the names "NONE" and "NO": it gives
    the empty string for them and the name of [func] for every other one, and
    applying it a second time changes nothing. *)
Theorem enumToStr_hides_none {TYPE : Type} (func : TYPE -> string) (t : TYPE) :
  util.enumToStr func t <> "NONE"
  /\ util.enumToStr func t <> "NO"
  /\ (func t = "NONE" \/ func t = "NO" -> util.enumToStr func t = "")
  /\ (func t <> "NONE" -> func t <> "NO" -> util.enumToStr func t = func t)
  /\ util.enumToStr (util.enumToStr func) t = util.enumToStr func t.
Proof.
  unfold util.enumToStr. cbv zeta.
  destruct (String.eqb_spec (func t) "NONE") as [E1|N1];
    [|destruct (String.eqb_spec (func t) "NO") as [E2|N2]]; cbn [orb].
  - repeat split; try discriminate; try reflexivity. intros H; now destruct H.
  - repeat split; try discriminate; try reflexivity. intros _ H; now destruct H.
  - rewrite (eqb_false _ _ N1), (eqb_false _ _ N2). cbn [orb].
    repeat split; try assumption; try reflexivity. intros [H|H]; contradiction.
Qed.

(** X2.  Setting a flag with [|] makes [isFlagSet] true, clearing it with
    [& ~] makes [isFlagNotSet] true, the empty flag is both set and not set
    in every bit field, and no other flag is both. *)
Theorem flag_set_and_not_set (bitfield flag : Z) :
  util.isFlagSet (Z.lor bitfield flag) flag = true
  /\ util.isFlagNotSet (Z.land bitfield (Z.lnot flag)) flag = true
  /\ util.isFlagSet bitfield 0 = true
  /\ util.isFlagNotSet bitfield 0 = true
  /\ (util.isFlagSet bitfield flag = true ->
      util.isFlagNotSet bitfield flag = true -> flag = 0).
Proof.
  unfold util.isFlagSet, util.isFlagNotSet.
  split; [|split; [|split; [|split]]].
  - apply Z.eqb_eq. apply Z.bits_inj'. intros n _.
    rewrite Z.land_spec, Z.lor_spec. now destruct (Z.testbit bitfield n), (Z.testbit flag n).
  - apply Z.eqb_eq. apply Z.bits_inj'. intros n Hn.
    rewrite !Z.land_spec, Z.lnot_spec, Z.bits_0 by assumption.
    now destruct (Z.testbit bitfield n), (Z.testbit flag n).
  - now rewrite Z.land_0_r.
  - now rewrite Z.land_0_r.
  - intros Hs Hn. apply Z.eqb_eq in Hs, Hn. congruence.
Qed.

(** X3.  For a flag of one bit exactly one of [isFlagSet] and [isFlagNotSet]
    holds, and [isFlagSet] reads that bit. *)
Theorem single_bit_flag_is_set_or_not (bitfield k : Z) :
  0 <= k ->
  util.isFlagSet bitfield (2 ^ k) = Z.testbit bitfield k
  /\ util.isFlagNotSet bitfield (2 ^ k) = negb (util.isFlagSet bitfield (2 ^ k)).
Proof.
  intros Hk. unfold util.isFlagSet, util.isFlagNotSet. rewrite land_pow2 by assumption.
  assert (Hpos : 0 < 2 ^ k) by (apply Z.pow_pos_nonneg; lia).
  destruct (Z.testbit bitfield k).
  - rewrite Z.eqb_refl. split; [reflexivity|].
    destruct (Z.eqb_spec (2 ^ k) 0); [lia|reflexivity].
  - destruct (Z.eqb_spec 0 (2 ^ k)); [lia|]. now split.
Qed.

Lemma single_bit_flag_is_set_or_not_witness :
  util.isFlagSet 12 (2 ^ 3) = Z.testbit 12 3
  /\ util.isFlagNotSet 12 (2 ^ 3) = negb (util.isFlagSet 12 (2 ^ 3)).
Proof. apply (single_bit_flag_is_set_or_not 12 3). lia. Defined.

Lemma toIntChecked_Some z r :
  util.toIntChecked z = Some r ->
  r = z /\ QStr.INT_MIN <= z <= QStr.INT_MAX.
Proof.
  unfold util.toIntChecked.
  destruct (Z.leb_spec QStr.INT_MIN z) as [Hlo|Hlo],
           (Z.leb_spec z QStr.INT_MAX) as [Hhi|Hhi]; cbn [andb];
    intros E; inversion E; lia.
Qed.

(** X4.  With a precision other than 0, [meterToFeet] has a result for the
    precisions 1 to 9 only (a negative one divides by 0, a larger one leaves
    the range of [int]), and the result is a multiple of that power of
    ten. *)
Theorem meterToFeet_rounds_to_precision (meters : Q) (precision r : Z) :
  precision <> 0 ->
  util.meterToFeet meters precision = Some r ->
  1 <= precision <= 9 /\ (10 ^ precision | r).
Proof.
  intros Hp. unfold util.meterToFeet, util.powerOfTen.
  destruct (Z.eqb_spec precision 0) as [|_]; [contradiction|].
  destruct (Z.ltb_spec precision 0) as [Hneg|Hpos].
  - cbn. discriminate.
  - destruct (util.toIntChecked (10 ^ precision)) as [factor|] eqn:Ef; [|discriminate].
    apply toIntChecked_Some in Ef as [-> Hrange].
    destruct (Z.eqb_spec (10 ^ precision) 0) as [|_]; [discriminate|].
    destruct (util.toIntChecked (util.round _)) as [r0|]; [|discriminate].
    intros Hr. apply toIntChecked_Some in Hr as [-> _].
    split; [|now exists r0].
    split; [lia|].
    destruct (Z.le_gt_cases precision 9) as [|Hbig]; [assumption|exfalso].
    assert (10 ^ 10 <= 10 ^ precision) by (apply Z.pow_le_mono_r; lia).
    unfold QStr.INT_MAX in Hrange. lia.
Qed.

Lemma meterToFeet_rounds_to_precision_witness :
  1 <= 1 <= 9 /\ (10 ^ 1 | 330).
Proof.
  apply (meterToFeet_rounds_to_precision 100 1 330); [lia|vm_compute; reflexivity].
Defined.

(** ** Options of the BGL reader *)

(** X5.  The names of the object types: reading back the name of a type
    gives the type; a string is the name of the type it is read as exactly
    when it is read as a type other than [UNKNOWN], or is "UNKNWON", the name
    the code gives to [UNKNOWN]. *)
Theorem object_type_names_round_trip :
  (forall t, type.stringToBglObjectType (type.bglObjectTypeToString t) = t)
  /\ (forall s,
        type.bglObjectTypeToString (type.stringToBglObjectType s) = s
        <-> type.stringToBglObjectType s <> type.UNKNOWN \/ s = "UNKNWON")
  /\ type.bglObjectTypeToString (type.stringToBglObjectType "UNKNOWN") <> "UNKNOWN".
Proof.
  split; [|split].
  - now intros [].
  - intros s. unfold type.stringToBglObjectType.
    repeat lazymatch goal with
    | |- context [String.eqb s ?c] =>
        destruct (String.eqb_spec s c) as [->|?];
          [split; [intros _; left; discriminate|reflexivity]|]
    end.
    cbn. split; [intros <-; now right|intros [H|H]; [congruence|now subst]].
  - discriminate.
Qed.

Section Filters.

Variable exactMatch : QRegExp -> string -> bool.

Lemma existsb_false_iff {A : Type} (f : A -> bool) (l : list A) :
  existsb f l = false <-> forall x, In x l -> f x = false.
Proof.
  split.
  - intros H x Hx. destruct (f x) eqn:E; [|reflexivity].
    assert (existsb f l = true) by (apply existsb_exists; eauto). congruence.
  - intros H. destruct (existsb f l) eqn:E; [|reflexivity].
    apply existsb_exists in E as (x & Hx & Hfx). rewrite (H x Hx) in Hfx. discriminate.
Qed.

(** X6.  A string passes [includeObject] exactly when no pattern of the
    exclude list matches it and the include list is empty or has a pattern
    that matches it. *)
Theorem includeObject_iff (filterStr : string) (inc excl : list QRegExp) :
  includeObject exactMatch filterStr inc excl = true
  <-> (inc = [] \/ exists r, In r inc /\ exactMatch r filterStr = true)
      /\ (forall r, In r excl -> exactMatch r filterStr = false).
Proof.
  unfold includeObject. cbv zeta.
  destruct inc as [|i inc], excl as [|e excl]; cbn [isEmptyList andb].
  - split; [intros _; split; [now left|intros r []]|reflexivity].
  - rewrite negb_true_iff, existsb_false_iff. split; [intros H; split; [now left|exact H]|tauto].
  - rewrite existsb_exists. split.
    + intros H. split; [now right|intros r []].
    + intros [[H|H] _]; [discriminate|exact H].
  - rewrite andb_true_iff, negb_true_iff, existsb_false_iff, existsb_exists. split.
    + intros [H1 H2]. split; [now right|exact H2].
    + intros [[H|H] H2]; [discriminate|now split].
Qed.

(** X7.  A path is matched with a separator in front and one behind: both
    are added to a path that has neither (the empty path becomes two
    separators), and a path that has them is matched as it is. *)
Theorem includePath_adds_separators (separator : ascii) (filename : string)
    (o : BglReaderOptions) :
  let wrapped := String separator (filename +:+ String separator EmptyString) in
  (startsWithChar filename separator = false ->
   endsWith filename separator = false ->
   includePath exactMatch separator filename o
   = includeObject exactMatch wrapped (pathFiltersInc o) (pathFiltersExcl o))
  /\ includePath exactMatch separator wrapped o
     = includeObject exactMatch wrapped (pathFiltersInc o) (pathFiltersExcl o)
  /\ includePath exactMatch separator EmptyString o
     = includeObject exactMatch (String separator (String separator EmptyString))
         (pathFiltersInc o) (pathFiltersExcl o).
Proof.
  intros wrapped. split; [|split].
  - intros Hs He. unfold includePath. cbv zeta. rewrite Hs, He. reflexivity.
  - unfold includePath. cbv zeta.
    assert (He : forall s a, endsWith (String a (s +:+ String separator EmptyString)) separator = true).
    { induction s as [|b s IH]; intros a.
      - cbn. apply Ascii.eqb_refl.
      - change (endsWith (String b (s +:+ String separator EmptyString)) separator = true).
        apply IH. }
    subst wrapped. rewrite He. cbn [startsWithChar]. rewrite Ascii.eqb_refl. reflexivity.
  - reflexivity.
Qed.

End Filters.

Lemma includePath_adds_separators_witness :
  includePath (fun _ _ => true) "/" "scenery" noFilters
  = includeObject (fun _ _ => true) "/scenery/" [] [].
Proof.
  apply (includePath_adds_separators (fun _ _ => true) "/" "scenery" noFilters);
    reflexivity.
Defined.


Lemma setFilter_fold (filters : list string) (l : list QRegExp) :
  setFilter filters l
  = l ++ map mkQRegExp
           (List.filter (fun f => negb (QStr.isEmpty f)) (map QStr.trimmed filters)).
Proof.
  unfold setFilter. revert l. induction filters as [|f filters IH]; intros l.
  - cbn. now rewrite app_nil_r.
  - cbn [fold_left map List.filter]. rewrite IH.
    destruct (negb (QStr.isEmpty (QStr.trimmed f))); [|reflexivity].
    now rewrite <- app_assoc.
Qed.

(** X8.  [setFilter] keeps the patterns that the list has and appends, in
    their order, the trimmed strings that are not blank; setting a filter
    twice therefore gives the patterns of both calls. *)
Theorem setFilter_appends_trimmed_patterns (f1 f2 : list string) (l : list QRegExp) :
  setFilter f1 l
  = l ++ map mkQRegExp
           (List.filter (fun f => negb (QStr.isEmpty f)) (map QStr.trimmed f1))
  /\ setFilter f2 (setFilter f1 l) = setFilter (f1 ++ f2) l
  /\ forall o, setAirportIcaoFilterInc f2 (setAirportIcaoFilterInc f1 o)
               = setAirportIcaoFilterInc (f1 ++ f2) o.
Proof.
  split; [apply setFilter_fold|].
  assert (H : forall l0, setFilter f2 (setFilter f1 l0) = setFilter (f1 ++ f2) l0).
  { intros l0. unfold setFilter. now rewrite fold_left_app. }
  split; [apply H|].
  intros o. unfold setAirportIcaoFilterInc. cbn. now rewrite H.
Qed.

(** X9.  Filters that are blank strings only are no filters: after them
    every airport is still included. *)
Theorem blank_filters_include_everything (exactMatch : QRegExp -> string -> bool)
    (filters : list string) (icao : string) :
  Forall (fun f => QStr.trimmed f = "") filters ->
  includeAirport exactMatch icao
    (setAirportIcaoFilterExcl filters (setAirportIcaoFilterInc filters noFilters))
  = true.
Proof.
  intros Hblank.
  assert (H : setFilter filters [] = []).
  { rewrite setFilter_fold. cbn [app].
    induction Hblank as [|f fs Hf _ IH]; [reflexivity|].
    cbn [map List.filter]. rewrite Hf. cbn. exact IH. }
  unfold includeAirport, setAirportIcaoFilterExcl, setAirportIcaoFilterInc, noFilters.
  cbn. rewrite H. reflexivity.
Qed.

Lemma blank_filters_include_everything_witness :
  includeAirport (fun _ _ => false) "KSEA"
    (setAirportIcaoFilterExcl ["  "; ""]
       (setAirportIcaoFilterInc ["  "; ""] noFilters))
  = true.
Proof.
  apply (blank_filters_include_everything (fun _ _ => false) ["  "; ""] "KSEA").
  repeat constructor.
Defined.

Lemma elem_of_setBglObjectFilter (filters : list string)
    (S : gset type.BglObjectType) (t : type.BglObjectType) :
  t ∈ setBglObjectFilter filters S
  <-> t ∈ S \/ exists f, In f filters /\ f <> "" /\ type.stringToBglObjectType f = t.
Proof.
  unfold setBglObjectFilter. revert S.
  induction filters as [|f filters IH]; intros S; cbn [fold_left].
  - split; [now left|intros [H|(f & [] & _)]; exact H].
  - rewrite IH. destruct f as [|a f].
    + cbn [QStr.isEmpty negb]. split.
      * intros [H|(g & Hg & Hne & Ht)]; [now left|right; exists g; cbn; tauto].
      * intros [H|(g & [<-|Hg] & Hne & Ht)]; [now left|congruence|right; eauto].
    + cbn [QStr.isEmpty negb]. rewrite elem_of_union, elem_of_singleton. split.
      * intros [[->|H]|(g & Hg & Hne & Ht)].
        -- right. exists (String a f). cbn. split; [now left|split; [discriminate|reflexivity]].
        -- now left.
        -- right. exists g. cbn. tauto.
      * intros [H|(g & [<-|Hg] & Hne & Ht)]; [tauto|left; left; now symmetry|right; eauto].
Qed.

Lemma includeBglObject_core (t : type.BglObjectType) (o : BglReaderOptions) :
  includeBglObject t o = true
  <-> (bglObjectTypeFiltersInc o = ∅ \/ t ∈ bglObjectTypeFiltersInc o)
      /\ t ∉ bglObjectTypeFiltersExcl o.
Proof.
  unfold includeBglObject. cbv zeta.
  destruct (decide (bglObjectTypeFiltersInc o = ∅)) as [Ei|Ni],
           (decide (bglObjectTypeFiltersExcl o = ∅)) as [Ee|Ne];
    repeat first [rewrite (bool_decide_eq_true_2 _ Ei) | rewrite (bool_decide_eq_true_2 _ Ee)
                 | rewrite (bool_decide_eq_false_2 _ Ni) | rewrite (bool_decide_eq_false_2 _ Ne)];
    cbn [andb].
  - split; [intros _|reflexivity]. split; [now left|]. rewrite Ee. set_solver.
  - rewrite negb_true_iff, bool_decide_eq_false. tauto.
  - rewrite bool_decide_eq_true. split.
    + intros H. split; [now right|]. rewrite Ee. set_solver.
    + intros [[H|H] _]; [contradiction|exact H].
  - rewrite andb_true_iff, negb_true_iff, bool_decide_eq_true, bool_decide_eq_false. tauto.
Qed.

(** X10.  An object type passes [includeBglObject] exactly when it is not in
    the exclude set and the include set is empty or holds it; an excluded
    type never passes, whatever the include set. *)
Theorem includeBglObject_iff (t : type.BglObjectType) (o : BglReaderOptions) :
  (includeBglObject t o = true
   <-> (bglObjectTypeFiltersInc o = ∅ \/ t ∈ bglObjectTypeFiltersInc o)
       /\ t ∉ bglObjectTypeFiltersExcl o)
  /\ (t ∈ bglObjectTypeFiltersExcl o -> includeBglObject t o = false).
Proof.
  split; [apply includeBglObject_core|].
  intros Hex. destruct (includeBglObject t o) eqn:E; [|reflexivity].
  apply includeBglObject_core in E as [_ Hn]. contradiction.
Qed.

(** X11.  The names of an object type filter are taken as they are, neither
    trimmed nor upper-cased, and a name that is no name of an object type
    stands for [UNKNOWN]: an include filter of such names only lets the
    objects of type [UNKNOWN] pass and no other. *)
Theorem unknown_type_names_filter_to_UNKNOWN (filters : list string)
    (t : type.BglObjectType) :
  filters <> [] ->
  Forall (fun f => f <> "" /\ type.stringToBglObjectType f = type.UNKNOWN) filters ->
  includeBglObject t (setBglObjectFilterInc filters noFilters)
  = bool_decide (t = type.UNKNOWN).
Proof.
  intros Hne Hall.
  assert (Hin : forall u, u ∈ setBglObjectFilter filters ∅ <-> u = type.UNKNOWN).
  { intros u. rewrite elem_of_setBglObjectFilter. split.
    - intros [H|(f & Hf & _ & Ht)]; [set_solver|].
      rewrite List.Forall_forall in Hall. destruct (Hall f Hf) as [_ E]. congruence.
    - intros ->. right. destruct filters as [|f fs]; [contradiction|].
      exists f. inversion Hall as [|? ? [H1 H2] _]; subst. cbn. tauto. }
  apply eq_true_iff_eq. rewrite includeBglObject_core. 
  rewrite bool_decide_eq_true. cbn. rewrite Hin. set_solver.
Qed.

Lemma unknown_type_names_filter_to_UNKNOWN_witness :
  includeBglObject type.AIRPORT (setBglObjectFilterInc ["airport"; " RUNWAY"] noFilters)
  = bool_decide (type.AIRPORT = type.UNKNOWN).
Proof.
  apply (unknown_type_names_filter_to_UNKNOWN ["airport"; " RUNWAY"] type.AIRPORT).
  - discriminate.
  - repeat constructor; discriminate.
Defined.

(** ** Further properties of the writer *)

(** X12.  The comparator of ramps: "RGAL" over everything else, "RGAS" under
    everything else, and no order among the other codes. *)
Theorem compareRamp_table :
  (forall x, compareRamp x x = 0) /\
  (forall y, y <> "RGAL" -> compareRamp "RGAL" y = 1 /\ compareRamp y "RGAL" = -1) /\
  (forall y, y <> "RGAL" -> y <> "RGAS" ->
     compareRamp "RGAS" y = -1 /\ compareRamp y "RGAS" = 1) /\
  (forall x y, x <> "RGAL" -> x <> "RGAS" -> y <> "RGAL" -> y <> "RGAS" ->
     compareRamp x y = 0).
Proof.
  split; [|split; [|split]].
  - intros x. unfold compareRamp. now rewrite String.eqb_refl.
  - intros y Hy. unfold compareRamp.
    rewrite (eqb_false "RGAL" y), (eqb_false y "RGAL") by congruence.
    split; reflexivity.
  - intros y Hh Hs. unfold compareRamp.
    rewrite (eqb_false "RGAS" y), (eqb_false y "RGAS"), (eqb_false y "RGAL") by congruence.
    split; reflexivity.
  - intros x y Hx1 Hx2 Hy1 Hy2. unfold compareRamp.
    rewrite (eqb_false x "RGAL"), (eqb_false y "RGAL"), (eqb_false x "RGAS"),
      (eqb_false y "RGAS") by assumption.
    now destruct (String.eqb x y).
Qed.

Lemma compareRamp_table_witness :
  compareRamp "RGAL" "RGAM" = 1 /\ compareRamp "RGAM" "RGAL" = -1 /\
  compareRamp "RGAS" "RGAM" = -1 /\ compareRamp "RGAM" "RGAS" = 1 /\
  compareRamp "RGAM" "RGA" = 0.
Proof.
  destruct compareRamp_table as (_ & Hl & Hs & Hother).
  pose proof (Hl "RGAM" ltac:(discriminate)) as [a b].
  pose proof (Hs "RGAM" ltac:(discriminate) ltac:(discriminate)) as [c d].
  refine (conj a (conj b (conj c (conj d _)))).
  apply Hother; discriminate.
Defined.

(** The rank that a comparator of three classes compares by. *)
Lemma compare_by_rank (top bottom : string) (cmp : string -> string -> Z) :
  top <> bottom ->
  (forall a b, cmp a b =
     if negb (String.eqb a b) then
       if String.eqb a top then 1
       else if String.eqb b top then -1
       else if String.eqb a bottom then -1
       else if String.eqb b bottom then 1
       else 0
     else 0) ->
  exists rank : string -> Z, forall a b, cmp a b = Z.sgn (rank a - rank b).
Proof.
  intros Hne Hcmp.
  exists (fun s => if String.eqb s top then 2 else if String.eqb s bottom then 0 else 1).
  intros a b. rewrite Hcmp.
  destruct (String.eqb_spec a b) as [->|Hab]; cbn [negb].
  - now rewrite Z.sub_diag.
  - destruct (String.eqb_spec a top) as [->|Hat].
    + rewrite (eqb_false b top) by congruence. now destruct (String.eqb b bottom).
    + destruct (String.eqb_spec b top) as [->|Hbt].
      * now destruct (String.eqb a bottom).
      * destruct (String.eqb_spec a bottom) as [->|Hab'].
        -- now rewrite (eqb_false b bottom) by congruence.
        -- now destruct (String.eqb b bottom).
Qed.

(** X13.  Both comparators are antisymmetric and transitive: they order the
    codes as three classes, the largest code, the others, the smallest
    code. *)
Theorem comparators_are_weak_orders :
  (forall a b, compareGate a b = - compareGate b a)
  /\ (forall a b c, 0 <= compareGate a b -> 0 <= compareGate b c ->
                    0 <= compareGate a c)
  /\ (forall a b, compareRamp a b = - compareRamp b a)
  /\ (forall a b c, 0 <= compareRamp a b -> 0 <= compareRamp b c ->
                    0 <= compareRamp a c).
Proof.
  destruct (compare_by_rank "GH" "GS" compareGate) as [rg Hg];
    [discriminate|reflexivity|].
  destruct (compare_by_rank "RGAL" "RGAS" compareRamp) as [rr Hr];
    [discriminate|reflexivity|].
  repeat split; intros; rewrite ?Hg, ?Hr in *; lia.
Qed.

(** X14.  The classes of surfaces: no surface is in two of the classes hard,
    soft and water, and a surface is in none of them exactly when its code is
    none of the known ones, which is also when it has no name in the
    database. *)
Theorem surface_classes_are_disjoint (s : Surface) :
  isSurfaceHard s && isSurfaceSoft s = false
  /\ isSurfaceHard s && isSurfaceWater s = false
  /\ isSurfaceSoft s && isSurfaceWater s = false
  /\ (isSurfaceHard s || isSurfaceSoft s || isSurfaceWater s = false
      <-> exists code, s = OTHER_SURFACE code)
  /\ (surfaceToDb s = "" <-> exists code, s = OTHER_SURFACE code)
  /\ (isSurfaceWater s = true <-> surfaceToDb s = "W").
Proof.
  destruct s; cbn; repeat split; try discriminate; try reflexivity; eauto;
    intros [code H]; discriminate.
Qed.


Section More.

Variable ext : Externals.
Variable ctx : XpWriterContext.

(** X16.  A row with a code that the writer has no use for, or does not
    know, flushes the polygon and the stand in progress and does nothing
    else. *)
Theorem unused_rows_only_flush line st :
  In (rowCodeOf line)
     [LINEAR_FEATURE_HEADER; AIRPORT_BOUNDARY_HEADER; NODE_TERMINATING_A_STRING;
      NODE_WITH_BEZIER_CONTROL_POINT_NO_CLOSE; AIRPORT_LIGHT_BEACON; WINDSOCK;
      TAXIWAY_SIGN; AIRPORT_TRAFFIC_FLOW; TRAFFIC_FLOW_WIND_RULE;
      TRAFFIC_FLOW_MINIMUM_CEILING_RULE; TRAFFIC_FLOW_MINIMUM_VISIBILITY_RULE;
      TRAFFIC_FLOW_TIME_RULE; RUNWAY_IN_USE; VFR_TRAFFIC_PATTERN;
      HEADER_INDICATING_THAT_TAXI_ROUTE_NETWORK_DATA_FOLLOWS;
      TAXI_ROUTE_EDGE_ACTIVE_ZONE; NO_ROWCODE]
  \/ (exists code, rowCodeOf line = OTHER_ROWCODE code) ->
  write ext line ctx st = finishStartupLocation (finishPavement st).
Proof.
  intros H. cbv beta zeta delta [write].
  assert (Hcode : exists c, rowCodeOf line = c
            /\ negb (containsCode c [PAVEMENT_HEADER; NODE; NODE_AND_CONTROL_POINT;
                                     NODE_CLOSE; NODE_AND_CONTROL_POINT_CLOSE]) = true
            /\ negb (bool_decide (c = RAMP_START_METADATA)) = true
            /\ forall (A : Type) (x y : A),
                 match c with
                 | LINEAR_FEATURE_HEADER | AIRPORT_BOUNDARY_HEADER
                 | NODE_TERMINATING_A_STRING
                 | NODE_WITH_BEZIER_CONTROL_POINT_NO_CLOSE | AIRPORT_LIGHT_BEACON
                 | WINDSOCK | TAXIWAY_SIGN | AIRPORT_TRAFFIC_FLOW
                 | TRAFFIC_FLOW_WIND_RULE | TRAFFIC_FLOW_MINIMUM_CEILING_RULE
                 | TRAFFIC_FLOW_MINIMUM_VISIBILITY_RULE | TRAFFIC_FLOW_TIME_RULE
                 | RUNWAY_IN_USE | VFR_TRAFFIC_PATTERN
                 | HEADER_INDICATING_THAT_TAXI_ROUTE_NETWORK_DATA_FOLLOWS
                 | TAXI_ROUTE_EDGE_ACTIVE_ZONE | NO_ROWCODE | OTHER_ROWCODE _ => x
                 | _ => y
                 end = x).
  { destruct H as [H|[code H]].
    - cbn [In] in H.
      repeat (destruct H as [H|H];
              [exists (rowCodeOf line); rewrite <- H;
               split; [reflexivity|split; [vm_compute; reflexivity|
                 split; [vm_compute; reflexivity|reflexivity]]]|]).
      contradiction.
    - exists (OTHER_ROWCODE code). rewrite H.
      split; [reflexivity|split; [vm_compute; reflexivity|
        split; [vm_compute; reflexivity|reflexivity]]]. }
  destruct Hcode as (c & -> & -> & -> & Hc).
  destruct c; first [reflexivity | specialize (Hc bool true false); discriminate Hc].
Qed.

Lemma reset_idempotent s : reset (reset s) = reset s.
Proof. destruct s. vm_compute. reflexivity. Qed.

Lemma finish_of_reset st :
  flags st = noFlags -> reset st = st -> finish ext ctx st = st.
Proof.
  intros Hf Hr. unfold finish.
  assert (Ep : finishPavement st = st) by (unfold finishPavement; now rewrite Hf).
  assert (Es : finishStartupLocation st = st)
    by (unfold finishStartupLocation; now rewrite Hf).
  rewrite Ep, Es, finishAirport_not_writing by (now rewrite Hf).
  exact Hr.
Qed.

(** X17.  The end of a file is final: a second [finish] changes nothing,
    and so does the [finishAirport] that the header of a next airport would
    start with. *)
Theorem finish_is_idempotent st :
  finish ext ctx (finish ext ctx st) = finish ext ctx st
  /\ finishAirport ext ctx (finish ext ctx st) = finish ext ctx st
  /\ flags (finish ext ctx st) = noFlags
  /\ runwayEndRecords (finish ext ctx st) = [].
Proof.
  assert (Hshape : exists s, finish ext ctx st = reset s).
  { unfold finish. cbv beta zeta delta [finishAirport].
    exists (if writingAirport (flags (finishStartupLocation (finishPavement st)))
               && negb (ignoringAirport (flags (finishStartupLocation (finishPavement st))))
            then writeAirportRow ctx
                   (findBoundingRect
                      (bindAirportCounts ext ctx (finishStartupLocation (finishPavement st))))
            else finishStartupLocation (finishPavement st)).
    exact eq_refl. }
  destruct Hshape as [s Hs]. rewrite Hs. clear Hs.
  assert (Hrr : reset (reset s) = reset s) by apply reset_idempotent.
  assert (Hf : flags (reset s) = noFlags) by apply flags_reset.
  split; [|split; [|split]].
  - apply finish_of_reset; [exact Hf|exact Hrr].
  - rewrite finishAirport_not_writing by (now rewrite Hf). exact Hrr.
  - exact Hf.
  - destruct s. vm_compute. reflexivity.
Qed.

End More.

(** *** The properties on the sample session *)

Lemma unused_rows_only_flush_witness :
  write Sample.ext Sample.windsock Sample.context Sample.opened
  = finishStartupLocation (finishPavement Sample.opened).
Proof.
  apply (unused_rows_only_flush Sample.ext Sample.context Sample.windsock
           Sample.opened).
  left. change (rowCodeOf Sample.windsock) with WINDSOCK. cbn [In].
  do 5 right. left. reflexivity.
Defined.


(** ** The rows that the binders write *)

Lemma rowsOf_app (q : SqlQueryId) (st st' : XpAirportWriter) l :
  db st' = db st ++ l ->
  rowsOf q st'
  = rowsOf q st ++ map snd (List.filter (fun e => bool_decide (fst e = q)) l).
Proof.
  intros H. unfold rowsOf. rewrite H, List.filter_app, List.map_app. reflexivity.
Qed.

Lemma rowsOf_snoc (q : SqlQueryId) (st st' : XpAirportWriter) m :
  db st' = db st ++ [(q, m)] -> rowsOf q st' = rowsOf q st ++ [m].
Proof.
  intros H. rewrite (rowsOf_app q st st' _ H). cbn [List.filter fst].
  rewrite bool_decide_eq_true_2 by reflexivity. reflexivity.
Qed.

Lemma startsWith_G (t : string) :
  QStr.startsWith t "G" = true ->
  QStr.startsWith t "RGA" = false
  /\ QStr.startsWith t "RC" = false
  /\ QStr.startsWith t "RMC" = false.
Proof.
  unfold QStr.startsWith. destruct t as [|a t]; [discriminate|].
  cbn [String.prefix]. destruct (ascii_dec "G" a) as [<-|]; [|discriminate].
  intros _. destruct (ascii_dec "R" "G") as [E|_]; [discriminate E|].
  repeat split.
Qed.

(** X18.  The flush of a stand whose type starts with "G" counts a gate and
    keeps, as the largest gate of the airport, the smaller one of the gate
    kept so far and the new one: "GS" is never replaced, "GH" is replaced by
    every gate, and another gate is replaced by "GS" only.  The airport is
    bound to the gate that is kept. *)
Theorem finishStartupLocation_keeps_smaller_gate st t :
  writingStartLocation (flags st) = true ->
  boundValue insertParkingQuery ":type" st = Some (QString t) ->
  QStr.startsWith t "G" = true ->
  let st' := finishStartupLocation st in
  numParkingGate (counts st') = numParkingGate (counts st) + 1
  /\ (largestParkingGate st = "" -> largestParkingGate st' = t)
  /\ (largestParkingGate st = "GS" -> largestParkingGate st' = "GS")
  /\ (largestParkingGate st = "GH" -> largestParkingGate st' = t)
  /\ (largestParkingGate st <> "" -> largestParkingGate st <> "GH" -> t <> "GS" ->
      largestParkingGate st' = largestParkingGate st)
  /\ (t = "GS" -> largestParkingGate st' = "GS")
  /\ boundValue insertAirportQuery ":largest_parking_gate" st'
     = Some (QString (largestParkingGate st')).
Proof.
  intros Hw Ht HG st'. subst st'.
  destruct (startsWith_G t HG) as (Hrga & Hrc & Hrmc).
  cbv beta delta [finishStartupLocation]. rewrite Hw. cbv zeta.
  rewrite Ht. cbn [toString]. rewrite HG, Hrga, Hrc, Hrmc. cbv iota.
  assert (Hcmp : QStr.isEmpty (largestParkingGate st)
                 || (0 <? compareGate (largestParkingGate st) t)
                 = (String.eqb (largestParkingGate st) "")
                   || negb (String.eqb (largestParkingGate st) t)
                      && (String.eqb (largestParkingGate st) "GH"
                          || negb (String.eqb t "GH")
                             && negb (String.eqb (largestParkingGate st) "GS")
                             && String.eqb t "GS")).
  { unfold compareGate. destruct (largestParkingGate st) as [|a l]; [reflexivity|].
    cbn [QStr.isEmpty orb].
    destruct (String.eqb (String a l) t); [reflexivity|]. cbn [negb andb].
    destruct (String.eqb (String a l) "GH"); [reflexivity|].
    destruct (String.eqb t "GH"); [reflexivity|].
    destruct (String.eqb (String a l) "GS"); [reflexivity|].
    destruct (String.eqb t "GS"); reflexivity. }
  change (largestParkingGate
            (upd_counts (fun c => set_numParkingGate (numParkingGate c + 1) c) st))
    with (largestParkingGate st).
  rewrite Hcmp. clear Hcmp.
  destruct (String.eqb_spec (largestParkingGate st) "") as [E0|N0];
    [|destruct (String.eqb_spec (largestParkingGate st) t) as [Et|Nt];
      [|destruct (String.eqb_spec (largestParkingGate st) "GH") as [Eh|Nh];
        [|destruct (String.eqb_spec t "GH") as [Eth|Nth];
          [|destruct (String.eqb_spec (largestParkingGate st) "GS") as [Es|Ns];
            [|destruct (String.eqb_spec t "GS") as [Ets|Nts]]]]]];
    cbn [orb negb andb]; xp_simpl; try rewrite Et;
    repeat split; intros;
    first [ reflexivity | congruence | by simplify_map_eq
          | subst; discriminate | subst; congruence ].
Qed.

Lemma finishStartupLocation_keeps_smaller_gate_witness :
  let st := SampleMore.gateOpen in
  let st' := finishStartupLocation st in
  numParkingGate (counts st') = numParkingGate (counts st) + 1
  /\ largestParkingGate st = "GH"
  /\ largestParkingGate st' = "GS".
Proof.
  cbv zeta.
  destruct (finishStartupLocation_keeps_smaller_gate SampleMore.gateOpen "GS")
    as (Hn & _ & _ & Hh & _); [vm_compute; reflexivity..|].
  split; [exact Hn|]. split; [reflexivity|]. apply Hh. reflexivity.
Defined.

Lemma startsWith_RGA (t : string) :
  QStr.startsWith t "RGA" = true ->
  QStr.startsWith t "G" = false
  /\ QStr.startsWith t "RC" = false
  /\ QStr.startsWith t "RMC" = false.
Proof.
  unfold QStr.startsWith. destruct t as [|a [|b t]]; try discriminate;
    cbn [String.prefix];
    (destruct (ascii_dec "R" a) as [<-|]; [|discriminate]);
    [discriminate|].
  destruct (ascii_dec "G" b) as [<-|]; [|discriminate]. intros _.
  destruct (ascii_dec "G" "R") as [E|_]; [discriminate E|].
  destruct (ascii_dec "C" "G") as [E|_]; [discriminate E|].
  destruct (ascii_dec "M" "G") as [E|_]; [discriminate E|].
  repeat split.
Qed.

(** X19.  The flush of a stand whose type starts with "RGA" counts a ramp
    of the general aviation and keeps, as the largest ramp of the airport,
    the first one, unless a small one ("RGAS") follows: "RGAS" is never
    replaced, and the ramps "RGAM" and "RGAH" that the metadata rows make
    are replaced by "RGAS" only. *)
Theorem finishStartupLocation_keeps_smaller_ramp st t :
  writingStartLocation (flags st) = true ->
  boundValue insertParkingQuery ":type" st = Some (QString t) ->
  QStr.startsWith t "RGA" = true ->
  let st' := finishStartupLocation st in
  numParkingGaRamp (counts st') = numParkingGaRamp (counts st) + 1
  /\ numParkingGate (counts st') = numParkingGate (counts st)
  /\ (largestParkingRamp st = "" -> largestParkingRamp st' = t)
  /\ (largestParkingRamp st = "RGAS" -> largestParkingRamp st' = "RGAS")
  /\ (largestParkingRamp st = "RGAL" -> largestParkingRamp st' = t)
  /\ (largestParkingRamp st <> "" -> largestParkingRamp st <> "RGAL" -> t <> "RGAS" ->
      largestParkingRamp st' = largestParkingRamp st)
  /\ (t = "RGAS" -> largestParkingRamp st' = "RGAS")
  /\ boundValue insertAirportQuery ":largest_parking_ramp" st'
     = Some (QString (largestParkingRamp st')).
Proof.
  intros Hw Ht HR st'. subst st'.
  destruct (startsWith_RGA t HR) as (Hg & Hrc & Hrmc).
  cbv beta delta [finishStartupLocation]. rewrite Hw. cbv zeta.
  rewrite Ht. cbn [toString]. rewrite HR, Hg, Hrc, Hrmc. cbv iota.
  assert (Hcmp : QStr.isEmpty (largestParkingRamp st)
                 || (0 <? compareRamp (largestParkingRamp st) t)
                 = (String.eqb (largestParkingRamp st) "")
                   || negb (String.eqb (largestParkingRamp st) t)
                      && (String.eqb (largestParkingRamp st) "RGAL"
                          || negb (String.eqb t "RGAL")
                             && negb (String.eqb (largestParkingRamp st) "RGAS")
                             && String.eqb t "RGAS")).
  { unfold compareRamp. destruct (largestParkingRamp st) as [|a l]; [reflexivity|].
    cbn [QStr.isEmpty orb].
    destruct (String.eqb (String a l) t); [reflexivity|]. cbn [negb andb].
    destruct (String.eqb (String a l) "RGAL"); [reflexivity|].
    destruct (String.eqb t "RGAL"); [reflexivity|].
    destruct (String.eqb (String a l) "RGAS"); [reflexivity|].
    destruct (String.eqb t "RGAS"); reflexivity. }
  change (largestParkingRamp
            (upd_counts (fun c => set_numParkingGaRamp (numParkingGaRamp c + 1) c) st))
    with (largestParkingRamp st).
  rewrite Hcmp. clear Hcmp.
  destruct (String.eqb_spec (largestParkingRamp st) "") as [E0|N0];
    [|destruct (String.eqb_spec (largestParkingRamp st) t) as [Et|Nt];
      [|destruct (String.eqb_spec (largestParkingRamp st) "RGAL") as [Eh|Nh];
        [|destruct (String.eqb_spec t "RGAL") as [Eth|Nth];
          [|destruct (String.eqb_spec (largestParkingRamp st) "RGAS") as [Es|Ns];
            [|destruct (String.eqb_spec t "RGAS") as [Ets|Nts]]]]]];
    cbn [orb negb andb]; xp_simpl; try rewrite Et;
    repeat split; intros;
    first [ reflexivity | congruence | by simplify_map_eq
          | subst; discriminate | subst; congruence ].
Qed.

Lemma finishStartupLocation_keeps_smaller_ramp_witness :
  let st := SampleMore.rampOpen in
  let st' := finishStartupLocation st in
  numParkingGaRamp (counts st') = numParkingGaRamp (counts st) + 1
  /\ largestParkingRamp st = ""
  /\ largestParkingRamp st' = "RGAM".
Proof.
  cbv zeta.
  destruct (finishStartupLocation_keeps_smaller_ramp SampleMore.rampOpen "RGAM")
    as (Hn & _ & He & _); [vm_compute; reflexivity..|].
  split; [exact Hn|]. split; [vm_compute; reflexivity|]. apply He.
  vm_compute; reflexivity.
Defined.

Section Rows.

Variable ext : Externals.
Variable ctx : XpWriterContext.

(** The flush of a stand whose type is none of the counted ones. *)
Lemma finishStartupLocation_uncounted st t :
  writingStartLocation (flags st) = true ->
  boundValue insertParkingQuery ":type" st = Some (QString t) ->
  QStr.startsWith t "G" = false -> QStr.startsWith t "RGA" = false ->
  QStr.startsWith t "RC" = false -> QStr.startsWith t "RMC" = false ->
  finishStartupLocation st
  = upd_flags (set_writingStartLocation false)
      (clearBoundValues insertParkingQuery
         (exec insertParkingQuery
            (bindValue insertAirportQuery ":largest_parking_gate"
               (QString (largestParkingGate st))
               (bindValue insertAirportQuery ":largest_parking_ramp"
                  (QString (largestParkingRamp st)) st)))).
Proof.
  intros Hw Ht H1 H2 H3 H4.
  cbv beta delta [finishStartupLocation]. rewrite Hw. cbv zeta.
  rewrite Ht. cbn [toString]. rewrite H1, H2, H3, H4. reflexivity.
Qed.

(** X20.  A startup location of the old format (the row code
    [AEROPLANE_STARTUP_LOCATION]) is a stand of its own: it is written at once, with the empty type, radius 50 and
    number -1, counts as a parking but as no gate and no ramp, and leaves no
    stand open. *)
Theorem writeStartup_writes_untyped_stand line st :
  ignoringAirport (flags st) = false ->
  let st' := writeStartup line st in
  (exists rec,
     rowsOf insertParkingQuery st' = rowsOf insertParkingQuery st ++ [rec]
     /\ rec !! ":type" = Some (QString "")
     /\ rec !! ":radius" = Some (QFloat 50)
     /\ rec !! ":number" = Some (QInt (-1))
     /\ rec !! ":name" = Some (QString (mid line s.NAME))
     /\ rec !! ":parking_id" = Some (QInt (curParkingId (ids st) + 1)))
  /\ writingStartLocation (flags st') = false
  /\ boundValues insertParkingQuery (queries st') = ∅
  /\ numParking (counts st') = numParking (counts st) + 1
  /\ numParkingGate (counts st') = numParkingGate (counts st)
  /\ numParkingGaRamp (counts st') = numParkingGaRamp (counts st)
  /\ largestParkingGate st' = largestParkingGate st
  /\ largestParkingRamp st' = largestParkingRamp st.
Proof.
  intros Hign st'. subst st'.
  cbv beta delta [writeStartup]. rewrite Hign. cbv iota zeta.
  unfold checkWriting.
  destruct (negb (writingAirport (flags st)));
    (rewrite (finishStartupLocation_uncounted _ "");
     [|xp_simpl; try reflexivity; by simplify_map_eq..]);
    (split; [eexists; split; [eapply rowsOf_snoc; xp_simpl; reflexivity|]|]);
    xp_simpl; repeat split; by simplify_map_eq.
Qed.

(** X21.  A taxi edge that is no runway edge writes one taxi path of type
    "T" with the next identifier.  Its name is the simplified name of the
    row, and is empty for a row without a name and for the names that stand
    for no name ("TAXIWAY", "twy", "*" and the like, in any case of the
    letters).  An edge of type "runway" writes and counts nothing. *)
Theorem taxi_edge_row line st :
  ignoringAirport (flags st) = false ->
  let st' := bindTaxiEdge line st in
  let name := QStr.simplified (at_ line te.NAME) in
  (at_ line te.TYPE = "runway" ->
   db st' = db st /\ counts st' = counts st /\ ids st' = ids st /\ geo st' = geo st)
  /\ (at_ line te.TYPE <> "runway" ->
      exists rec,
        rowsOf insertTaxiQuery st' = rowsOf insertTaxiQuery st ++ [rec]
        /\ numTaxiPath (counts st') = numTaxiPath (counts st) + 1
        /\ rec !! ":taxi_path_id" = Some (QInt (curTaxiPathId (ids st) + 1))
        /\ rec !! ":type" = Some (QString "T")
        /\ ((length line <= te.NAME)%nat -> rec !! ":name" = Some (QString ""))
        /\ (In (QStr.toUpper name) garbageNames -> rec !! ":name" = Some (QString ""))
        /\ ((te.NAME < length line)%nat -> ~ In (QStr.toUpper name) garbageNames ->
            rec !! ":name" = Some (QString name))).
Proof.
  intros Hign st' name. subst st'.
  cbv beta delta [bindTaxiEdge]. rewrite Hign. cbv iota.
  split.
  - intros Hrw. rewrite Hrw. cbn [String.eqb]. change (String.eqb "runway" "runway") with true.
    cbv zeta iota. unfold checkWriting. destruct (negb _); xp_simpl; repeat split.
  - intros Hrw. cbv zeta. rewrite (eqb_false _ _ Hrw).
    set (nm := if (te.NAME <? length line)%nat
               then QStr.simplified (at_ line te.NAME) else "").
    set (nm' := if existsb (String.eqb (QStr.toUpper nm)) garbageNames then "" else nm).
    assert (Hnm : ((length line <= te.NAME)%nat -> nm' = "")
                  /\ (In (QStr.toUpper name) garbageNames -> nm' = "")
                  /\ ((te.NAME < length line)%nat ->
                      ~ In (QStr.toUpper name) garbageNames -> nm' = name)).
    { subst nm' nm. fold name.
      destruct (Nat.ltb_spec te.NAME (length line)) as [Hlt|Hge].
      - destruct (existsb _ garbageNames) eqn:Ex.
        + split; [reflexivity|split; [reflexivity|]]. intros _ Hn. exfalso. apply Hn.
          apply existsb_exists in Ex as (g & Hg & Heq). apply String.eqb_eq in Heq.
          now rewrite Heq.
        + split; [lia|split; [|reflexivity]]. intros Hin.
          assert (existsb (String.eqb (QStr.toUpper name)) garbageNames = true).
          { apply existsb_exists. exists (QStr.toUpper name). split; [exact Hin|].
            apply String.eqb_refl. }
          congruence.
      - split; [reflexivity|split; [reflexivity|lia]]. }
    clearbody nm'. clear nm.
    unfold checkWriting.
    destruct (negb (writingAirport (flags st))).
    all: eexists; split; [eapply rowsOf_snoc; xp_simpl; reflexivity|].
    all: xp_simpl.
    all: split; [reflexivity|split; [by simplify_map_eq|split; [by simplify_map_eq|]]].
    all: lazymatch goal with
         | |- context [?m !! ":name"] =>
             assert (Hlk : m !! ":name" = Some (QString nm')) by (by simplify_map_eq);
             rewrite Hlk; clear Hlk
         end.
    all: destruct Hnm as (H1 & H2 & H3).
    all: split; [intros H; now rewrite (H1 H)|
           split; [intros H; now rewrite (H2 H)|intros Ha Hb; now rewrite (H3 Ha Hb)]].
Qed.

End Rows.

Section MoreRows.

Variable ext : Externals.
Variable ctx : XpWriterContext.

Lemma bindTaxiNode_node line st :
  ignoringAirport (flags st) = false ->
  let st' := bindTaxiNode line st in
  ignoringAirport (flags st') = false
  /\ db st' = db st
  /\ taxiNodes st'
     = <[QStr.toInt (at_ line tn.ID) := posAt line tn.LONX tn.LATY]> (taxiNodes st).
Proof.
  intros Hign. cbv zeta. cbv beta delta [bindTaxiNode]. rewrite Hign. cbv iota zeta.
  unfold checkWriting.
  destruct (negb (writingAirport (flags st))); xp_simpl; repeat split; exact Hign.
Qed.

(** X22.  The taxi path of an edge starts at the position that the node row
    with the identifier of its start has bound, and ends at the position of
    the node row of its end: the nodes are looked up by their number, the
    later one of two rows with the same number counting. *)
Theorem taxi_edge_uses_bound_nodes node1 node2 edge st :
  ignoringAirport (flags st) = false ->
  at_ edge te.TYPE <> "runway" ->
  QStr.toInt (at_ edge te.START) = QStr.toInt (at_ node1 tn.ID) ->
  QStr.toInt (at_ edge te.END) = QStr.toInt (at_ node2 tn.ID) ->
  let st' := bindTaxiEdge edge (bindTaxiNode node2 (bindTaxiNode node1 st)) in
  exists rec,
    rowsOf insertTaxiQuery st' = rowsOf insertTaxiQuery st ++ [rec]
    /\ rec !! ":end_lonx" = Some (QFloat (QStr.toFloat (at_ node2 tn.LONX)))
    /\ rec !! ":end_laty" = Some (QFloat (QStr.toFloat (at_ node2 tn.LATY)))
    /\ (QStr.toInt (at_ node1 tn.ID) <> QStr.toInt (at_ node2 tn.ID) ->
        rec !! ":start_lonx" = Some (QFloat (QStr.toFloat (at_ node1 tn.LONX)))
        /\ rec !! ":start_laty" = Some (QFloat (QStr.toFloat (at_ node1 tn.LATY))))
    /\ (QStr.toInt (at_ node1 tn.ID) = QStr.toInt (at_ node2 tn.ID) ->
        rec !! ":start_lonx" = rec !! ":end_lonx"
        /\ rec !! ":start_laty" = rec !! ":end_laty").
Proof.
  intros Hign Hrw Hs He st'. subst st'.
  set (k1 := QStr.toInt (at_ node1 tn.ID)) in *.
  set (k2 := QStr.toInt (at_ node2 tn.ID)) in *.
  set (stn := bindTaxiNode node2 (bindTaxiNode node1 st)).
  assert (Hn : ignoringAirport (flags stn) = false
               /\ db stn = db st
               /\ taxiNodes stn
                  = <[k2 := posAt node2 tn.LONX tn.LATY]>
                      (<[k1 := posAt node1 tn.LONX tn.LATY]> (taxiNodes st))).
  { subst stn.
    destruct (bindTaxiNode_node node1 st Hign) as (Hi1 & Hd1 & Hn1).
    destruct (bindTaxiNode_node node2 _ Hi1) as (Hi2 & Hd2 & Hn2).
    split; [exact Hi2|]. split; [now rewrite Hd2|]. now rewrite Hn2, Hn1. }
  destruct Hn as (Hign' & Hdb & Hnodes). clearbody stn.
  assert (Hend : taxiNodeValue (QStr.toInt (at_ edge te.END)) stn
                 = posAt node2 tn.LONX tn.LATY).
  { unfold taxiNodeValue. rewrite He, Hnodes, lookup_insert_eq. reflexivity. }
  assert (Hstart : taxiNodeValue (QStr.toInt (at_ edge te.START)) stn
                   = if bool_decide (k1 = k2) then posAt node2 tn.LONX tn.LATY
                     else posAt node1 tn.LONX tn.LATY).
  { unfold taxiNodeValue. rewrite Hs, Hnodes.
    destruct (decide (k1 = k2)) as [E|N].
    - rewrite (bool_decide_eq_true_2 _ E), E, lookup_insert_eq. reflexivity.
    - rewrite (bool_decide_eq_false_2 _ N), lookup_insert_ne by congruence.
      rewrite lookup_insert_eq. reflexivity. }
  cbv beta delta [bindTaxiEdge]. rewrite Hign'. cbv iota zeta.
  rewrite (eqb_false _ _ Hrw).
  assert (Hcw : forall w, taxiNodeValue w (checkWriting "bindTaxiEdge" stn)
                          = taxiNodeValue w stn).
  { intros w. unfold checkWriting, taxiNodeValue. now destruct (negb _). }
  rewrite !Hcw, Hend, Hstart. clear Hcw Hend Hstart Hnodes.
  unfold checkWriting.
  destruct (negb (writingAirport (flags stn))).
  all: eexists; split;
         [rewrite <- (rowsOf_same_db insertTaxiQuery stn st Hdb);
          eapply rowsOf_snoc; xp_simpl; reflexivity|].
  all: xp_simpl.
  all: split; [by simplify_map_eq|split; [by simplify_map_eq|]].
  all: split;
         [intros N; rewrite (bool_decide_eq_false_2 _ N); split; by simplify_map_eq
         |intros E; rewrite (bool_decide_eq_true_2 _ E); split; by simplify_map_eq].
Qed.

(** X23.  Every frequency row, whichever of the seven row codes of
    frequencies it has, writes one row of the table [com] with the next
    identifier.  The type of a weather frequency is "ATIS", "AWOS" or
    "ASOS" by its name, "ATIS" when the name names none of them and whenever
    it names "atis"; the other row codes have each their type. *)
Theorem writeCom_types line code st :
  ignoringAirport (flags st) = false ->
  In code [COM_WEATHER; COM_UNICOM; COM_CLEARANCE; COM_GROUND; COM_TOWER;
           COM_APPROACH; COM_DEPARTURE] ->
  let st' := writeCom line code st in
  let name := mid line com.NAME in
  exists rec,
    rowsOf insertComQuery st' = rowsOf insertComQuery st ++ [rec]
    /\ numCom (counts st') = numCom (counts st) + 1
    /\ rec !! ":com_id" = Some (QInt (curComId (ids st) + 1))
    /\ rec !! ":name" = Some (QString name)
    /\ (code = COM_WEATHER ->
        (QStr.containsCI name "atis" = true -> rec !! ":type" = Some (QString "ATIS"))
        /\ (QStr.containsCI name "atis" = false -> QStr.containsCI name "awos" = true ->
            rec !! ":type" = Some (QString "AWOS"))
        /\ (QStr.containsCI name "atis" = false -> QStr.containsCI name "awos" = false ->
            QStr.containsCI name "asos" = true -> rec !! ":type" = Some (QString "ASOS"))
        /\ (QStr.containsCI name "awos" = false -> QStr.containsCI name "asos" = false ->
            rec !! ":type" = Some (QString "ATIS")))
    /\ (code = COM_UNICOM -> rec !! ":type" = Some (QString "UC"))
    /\ (code = COM_TOWER -> rec !! ":type" = Some (QString "T"))
    /\ (code = COM_CLEARANCE -> rec !! ":type" = Some (QString "C"))
    /\ (code = COM_GROUND -> rec !! ":type" = Some (QString "G"))
    /\ (code = COM_APPROACH -> rec !! ":type" = Some (QString "A"))
    /\ (code = COM_DEPARTURE -> rec !! ":type" = Some (QString "D")).
Proof.
  intros Hign Hcode st' name. subst st'.
  cbv beta delta [writeCom]. rewrite Hign. cbv iota zeta. fold name.
  unfold checkWriting. cbn [In] in Hcode.
  destruct (negb (writingAirport (flags st))).
  all: repeat (destruct Hcode as [<-|Hcode]); [..|contradiction].
  all: try (destruct (QStr.containsCI name "atis") eqn:Hatis;
            [|destruct (QStr.containsCI name "awos") eqn:Hawos;
              [|destruct (QStr.containsCI name "asos") eqn:Hasos]]).
  all: eexists; split; [eapply rowsOf_snoc; xp_simpl; reflexivity|].
  all: xp_simpl.
  all: split; [reflexivity|split; [by simplify_map_eq|split; [by simplify_map_eq|]]].
  all: repeat split; intros; first [discriminate | by simplify_map_eq].
Qed.

(** X24.  A truck row writes nothing and binds nothing but the two fuel
    flags of the airport, which it sets and never takes back: "fuel_props"
    in the fifth field gives avgas, "fuel_liners" and "fuel_jets" give jet
    fuel. *)
Theorem bindFuel_only_raises_fuel_flags line st :
  let st' := bindFuel line st in
  db st' = db st
  /\ counts st' = counts st
  /\ (forall q k, q <> insertAirportQuery \/ (k <> ":has_avgas" /\ k <> ":has_jetfuel") ->
        boundValue q k st' = boundValue q k st)
  /\ (forall k, boundValue insertAirportQuery k st = Some (QInt 1) ->
        boundValue insertAirportQuery k st' = Some (QInt 1))
  /\ (ignoringAirport (flags st) = false ->
      (QStr.contains (at_ line 4) "fuel_props" = true ->
       boundValue insertAirportQuery ":has_avgas" st' = Some (QInt 1))
      /\ (QStr.contains (at_ line 4) "fuel_liners" = true
          \/ QStr.contains (at_ line 4) "fuel_jets" = true ->
          boundValue insertAirportQuery ":has_jetfuel" st' = Some (QInt 1))).
Proof.
  cbv zeta. cbv beta delta [bindFuel].
  destruct (ignoringAirport (flags st));
    [repeat split; intros; first [reflexivity | assumption | discriminate]|].
  cbv iota zeta. unfold checkWriting.
  destruct (negb (writingAirport (flags st)));
    destruct (QStr.contains (at_ line 4) "fuel_props");
    destruct (QStr.contains (at_ line 4) "fuel_liners");
    destruct (QStr.contains (at_ line 4) "fuel_jets");
    cbn [orb]; xp_simpl.
  all: split; [reflexivity|split; [reflexivity|]].
  all: split; [intros q k Hqk; destruct q; xp_simpl; try reflexivity;
               destruct Hqk as [Hq|[Hk1 Hk2]];
               first [contradiction | by simplify_map_eq]|].
  all: split; [intros k Hk;
               repeat (lazymatch goal with
                       | |- <[?k0 := _]> _ !! k = _ =>
                           destruct (decide (k0 = k)) as [<-|];
                             [by simplify_map_eq|rewrite lookup_insert_ne by assumption]
                       end); exact Hk|].
  all: intros _; split; [intros H|intros [H|H]];
         first [discriminate H | by simplify_map_eq].
Qed.

End MoreRows.

Section Integrity.

Variable ext : Externals.
Variable ctx : XpWriterContext.

(** X25.  A helipad row writes one start position and one helipad that
    refers to it: both carry the next start identifier.  The start has no
    runway end, the type "H" and the next helipad number of the airport,
    which is also its name, in two digits. *)
Theorem helipad_refers_to_its_start line st :
  ignoringAirport (flags st) = false ->
  let st' := writeHelipad line st in
  exists start pad,
    rowsOf insertStartQuery st' = rowsOf insertStartQuery st ++ [start]
    /\ rowsOf insertHelipadQuery st' = rowsOf insertHelipadQuery st ++ [pad]
    /\ start !! ":start_id" = Some (QInt (curStartId (ids st) + 1))
    /\ pad !! ":start_id" = Some (QInt (curStartId (ids st) + 1))
    /\ pad !! ":helipad_id" = Some (QInt (curHelipadId (ids st) + 1))
    /\ start !! ":airport_id" = pad !! ":airport_id"
    /\ start !! ":runway_end_id" = Some QNull
    /\ start !! ":type" = Some (QString "H")
    /\ start !! ":number" = Some (QInt (curHelipadStartNumber (ids st) + 1))
    /\ start !! ":runway_name"
       = Some (QString (QStr.arg2 (curHelipadStartNumber (ids st) + 1)))
    /\ numStart (counts st') = numStart (counts st) + 1
    /\ numHelipad (counts st') = numHelipad (counts st) + 1.
Proof.
  intros Hign st'. subst st'.
  cbv beta delta [writeHelipad]. rewrite Hign. cbv iota.
  set (stw := checkWriting "writeHelipad" st).
  assert (Hw : db stw = db st /\ counts stw = counts st /\ ids stw = ids st).
  { subst stw. unfold checkWriting. destruct (negb _); repeat split. }
  destruct Hw as (Hdb & Hc & Hi).
  rewrite <- (rowsOf_same_db insertStartQuery stw st Hdb),
          <- (rowsOf_same_db insertHelipadQuery stw st Hdb), <- Hc, <- Hi.
  clearbody stw. cbv zeta.
  eexists; eexists.
  split; [erewrite rowsOf_app by (xp_simpl; rewrite <- app_assoc; reflexivity);
          cbn [List.filter fst map snd app];
          rewrite bool_decide_eq_true_2 by reflexivity;
          rewrite bool_decide_eq_false_2 by discriminate; reflexivity|].
  split; [erewrite rowsOf_app by (xp_simpl; rewrite <- app_assoc; reflexivity);
          cbn [List.filter fst map snd app];
          rewrite bool_decide_eq_false_2 by discriminate;
          rewrite bool_decide_eq_true_2 by reflexivity; reflexivity|].
  xp_simpl; repeat split; by simplify_map_eq.
Qed.

(** X26.  A metadata row writes nothing.  Its key is read in any case of
    the letters: "city" and "country" bind the rest of the row to the
    airport, every key that starts with "region" binds it as the region
    unless it is empty, and the two keys of the datum set one coordinate of
    the datum each and leave the other one. *)
Theorem bindMetadata_keys line st :
  ignoringAirport (flags st) = false ->
  let st' := bindMetadata line st in
  let key := QStr.toLower (at_ line m.KEY) in
  let value := mid line m.VALUE in
  db st' = db st
  /\ counts st' = counts st
  /\ (key = "city" ->
      boundValue insertAirportQuery ":city" st' = Some (QString value)
      /\ geo st' = geo st)
  /\ (key = "country" ->
      boundValue insertAirportQuery ":country" st' = Some (QString value)
      /\ geo st' = geo st)
  /\ (QStr.startsWith key "region" = true -> value <> "" ->
      boundValue insertAirportQuery ":region" st' = Some (QString value))
  /\ (QStr.startsWith key "region" = true -> value = "" ->
      queries st' = queries st /\ geo st' = geo st)
  /\ (key = "datum_lat" -> almostNotEqual (QStr.toFloat value) 0 = true ->
      airportDatumPos (geo st')
      = mkPos (lonX (airportDatumPos (geo st))) (QStr.toFloat value)
      /\ queries st' = queries st)
  /\ (key = "datum_lon" -> almostNotEqual (QStr.toFloat value) 0 = true ->
      airportDatumPos (geo st')
      = mkPos (QStr.toFloat value) (latY (airportDatumPos (geo st)))
      /\ queries st' = queries st)
  /\ ((key = "datum_lat" \/ key = "datum_lon") ->
      almostNotEqual (QStr.toFloat value) 0 = false ->
      queries st' = queries st /\ geo st' = geo st).
Proof.
  intros Hign st' key value. subst st'.
  cbv beta delta [bindMetadata]. rewrite Hign. cbv iota zeta. fold key value.
  set (stw := checkWriting "bindMetadata" st).
  assert (Hw : db stw = db st /\ counts stw = counts st /\ queries stw = queries st
               /\ geo stw = geo st).
  { subst stw. unfold checkWriting. destruct (negb _); repeat split. }
  destruct Hw as (Hdb & Hc & Hq & Hg). clearbody stw.
  assert (Hempty : forall s0, QStr.isEmpty s0 = true <-> s0 = "").
  { intros s0. destruct s0; split; try reflexivity; discriminate. }
  destruct (String.eqb_spec key "city") as [Ecity|Ncity].
  { xp_simpl. rewrite Ecity.
    repeat split; intros; try discriminate; try assumption;
      first [by simplify_map_eq | (exfalso; intuition discriminate) | idtac].
    all: try (rewrite Hq; by simplify_map_eq). }
  destruct (String.eqb_spec key "country") as [Ecountry|Ncountry].
  { xp_simpl. rewrite Ecountry.
    repeat split; intros; try discriminate; try assumption;
      first [by simplify_map_eq | (exfalso; intuition discriminate) | idtac].
    all: try (rewrite Hq; by simplify_map_eq). }
  destruct (QStr.startsWith key "region") eqn:Eregion.
  { assert (Nlat : key <> "datum_lat") by (intros E; rewrite E in Eregion; discriminate).
    assert (Nlon : key <> "datum_lon") by (intros E; rewrite E in Eregion; discriminate).
    rewrite (eqb_false _ _ Nlat), (eqb_false _ _ Nlon).
    destruct (QStr.isEmpty value) eqn:Ev; cbn [negb andb].
    - apply (Hempty value) in Ev.
      repeat split; intros; try assumption; try contradiction; try congruence;
        try (exfalso; intuition congruence).
    - assert (value <> "") by (intros E; apply (Hempty value) in E; congruence).
      xp_simpl.
      repeat split; intros; try assumption; try contradiction; try congruence;
        try (exfalso; intuition congruence); try (by simplify_map_eq). }
  cbn [andb].
  destruct (String.eqb_spec key "datum_lat") as [Elat|Nlat].
  { destruct (almostNotEqual (QStr.toFloat value) 0) eqn:Ea; cbn [andb].
    - xp_simpl. rewrite Hg.
      repeat split; intros; try assumption; try contradiction; try congruence;
        try discriminate; try (exfalso; intuition congruence).
    - assert (Nlon : key <> "datum_lon") by (rewrite Elat; discriminate).
      rewrite (eqb_false _ _ Nlon). cbn [andb].
      repeat split; intros; try assumption; try contradiction; try congruence;
        try discriminate; try (exfalso; intuition congruence). }
  cbn [andb].
  destruct (String.eqb_spec key "datum_lon") as [Elon|Nlon].
  { destruct (almostNotEqual (QStr.toFloat value) 0) eqn:Ea; cbn [andb].
    - xp_simpl. rewrite Hg.
      repeat split; intros; try assumption; try contradiction; try congruence;
        try discriminate; try (exfalso; intuition congruence).
    - repeat split; intros; try assumption; try contradiction; try congruence;
        try discriminate; try (exfalso; intuition congruence). }
  cbn [andb].
  repeat split; intros; try assumption; try contradiction; try congruence;
    try discriminate; try (exfalso; intuition congruence).
Qed.

End Integrity.

(** ** The identifiers of a runway *)

Ltac keep_ids :=
  repeat first [ progress autorewrite with xp_ids
               | rewrite (app_if ids)
               | rewrite if_same ];
  try close_eq.

Lemma runwayView_same (s s' : XpAirportWriter) :
  runwayEndRecords s' = runwayEndRecords s -> ids s' = ids s -> db s' = db s ->
  runwayView s' = runwayView s.
Proof. unfold runwayView. now intros -> -> ->. Qed.

Lemma runwayView_inv (s : XpAirportWriter) r i d :
  runwayView s = (r, i, d) -> runwayEndRecords s = r /\ ids s = i /\ db s = d.
Proof. unfold runwayView. intros H. now inversion H. Qed.

Lemma runwayView_upd_ids f (s : XpAirportWriter) :
  runwayView (upd_ids f s) = (runwayEndRecords s, f (ids s), db s).
Proof. reflexivity. Qed.

(** One step of a binder: the view of the writer after it is that of the
    writer before, or the one with the identifiers updated. *)
Ltac view_keep :=
  first
    [ match goal with
      | Hs : runwayView ?s = _ |- runwayView _ = _ =>
          transitivity (runwayView s);
          [ apply runwayView_same; [solve [keep_ends] | solve [keep_ids] | solve [keep_db]]
          | exact Hs ]
      end
    | match goal with
      | Hs : runwayView ?s = _ |- runwayView (upd_ids _ ?s) = _ =>
          rewrite runwayView_upd_ids;
          destruct (runwayView_inv _ _ _ _ Hs) as (-> & -> & ->);
          cbv beta; reflexivity
      end ].

Ltac view_step :=
  lazymatch goal with
  | |- context G [runwayView (let x := ?A in @?B x)] =>
      first
        [ let s := fresh "s" in let H := fresh "Hs" in
          eassert (H : runwayView A = _) by view_keep;
          set (s := A) in *;
          lazymatch goal with
          | |- context G' [runwayView (let x := s in @?B' x)] =>
              let g := context G' [runwayView (B' s)] in change g; cbv beta
          end;
          clearbody s;
          repeat match goal with
                 | Hold : runwayView ?s0 = _ |- _ =>
                     tryif constr_eq s0 s then fail else (clear Hold; try clear s0)
                 end
        | let g := context G [runwayView (B A)] in change g; cbv beta ]
  end.

Lemma curRunwayEndId_set v i : curRunwayEndId (set_curRunwayEndId v i) = v.
Proof. reflexivity. Qed.

(** The identifiers of the writer in the view at hand. *)
Ltac view_ids :=
  match goal with
  | Hs : runwayView ?s = _ |- _ =>
      let Hids := fresh "Hids" in
      destruct (runwayView_inv _ _ _ _ Hs) as (_ & Hids & _);
      rewrite ?Hids, ?curRunwayEndId_set; clear Hids
  end.

Section RunwayIds.

Variable ext : Externals.
Variable ctx : XpWriterContext.

Lemma ids_appendRunwayEnd line code id name ty h pos i1 i2 i3 i4 i5 st :
  ids (appendRunwayEnd line code id name ty h pos i1 i2 i3 i4 i5 st) = ids st.
Proof.
  cbv beta delta [appendRunwayEnd]. cbv zeta.
  destruct (bool_decide _); [destruct (negb _)|]; cbv beta iota; keep_ids.
Qed.

Lemma db_appendRunwayEnd line code id name ty h pos i1 i2 i3 i4 i5 st :
  db (appendRunwayEnd line code id name ty h pos i1 i2 i3 i4 i5 st) = db st.
Proof.
  cbv beta delta [appendRunwayEnd]. cbv zeta.
  destruct (bool_decide _); [destruct (negb _)|]; cbv beta iota; keep_db.
Qed.

Lemma ids_finishPavement st : ids (finishPavement st) = ids st.
Proof.
  cbv beta delta [finishPavement].
  destruct (ignoringAirport (flags st)); [reflexivity|cbv iota].
  destruct (_ || _); [|reflexivity].
  repeat let_step ids keep_ids. keep_ids.
Qed.

Lemma ids_finishStartupLocation st : ids (finishStartupLocation st) = ids st.
Proof.
  cbv beta delta [finishStartupLocation].
  destruct (writingStartLocation (flags st)); [cbv iota|reflexivity].
  repeat let_step ids keep_ids. keep_ids.
Qed.

(** The start position of a runway end. *)
Lemma writeRunwayStart_row id name h pos st :
  exists rec,
    runwayView (writeRunwayStart id name h pos st)
    = (runwayEndRecords st, set_curStartId (curStartId (ids st) + 1) (ids st),
       db st ++ [(insertStartQuery, rec)])
    /\ rec !! ":runway_end_id" = Some (QInt id)
    /\ rec !! ":start_id" = Some (QInt (curStartId (ids st) + 1))
    /\ rec !! ":runway_name" = Some (QString name)
    /\ rec !! ":type" = Some (QString "R").
Proof.
  cbv beta delta [writeRunwayStart]. cbv zeta. unfold runwayView. xp_simpl.
  eexists. split; [reflexivity|]. repeat split; by simplify_map_eq.
Qed.

Lemma bindRunway_view line code st :
  ignoringAirport (flags st) = false ->
  let n := curRunwayEndId (ids st) in
  exists recP recS run start1 start2 i,
    runwayView (bindRunway ext line code st)
    = (runwayEndRecords st ++ [recP; recS], i,
       db st ++ [(insertRunwayQuery, run); (insertStartQuery, start1);
                 (insertStartQuery, start2)])
    /\ curRunwayEndId i = n + 2
    /\ curStartId i = curStartId (ids st) + 2
    /\ recP !! ":runway_end_id" = Some (QInt (n + 1))
    /\ recS !! ":runway_end_id" = Some (QInt (n + 2))
    /\ recP !! ":end_type" = Some (QString "P")
    /\ recS !! ":end_type" = Some (QString "S")
    /\ start1 !! ":runway_end_id" = Some (QInt (n + 1))
    /\ start2 !! ":runway_end_id" = Some (QInt (n + 2))
    /\ start1 !! ":start_id" = Some (QInt (curStartId (ids st) + 1))
    /\ start2 !! ":start_id" = Some (QInt (curStartId (ids st) + 2))
    /\ start1 !! ":runway_name" = recP !! ":name"
    /\ start2 !! ":runway_name" = recS !! ":name".
Proof.
  intros Hi n.
  assert (H0 : runwayView st = (runwayEndRecords st, ids st, db st)) by reflexivity.
  cbv beta delta [bindRunway]. rewrite Hi. cbv iota.
  view_step.
  lazymatch goal with
  | |- context [runwayView (match ?T with pair _ _ => _ end)] => set (tup := T)
  end.
  assert (Ht : runwayView (snd tup) = (runwayEndRecords st, ids st, db st))
    by (subst tup; destruct code; cbn [snd]; view_keep).
  clearbody tup.
  destruct tup as [[[[[primaryPos secondaryPos] primaryName] secondaryName] surface] s0].
  cbn [snd] in Ht. cbv beta iota.
  view_step. view_step. view_ids.
  view_step. view_step. view_ids.
  fold n.
  repeat view_step.
  destruct (runwayView_inv _ _ _ _ Hs) as (Hr & Hids & Hdb).
  lazymatch goal with
  | |- context [appendRunwayEnd line code (n + 1) ?nm "P" ?h ?p ?a ?b ?c ?d ?e s] =>
      destruct (runwayEndRecords_appendRunwayEnd line code (n + 1) nm "P" h p a b c d e s)
        as (recP & HP & HPname & HPty & _ & HPid);
      pose proof (ids_appendRunwayEnd line code (n + 1) nm "P" h p a b c d e s) as HPi;
      pose proof (db_appendRunwayEnd line code (n + 1) nm "P" h p a b c d e s) as HPd;
      set (X1 := appendRunwayEnd line code (n + 1) nm "P" h p a b c d e s) in *
  end.
  clearbody X1.
  lazymatch goal with
  | |- context [appendRunwayEnd line code (n + 1 + 1) ?nm "S" ?h ?p ?a ?b ?c ?d ?e X1] =>
      destruct (runwayEndRecords_appendRunwayEnd line code (n + 1 + 1) nm "S" h p a b c d e X1)
        as (recS & HS & HSname & HSty & _ & HSid);
      pose proof (ids_appendRunwayEnd line code (n + 1 + 1) nm "S" h p a b c d e X1) as HSi;
      pose proof (db_appendRunwayEnd line code (n + 1 + 1) nm "S" h p a b c d e X1) as HSd;
      set (X2 := appendRunwayEnd line code (n + 1 + 1) nm "S" h p a b c d e X1) in *
  end.
  clearbody X2.
  set (run := boundValues insertRunwayQuery (queries X2)).
  assert (H3 : runwayView (clearBoundValues insertRunwayQuery (exec insertRunwayQuery X2))
               = (runwayEndRecords X2, ids X2, db X2 ++ [(insertRunwayQuery, run)]))
    by reflexivity.
  set (X3 := clearBoundValues insertRunwayQuery (exec insertRunwayQuery X2)) in *.
  clearbody X3 run.
  destruct (runwayView_inv _ _ _ _ H3) as (Hr3 & Hids3 & Hdb3).
  lazymatch goal with
  | |- context [writeRunwayStart (n + 1) ?nm ?h ?p X3] =>
      destruct (writeRunwayStart_row (n + 1) nm h p X3)
        as (start1 & H4 & H4end & H4id & H4name & _);
      set (X4 := writeRunwayStart (n + 1) nm h p X3) in *
  end.
  clearbody X4.
  destruct (runwayView_inv _ _ _ _ H4) as (Hr4 & Hids4 & Hdb4).
  lazymatch goal with
  | |- context [writeRunwayStart (n + 1 + 1) ?nm ?h ?p X4] =>
      destruct (writeRunwayStart_row (n + 1 + 1) nm h p X4)
        as (start2 & H5 & H5end & H5id & H5name & _)
  end.
  exists recP, recS, run, start1, start2.
  eexists. rewrite H5.
  assert (Hstart : curStartId (ids X3) = curStartId (ids st)).
  { rewrite Hids3, HSi, HPi, Hids. reflexivity. }
  assert (Hend : curRunwayEndId (ids X3) = n + 2).
  { rewrite Hids3, HSi, HPi, Hids. cbn. subst n. lia. }
  split.
  { rewrite Hr4, Hr3, HS, HP, Hr, Hdb4, Hdb3, HSd, HPd, Hdb, <- !app_assoc. reflexivity. }
  rewrite Hids4. cbn [curRunwayEndId curStartId set_curStartId].
  rewrite Hstart, Hend.
  replace (n + 1 + 1) with (n + 2) in * by lia.
  rewrite H4end, H5end, H4id, H5id, H4name, H5name, HPname, HSname, Hids4.
  cbn [curRunwayEndId curStartId set_curStartId]. rewrite Hstart.
  replace (curStartId (ids st) + 1 + 1) with (curStartId (ids st) + 2) by lia.
  repeat split; assumption.
Qed.

(** X27.  A runway row gives the two ends of the runway the next two
    identifiers of runway ends, the primary end first, writes one row of the
    runway and two start positions, and makes the start positions refer to
    the two ends by these identifiers and by their names. *)
Theorem runway_ends_get_consecutive_ids line st :
  ignoringAirport (flags st) = false ->
  rowCodeOf line = LAND_RUNWAY \/ rowCodeOf line = WATER_RUNWAY ->
  let st' := write ext line ctx st in
  let n := curRunwayEndId (ids st) in
  exists recP recS run start1 start2,
    runwayEndRecords st' = runwayEndRecords st ++ [recP; recS]
    /\ rowsOf insertRunwayQuery st' = rowsOf insertRunwayQuery st ++ [run]
    /\ rowsOf insertStartQuery st' = rowsOf insertStartQuery st ++ [start1; start2]
    /\ curRunwayEndId (ids st') = n + 2
    /\ rowsOf insertRunwayEndQuery st' = rowsOf insertRunwayEndQuery st
    /\ recP !! ":runway_end_id" = Some (QInt (n + 1))
    /\ recS !! ":runway_end_id" = Some (QInt (n + 2))
    /\ recP !! ":end_type" = Some (QString "P")
    /\ recS !! ":end_type" = Some (QString "S")
    /\ start1 !! ":runway_end_id" = Some (QInt (n + 1))
    /\ start2 !! ":runway_end_id" = Some (QInt (n + 2))
    /\ start1 !! ":runway_name" = recP !! ":name"
    /\ start2 !! ":runway_name" = recS !! ":name".
Proof.
  intros Hi Hcode st' n. subst st'. rewrite (write_runway ext ctx line st Hcode).
  set (st0 := finishStartupLocation (finishPavement st)).
  assert (Hi0 : ignoringAirport (flags st0) = false).
  { subst st0. now rewrite finishStartupLocation_ignoring, finishPavement_ignoring. }
  assert (Hr0 : runwayEndRecords st0 = runwayEndRecords st).
  { subst st0.
    now rewrite runwayEndRecords_finishStartupLocation, runwayEndRecords_finishPavement. }
  assert (Hn0 : curRunwayEndId (ids st0) = n).
  { subst st0 n. now rewrite ids_finishStartupLocation, ids_finishPavement. }
  destruct (db_finishPavement st) as (l1 & Hl1 & Hq1).
  destruct (db_finishStartupLocation (finishPavement st)) as (l2 & Hl2 & Hq2).
  fold st0 in Hl2.
  assert (Hrows : forall q, q <> insertApronQuery -> q <> insertParkingQuery ->
                            rowsOf q st0 = rowsOf q st).
  { intros q Ha Hp.
    rewrite (rowsOf_app_others q (finishPavement st) st0 l2 Hl2),
            (rowsOf_app_others q st (finishPavement st) l1 Hl1); [reflexivity| |].
    - eapply List.Forall_impl; [|exact Hq1]. intros e He. cbn in He. congruence.
    - eapply List.Forall_impl; [|exact Hq2]. intros e He. cbn in He. congruence. }
  destruct (bindRunway_view line (rowCodeOf line) st0 Hi0)
    as (recP & recS & run & start1 & start2 & i & Hview & Hend & _ & HPid & HSid
        & HPty & HSty & H1 & H2 & _ & _ & Hn1 & Hn2).
  rewrite Hn0 in *.
  destruct (runwayView_inv _ _ _ _ Hview) as (Hr & Hids & Hdb).
  exists recP, recS, run, start1, start2.
  split; [now rewrite Hr, Hr0|].
  split.
  { rewrite (rowsOf_app insertRunwayQuery st0 _ _ Hdb), Hrows by discriminate.
    cbn [List.filter fst map snd].
    rewrite bool_decide_eq_true_2 by reflexivity.
    rewrite !bool_decide_eq_false_2 by discriminate. reflexivity. }
  split.
  { rewrite (rowsOf_app insertStartQuery st0 _ _ Hdb), Hrows by discriminate.
    cbn [List.filter fst map snd].
    rewrite bool_decide_eq_false_2 by discriminate.
    rewrite !bool_decide_eq_true_2 by reflexivity. reflexivity. }
  split; [now rewrite Hids|].
  split.
  { rewrite (rowsOf_app insertRunwayEndQuery st0 _ _ Hdb), Hrows by discriminate.
    cbn [List.filter fst map snd].
    rewrite !bool_decide_eq_false_2 by discriminate. apply app_nil_r. }
  repeat split; assumption.
Qed.

End RunwayIds.

(** ** The runway end of an approach indicator *)

Lemma Qltb_lt (a b : Q) : Geo.Qltb a b = true <-> (a < b)%Q.
Proof.
  unfold Geo.Qltb. rewrite negb_true_iff. split.
  - intros H. apply Qnot_le_lt. intros Hle. apply Qle_bool_iff in Hle. congruence.
  - intros H. destruct (Qle_bool b a) eqn:E; [|reflexivity].
    apply Qle_bool_iff in E. exfalso. exact (Qlt_not_le _ _ H E).
Qed.

Lemma Qltb_ge (a b : Q) : Geo.Qltb a b = false <-> (b <= a)%Q.
Proof.
  unfold Geo.Qltb. rewrite negb_false_iff. apply Qle_bool_iff.
Qed.

(** The difference of the heading of a runway end to an orientation, as the
    loop of [bindVasi] takes it. *)
Local Abbreviation headingDiff o rec :=
  (Geo.Qabs' (toFloatV (rec !! ":heading") - o)%Q).

(** The loop from any state: it leaves the best end as it is when no end
    is nearer, and otherwise ends on an end that is nearest. *)
Lemma findEndByAngle_loop (o : Q) (recs : list SqlRecord) :
  forall (i : nat) (best : option nat) (bestAngle : Q),
    (findEndByAngle o recs i best bestAngle = best
     /\ forall rec', In rec' recs ->
          (10 <= headingDiff o rec')%Q
          \/ (Geo.Qabs' (bestAngle - o) <= headingDiff o rec')%Q)
    \/ (exists k rec,
          findEndByAngle o recs i best bestAngle = Some (i + k)%nat
          /\ recs !! k = Some rec
          /\ (headingDiff o rec < 10)%Q
          /\ (headingDiff o rec < Geo.Qabs' (bestAngle - o))%Q
          /\ forall rec', In rec' recs -> (headingDiff o rec <= headingDiff o rec')%Q).
Proof.
  induction recs as [|r rest IH]; intros i best bestAngle; cbn [findEndByAngle].
  - left. split; [reflexivity|intros ? []].
  - cbv zeta.
    destruct (Geo.Qltb (headingDiff o r) 10
              && Geo.Qltb (headingDiff o r) (Geo.Qabs' (bestAngle - o))) eqn:E.
    + apply andb_true_iff in E as [E1 E2]. apply Qltb_lt in E1, E2.
      destruct (IH (S i) (Some i) (toFloatV (r !! ":heading")))
        as [[Hr Hall]|(k & rec & Hr & Hk & Hlt10 & Hlt & Hall)].
      * right. exists 0%nat, r. rewrite Hr.
        split; [f_equal; lia|]. split; [reflexivity|].
        split; [exact E1|]. split; [exact E2|].
        intros rec' [<-|Hin]; [apply Qle_refl|].
        destruct (Hall rec' Hin) as [H|H]; [|exact H].
        apply Qlt_le_weak. eapply Qlt_le_trans; [exact E1|exact H].
      * right. exists (S k), rec. rewrite Hr.
        split; [f_equal; lia|]. split; [exact Hk|].
        split; [exact Hlt10|]. split; [eapply Qlt_trans; [exact Hlt|exact E2]|].
        intros rec' [<-|Hin]; [apply Qlt_le_weak; exact Hlt|apply Hall; exact Hin].
    + apply andb_false_iff in E.
      assert (Hr0 : (10 <= headingDiff o r)%Q
                    \/ (Geo.Qabs' (bestAngle - o) <= headingDiff o r)%Q).
      { destruct E as [E|E]; apply Qltb_ge in E; auto. }
      destruct (IH (S i) best bestAngle)
        as [[Hr Hall]|(k & rec & Hr & Hk & Hlt10 & Hlt & Hall)].
      * left. split; [exact Hr|].
        intros rec' [<-|Hin]; [exact Hr0|apply Hall; exact Hin].
      * right. exists (S k), rec. rewrite Hr.
        split; [f_equal; lia|]. split; [exact Hk|].
        split; [exact Hlt10|]. split; [exact Hlt|].
        intros rec' [<-|Hin]; [|apply Hall; exact Hin].
        destruct Hr0 as [H|H]; apply Qlt_le_weak;
          (eapply Qlt_le_trans; [|exact H]); assumption.
Qed.

(** X28.  The search of a runway end by the heading: the end that is found
    is less than 10 degrees off the orientation of the indicator and no end
    is nearer; no end is found exactly when every end is 10 degrees off or
    more.  The differences are taken as they are, not around the circle. *)
Theorem findEndByAngle_is_nearest (orientation : Q) (recs : list SqlRecord) :
  (10 <= Geo.Qabs' (Geo.FLOAT_MAX / 4 - orientation))%Q ->
  match findEndByAngle orientation recs 0 None (Geo.FLOAT_MAX / 4)%Q with
  | Some k =>
      exists rec,
        recs !! k = Some rec
        /\ (headingDiff orientation rec < 10)%Q
        /\ forall rec', In rec' recs ->
             (headingDiff orientation rec <= headingDiff orientation rec')%Q
  | None =>
      forall rec', In rec' recs -> (10 <= headingDiff orientation rec')%Q
  end.
Proof.
  intros HB.
  destruct (findEndByAngle_loop orientation recs 0 None (Geo.FLOAT_MAX / 4)%Q)
    as [[Hr Hall]|(k & rec & Hr & Hk & Hlt10 & _ & Hall)]; rewrite Hr.
  - intros rec' Hin. destruct (Hall rec' Hin) as [H|H]; [exact H|].
    eapply Qle_trans; [exact HB|exact H].
  - cbn [Nat.add]. exists rec. split; [exact Hk|]. split; [exact Hlt10|exact Hall].
Qed.

(** The first end of a name. *)
Lemma findEndByName_first (rwName : string) (recs : list SqlRecord) :
  forall (i k : nat),
    findEndByName rwName recs i = Some k ->
    exists j rec,
      k = (i + j)%nat
      /\ recs !! j = Some rec
      /\ toString (rec !! ":name") = rwName
      /\ forall j' rec', (j' < j)%nat -> recs !! j' = Some rec' ->
           toString (rec' !! ":name") <> rwName.
Proof.
  induction recs as [|r rest IH]; intros i k; cbn [findEndByName]; [discriminate|].
  destruct (String.eqb_spec (toString (r !! ":name")) rwName) as [E|N].
  - intros H. inversion H; subst k. exists 0%nat, r.
    split; [lia|]. split; [reflexivity|]. split; [exact E|]. intros j' rec' Hlt. lia.
  - intros H. destruct (IH (S i) k H) as (j & rec & -> & Hj & Hname & Hfirst).
    exists (S j), rec. split; [lia|]. split; [exact Hj|]. split; [exact Hname|].
    intros [|j'] rec' Hlt Hrec'.
    + cbn in Hrec'. inversion Hrec'; subst rec'. exact N.
    + apply (Hfirst j' rec'); [lia|exact Hrec'].
Qed.

Section Vasi.

Variable ext : Externals.
Variable ctx : XpWriterContext.

(** X29.  An approach indicator that names a runway end is attached to the
    first end of that name, whatever the headings: that end gets the type
    and the pitch of the indicator on the left side, keeps its other values,
    and is counted; the other ends stay as they are and nothing is
    written. *)
Theorem vasi_is_attached_by_name line st k :
  ignoringAirport (flags st) = false ->
  ignoredIndicator (toApproachIndicator (QStr.toInt (at_ line v.TYPE))) = false ->
  QStr.value line v.RUNWAY <> "" ->
  findEndByName (QStr.value line v.RUNWAY) (runwayEndRecords st) 0 = Some k ->
  let st' := bindVasi line st in
  db st' = db st
  /\ numRunwayEndVasi (counts st') = numRunwayEndVasi (counts st) + 1
  /\ length (runwayEndRecords st') = length (runwayEndRecords st)
  /\ (forall j, j <> k -> runwayEndRecords st' !! j = runwayEndRecords st !! j)
  /\ (forall j rec', (j < k)%nat -> runwayEndRecords st !! j = Some rec' ->
        toString (rec' !! ":name") <> QStr.value line v.RUNWAY)
  /\ exists rec0 rec,
       runwayEndRecords st !! k = Some rec0
       /\ toString (rec0 !! ":name") = QStr.value line v.RUNWAY
       /\ runwayEndRecords st' !! k = Some rec
       /\ rec !! ":left_vasi_type"
          = Some (QString (approachIndicatorToDb
                             (toApproachIndicator (QStr.toInt (at_ line v.TYPE)))))
       /\ rec !! ":left_vasi_pitch" = Some (QFloat (QStr.toFloat (at_ line v.ANGLE)))
       /\ rec !! ":right_vasi_type" = Some (QString "UNKN")
       /\ rec !! ":name" = rec0 !! ":name"
       /\ rec !! ":heading" = rec0 !! ":heading".
Proof.
  intros Hign Htype Hname Hfind st'. subst st'.
  destruct (findEndByName_first _ _ _ _ Hfind) as (j & rec0 & Hk & Hj & Hn & Hfirst).
  cbn [Nat.add] in Hk. subst j.
  cbv beta delta [bindVasi]. rewrite Hign. cbv iota.
  set (stw := checkWriting "bindVasi" st).
  assert (Hw : db stw = db st /\ counts stw = counts st
               /\ runwayEndRecords stw = runwayEndRecords st).
  { subst stw. unfold checkWriting. destruct (negb _); repeat split. }
  destruct Hw as (Hdb & Hc & Hr). clearbody stw.
  cbv zeta. rewrite Htype. cbv iota.
  assert (He : QStr.isEmpty (QStr.value line v.RUNWAY) = false).
  { destruct (QStr.value line v.RUNWAY); [contradiction|reflexivity]. }
  rewrite He. cbn [negb]. rewrite Hr, Hfind. xp_simpl. rewrite Hr, Hdb, Hc.
  split; [reflexivity|]. split; [reflexivity|].
  split; [apply length_alter|].
  split; [intros j Hne; apply list_lookup_alter_ne; congruence|].
  split; [exact Hfirst|].
  exists rec0. eexists. split; [exact Hj|]. split; [exact Hn|].
  split; [rewrite list_lookup_alter, decide_True, Hj by reflexivity; reflexivity|].
  repeat split; by simplify_map_eq.
Qed.

End Vasi.

(** ** The further properties on the sample session *)

Lemma writeStartup_writes_untyped_stand_witness :
  let st' := writeStartup SampleMore.start15 Sample.opened in
  (exists rec,
     rowsOf insertParkingQuery st' = rowsOf insertParkingQuery Sample.opened ++ [rec]
     /\ rec !! ":type" = Some (QString "")
     /\ rec !! ":radius" = Some (QFloat 50)
     /\ rec !! ":number" = Some (QInt (-1))
     /\ rec !! ":name" = Some (QString (mid SampleMore.start15 s.NAME))
     /\ rec !! ":parking_id" = Some (QInt (curParkingId (ids Sample.opened) + 1)))
  /\ writingStartLocation (flags st') = false
  /\ boundValues insertParkingQuery (queries st') = ∅
  /\ numParking (counts st') = numParking (counts Sample.opened) + 1
  /\ numParkingGate (counts st') = numParkingGate (counts Sample.opened)
  /\ numParkingGaRamp (counts st') = numParkingGaRamp (counts Sample.opened)
  /\ largestParkingGate st' = largestParkingGate Sample.opened
  /\ largestParkingRamp st' = largestParkingRamp Sample.opened.
Proof.
  apply (writeStartup_writes_untyped_stand SampleMore.start15 Sample.opened).
  vm_compute; reflexivity.
Defined.

Lemma taxi_edge_row_witness :
  exists rec,
    rowsOf insertTaxiQuery (bindTaxiEdge SampleMore.taxiEdge Sample.opened)
    = rowsOf insertTaxiQuery Sample.opened ++ [rec]
    /\ rec !! ":type" = Some (QString "T")
    /\ rec !! ":name" = Some (QString "").
Proof.
  destruct (taxi_edge_row SampleMore.taxiEdge Sample.opened) as [_ H];
    [vm_compute; reflexivity|].
  destruct H as (rec & Hrows & _ & _ & Hty & _ & Hgarbage & _); [discriminate|].
  exists rec. split; [exact Hrows|]. split; [exact Hty|].
  apply Hgarbage. vm_compute. do 7 right. left. reflexivity.
Defined.

Lemma taxi_edge_uses_bound_nodes_witness :
  exists rec,
    rowsOf insertTaxiQuery
      (bindTaxiEdge SampleMore.taxiEdge
         (bindTaxiNode SampleMore.taxiNode2
            (bindTaxiNode SampleMore.taxiNode1 Sample.opened)))
    = rowsOf insertTaxiQuery Sample.opened ++ [rec]
    /\ rec !! ":end_lonx"
       = Some (QFloat (QStr.toFloat (at_ SampleMore.taxiNode2 tn.LONX)))
    /\ rec !! ":start_lonx"
       = Some (QFloat (QStr.toFloat (at_ SampleMore.taxiNode1 tn.LONX))).
Proof.
  destruct (taxi_edge_uses_bound_nodes SampleMore.taxiNode1 SampleMore.taxiNode2
              SampleMore.taxiEdge Sample.opened)
    as (rec & Hrows & Hend & _ & Hstart & _);
    [vm_compute; reflexivity|discriminate|vm_compute; reflexivity..|].
  exists rec. split; [exact Hrows|]. split; [exact Hend|].
  apply Hstart. vm_compute. discriminate.
Defined.

Lemma writeCom_types_witness :
  exists rec,
    rowsOf insertComQuery (writeCom SampleMore.awos COM_WEATHER Sample.opened)
    = rowsOf insertComQuery Sample.opened ++ [rec]
    /\ rec !! ":type" = Some (QString "AWOS").
Proof.
  destruct (writeCom_types SampleMore.awos COM_WEATHER Sample.opened)
    as (rec & Hrows & _ & _ & _ & Hweather & _);
    [vm_compute; reflexivity|left; reflexivity|].
  exists rec. split; [exact Hrows|].
  destruct (Hweather eq_refl) as (_ & Hawos & _).
  apply Hawos; vm_compute; reflexivity.
Defined.

Lemma helipad_refers_to_its_start_witness :
  exists start pad,
    rowsOf insertStartQuery (writeHelipad SampleMore.helipad Sample.opened)
    = rowsOf insertStartQuery Sample.opened ++ [start]
    /\ rowsOf insertHelipadQuery (writeHelipad SampleMore.helipad Sample.opened)
       = rowsOf insertHelipadQuery Sample.opened ++ [pad]
    /\ pad !! ":start_id" = start !! ":start_id"
    /\ start !! ":runway_name" = Some (QString "01").
Proof.
  destruct (helipad_refers_to_its_start SampleMore.helipad Sample.opened)
    as (start & pad & H1 & H2 & H3 & H4 & _ & _ & _ & _ & _ & H5 & _);
    [vm_compute; reflexivity|].
  exists start, pad. split; [exact H1|]. split; [exact H2|].
  split; [now rewrite H3, H4|]. rewrite H5. vm_compute. reflexivity.
Defined.

Lemma bindMetadata_keys_witness :
  boundValue insertAirportQuery ":city" (bindMetadata SampleMore.city Sample.opened)
  = Some (QString "Seattle Tacoma").
Proof.
  destruct (bindMetadata_keys SampleMore.city Sample.opened)
    as (_ & _ & Hcity & _); [vm_compute; reflexivity|].
  destruct Hcity as [H _]; [vm_compute; reflexivity|].
  rewrite H. vm_compute. reflexivity.
Defined.

Lemma findEndByAngle_is_nearest_witness :
  match findEndByAngle 4 [Sample.end356] 0 None (Geo.FLOAT_MAX / 4)%Q with
  | Some k =>
      exists rec,
        [Sample.end356] !! k = Some rec
        /\ (Geo.Qabs' (toFloatV (rec !! ":heading") - 4) < 10)%Q
        /\ forall rec', In rec' [Sample.end356] ->
             (Geo.Qabs' (toFloatV (rec !! ":heading") - 4)
              <= Geo.Qabs' (toFloatV (rec' !! ":heading") - 4))%Q
  | None =>
      forall rec', In rec' [Sample.end356] ->
        (10 <= Geo.Qabs' (toFloatV (rec' !! ":heading") - 4))%Q
  end.
Proof.
  apply (findEndByAngle_is_nearest 4 [Sample.end356]).
  apply Qle_bool_iff. vm_compute. reflexivity.
Defined.

Lemma vasi_is_attached_by_name_witness :
  let st' := bindVasi SampleMore.papiNamed Sample.withEnd356 in
  db st' = db Sample.withEnd356
  /\ numRunwayEndVasi (counts st') = numRunwayEndVasi (counts Sample.withEnd356) + 1
  /\ length (runwayEndRecords st') = length (runwayEndRecords Sample.withEnd356).
Proof.
  destruct (vasi_is_attached_by_name SampleMore.papiNamed Sample.withEnd356 0)
    as (H1 & H2 & H3 & _); [vm_compute; reflexivity..|discriminate|vm_compute; reflexivity|].
  cbv zeta. split; [exact H1|]. split; [exact H2|exact H3].
Defined.

Lemma runway_ends_get_consecutive_ids_witness :
  let st' := write Sample.ext Sample.runway Sample.context Sample.opened in
  let n := curRunwayEndId (ids Sample.opened) in
  exists recP recS,
    runwayEndRecords st' = runwayEndRecords Sample.opened ++ [recP; recS]
    /\ recP !! ":runway_end_id" = Some (QInt (n + 1))
    /\ recS !! ":runway_end_id" = Some (QInt (n + 2))
    /\ curRunwayEndId (ids st') = n + 2.
Proof.
  destruct (runway_ends_get_consecutive_ids Sample.ext Sample.context Sample.runway
              Sample.opened)
    as (recP & recS & run & start1 & start2 & He & _ & _ & Hn & _ & HP & HS & _);
    [vm_compute; reflexivity|left; vm_compute; reflexivity|].
  exists recP, recS. cbv zeta. split; [exact He|]. split; [exact HP|].
  split; [exact HS|exact Hn].
Defined.
